(** * InfoDash: the daily-summary generation and archival subsystem

    A shallow embedding of the summary code of [server.js], of the browser
    module [public/js/summary.js] and of the finance widget's market-hours
    check, followed by the properties of the specification checked against
    it.

    Conventions.
    - A JavaScript string is a [string]; a character stands for one code
      unit below 256.
    - [null], [undefined] and a missing property are [None].
    - Network calls, the clock and the file system are inputs of the
      functions that use them (an outcome per call), so every function
      below is total and can be evaluated. *)

From Stdlib Require Import String Ascii List Bool ZArith Lia Arith DecimalString.
From Stdlib Require Import Sorting.Sorted Sorting.Permutation.
Import ListNotations.

Local Open Scope string_scope.
Local Open Scope list_scope.

(* ===================================================================== *)
(** * Part I. The program *)
(* ===================================================================== *)

(** ** Calls that may throw

    The result of awaiting a call: it resolves with a value or it throws
    (rejects) with a message. *)

Inductive Outcome (A : Type) : Type :=
| Returns (value : A)
| Throws (message : string).

Arguments Returns {A} value.
Arguments Throws {A} message.

(** ** JavaScript string primitives *)

Module Js.

(** [s.startsWith(p)] *)
Fixpoint startsWith (p s : string) : bool :=
  match p, s with
  | EmptyString, _ => true
  | String _ _, EmptyString => false
  | String a p', String b s' => Ascii.eqb a b && startsWith p' s'
  end.

(** [s.includes(p)]: [p] occurs somewhere in [s]. *)
Fixpoint includes (p s : string) : bool :=
  startsWith p s ||
  match s with
  | EmptyString => false
  | String _ s' => includes p s'
  end.

Definition rev (s : string) : string :=
  string_of_list_ascii (List.rev (list_ascii_of_string s)).

(** [s.endsWith(p)] *)
Definition endsWith (p s : string) : bool := startsWith (rev p) (rev s).

(** White space as [String.prototype.trim] sees it, among the code units
    below 256: TAB, LF, VT, FF, CR, SPACE and NBSP. *)
Definition isWhiteSpace (c : ascii) : bool :=
  let n := nat_of_ascii c in
  ((9 <=? n) && (n <=? 13) || (n =? 32) || (n =? 160))%nat.

Fixpoint trimStart (s : string) : string :=
  match s with
  | EmptyString => EmptyString
  | String c s' => if isWhiteSpace c then trimStart s' else s
  end.

Definition trimEnd (s : string) : string := rev (trimStart (rev s)).

(** [s.trim()] *)
Definition trim (s : string) : string := trimEnd (trimStart s).

(** [s.toUpperCase()] on the letters a-z; other code units are kept. *)
Definition upperChar (c : ascii) : ascii :=
  let n := nat_of_ascii c in
  if ((97 <=? n) && (n <=? 122))%nat then ascii_of_nat (n - 32) else c.

Fixpoint toUpperCase (s : string) : string :=
  match s with
  | EmptyString => EmptyString
  | String c s' => String (upperChar c) (toUpperCase s')
  end.

(** Truthiness of a string-valued property: present and not empty. *)
Definition truthy (v : option string) : bool :=
  match v with
  | Some s => negb (s =? "")
  | None => false
  end.

(** [a === b] on string-valued properties that may be missing. *)
Definition strictEq (a b : option string) : bool :=
  match a, b with
  | Some x, Some y => x =? y
  | None, None => true
  | _, _ => false
  end.

(** The members of [Object.prototype] in Node.  With one of these names,
    [obj[key]] finds the inherited member where the object has no
    property of its own, and a [__proto__] assignment stores nothing. *)
Definition objectPrototypeKeys : list string :=
  [ "constructor"; "__defineGetter__"; "__defineSetter__"; "hasOwnProperty";
    "__lookupGetter__"; "__lookupSetter__"; "isPrototypeOf";
    "propertyIsEnumerable"; "toString"; "valueOf"; "__proto__";
    "toLocaleString" ].

(** [key] names a member of [Object.prototype]. *)
Definition inherited (key : string) : bool :=
  existsb (String.eqb key) objectPrototypeKeys.

End Js.

(** ** The section parser

    [parseAutomatedSummarySections] (server.js) and [parseSummarySections]
    (summary.js) apply the same four regular expressions, all with the
    [s] flag (the dot matches every code unit):

    [(?:\*\*H\*\*|H:?)(.*?)(?=\*\*N\*\*|N:?|---)]   for the first three,
    [(?:\*\*INFO GENIE\*\*|INFO GENIE:?)(.*?)$]      for the last one. *)

Module Parser.

(** The three spellings of a header [H], in the order the alternation
    [\*\*H\*\*|H:?] tries them (the greedy [:?] takes the colon first). *)
Definition headerSpellings (h : string) : list string :=
  [ ("**" ++ h ++ "**")%string; (h ++ ":")%string; h ].

(** What the lookahead [(?=\*\*N\*\*|N:?|---)] accepts at a position. *)
Definition terminators (n : string) : list string :=
  [ ("**" ++ n ++ "**")%string; (n ++ ":")%string; n; "---" ].

Definition anyPrefix (ps : list string) (s : string) : bool :=
  existsb (fun p => Js.startsWith p s) ps.

(** The lazy group [(.*?)] followed by a lookahead: the shortest prefix
    of [s] after which one of [stops] begins; [None] when none begins
    anywhere in [s]. *)
Fixpoint lazyUntil (stops : list string) (s : string) : option string :=
  if anyPrefix stops s then Some EmptyString
  else match s with
       | EmptyString => None
       | String c s' => option_map (String c) (lazyUntil stops s')
       end.

(** [drop n s]: [s] without its first [n] code units. *)
Fixpoint drop (n : nat) (s : string) : string :=
  match n, s with
  | O, _ => s
  | S n', String _ s' => drop n' s'
  | S _, EmptyString => EmptyString
  end.

(** One attempt of the matcher at the current position: the first header
    spelling that begins here and whose remainder the rest of the
    expression matches gives the captured group. *)
Fixpoint matchHere (heads : list string) (rest : string -> option string)
         (s : string) : option string :=
  match heads with
  | [] => None
  | h :: heads' =>
      if Js.startsWith h s then
        match rest (drop (String.length h) s) with
        | Some g => Some g
        | None => matchHere heads' rest s
        end
      else matchHere heads' rest s
  end.

(** [text.match(re)]: the leftmost position at which the expression
    matches; the result is capture group 1. *)
Fixpoint search (heads : list string) (rest : string -> option string)
         (s : string) : option string :=
  match matchHere heads rest s with
  | Some g => Some g
  | None =>
      match s with
      | EmptyString => None
      | String _ s' => search heads rest s'
      end
  end.

(** A section closed by the next header or by a horizontal rule. *)
Definition sectionBefore (h next : string) (text : string) : option string :=
  search (headerSpellings h) (lazyUntil (terminators next)) text.

(** The last section: [(.*?)$] without the [m] flag runs to the end. *)
Definition sectionToEnd (h : string) (text : string) : option string :=
  search (headerSpellings h) (fun s => Some s) text.

Record Sections := {
  news : option string;
  trends : option string;
  finance : option string;
  insights : option string
}.

Definition parseAutomatedSummarySections (summaryText : string) : Sections :=
  {| news := option_map Js.trim
               (sectionBefore "NEWS HIGHLIGHTS" "TRENDING TOPICS" summaryText);
     trends := option_map Js.trim
               (sectionBefore "TRENDING TOPICS" "MARKET OVERVIEW" summaryText);
     finance := option_map Js.trim
               (sectionBefore "MARKET OVERVIEW" "INFO GENIE" summaryText);
     insights := option_map Js.trim
               (sectionToEnd "INFO GENIE" summaryText) |}.

(** The browser's parser is the same code, apart from its logging. *)
Definition parseSummarySections (summaryText : string) : Sections :=
  parseAutomatedSummarySections summaryText.

End Parser.

(** ** Calendar arithmetic behind [Date]

    [etNow] in the source is a [Date] whose local fields hold the New York
    wall clock.  The model keeps those fields; the day of the week and the
    normalisation done by [setDate] go through a day count. *)

Module Calendar.

Local Open Scope Z_scope.

Record WallClock := {
  getFullYear : Z;
  getMonth : Z;      (* 0-based, as in JavaScript *)
  getDate : Z;
  getHours : Z;
  getMinutes : Z
}.

(** Days from 1970-01-01 to the given day of the proleptic Gregorian
    calendar, [m] counted from 1; any [d] is accepted and carries over. *)
Definition daysFromCivil (y m d : Z) : Z :=
  let y' := if m <=? 2 then y - 1 else y in
  let era := y' / 400 in
  let yoe := y' - era * 400 in
  let mp := (m + 9) mod 12 in
  let doy := (153 * mp + 2) / 5 + d - 1 in
  let doe := yoe * 365 + yoe / 4 - yoe / 100 + doy in
  era * 146097 + doe - 719468.

(** The inverse: year, month (from 1) and day of a day count. *)
Definition civilFromDays (z : Z) : Z * Z * Z :=
  let z' := z + 719468 in
  let era := z' / 146097 in
  let doe := z' - era * 146097 in
  let yoe := (doe - doe / 1460 + doe / 36524 - doe / 146096) / 365 in
  let doy := doe - (365 * yoe + yoe / 4 - yoe / 100) in
  let mp := (5 * doy + 2) / 153 in
  let d := doy - (153 * mp + 2) / 5 + 1 in
  let m := if mp <? 10 then mp + 3 else mp - 9 in
  (yoe + era * 400 + (if m <=? 2 then 1 else 0), m, d).

(** 0 is Sunday; 1970-01-01 was a Thursday. *)
Definition weekday (days : Z) : Z := (days + 4) mod 7.

(** [d.getDay()] *)
Definition getDay (d : WallClock) : Z :=
  weekday (daysFromCivil (getFullYear d) (getMonth d + 1) (getDate d)).

End Calendar.

(** ** The market-hours check

    Two functions named [isMarketOpen] exist: the server's (used by
    [saveDailySummary] and by the automated prompt) and the finance
    widget's in the browser, which first looks at the symbol typed into
    the page. *)

Module Market.

Import Calendar.
Local Open Scope Z_scope.

(** [isGoodFriday(d)]: Easter Sunday by the anonymous Gregorian
    algorithm, then two days back with [setDate]. *)
Definition isGoodFriday (d : WallClock) : bool :=
  let year := getFullYear d in
  let a := Z.rem year 19 in
  let b := year / 100 in
  let c := Z.rem year 100 in
  let d1 := b / 4 in
  let e := Z.rem b 4 in
  let f1 := (b + 8) / 25 in
  let g := (b - f1 + 1) / 3 in
  let h := Z.rem (19 * a + b - d1 - g + 15) 30 in
  let i := c / 4 in
  let k := Z.rem c 4 in
  let l := Z.rem (32 + 2 * e + 2 * i - h - k) 7 in
  let m := (a + 11 * h + 22 * l) / 451 in
  let month := (h + l - 7 * m + 114) / 31 - 1 in
  let day := Z.rem (h + l - 7 * m + 114) 31 + 1 in
  (* new Date(year, month, day): a year from 0 to 99 means 1900 + year *)
  let year' := if (0 <=? year) && (year <=? 99) then 1900 + year else year in
  let easter := daysFromCivil year' (month + 1) day in
  let '(gy, gm, gd) := civilFromDays (easter - 2) in
  (getFullYear d =? gy) && (getMonth d + 1 =? gm) && (getDate d =? gd).

Definition isHoliday (d : WallClock) : bool :=
  let month := getMonth d in
  let date := getDate d in
  let dayOfWeek := getDay d in
  if ((month =? 0) && (date =? 1))
     || ((month =? 5) && (date =? 19))
     || ((month =? 6) && ((date =? 4)
                          || ((date =? 3) && (dayOfWeek =? 5))
                          || ((date =? 5) && (dayOfWeek =? 1))))
     || ((month =? 11) && ((date =? 25)
                           || ((date =? 24) && (dayOfWeek =? 5))
                           || ((date =? 26) && (dayOfWeek =? 1))))
  then true
  else if (month =? 0) && (dayOfWeek =? 1) && (15 <=? date) && (date <=? 21) then true
  else if (month =? 1) && (dayOfWeek =? 1) && (15 <=? date) && (date <=? 21) then true
  else if (month =? 4) && (dayOfWeek =? 1) && (24 <? date) then true
  else if (month =? 8) && (dayOfWeek =? 1) && (date <=? 7) then true
  else if (month =? 10) && (dayOfWeek =? 4) && (22 <=? date) && (date <=? 28) then true
  else if isGoodFriday d then true
  else false.

(** The part both functions share, from "Check if weekday and not
    holiday" on. *)
Definition inSession (etNow : WallClock) : bool :=
  let day := getDay etNow in
  let hour := getHours etNow in
  let minute := getMinutes etNow in
  if (1 <=? day) && (day <=? 5) && negb (isHoliday etNow) then
    if ((9 <? hour) || ((hour =? 9) && (30 <=? minute))) && (hour <? 16)
    then true else false
  else false.

(** server.js: [function isMarketOpen()] has no parameter and reads no
    symbol; its only input is the clock. *)
Module Server.
Definition isMarketOpen (etNow : WallClock) : bool := inSession etNow.
End Server.

(** The finance widget: [stockSymbolInput] is the value of the page's
    symbol field, [None] when the page has no such field. *)
Module Finance.
Definition isMarketOpen (stockSymbolInput : option string)
           (etNow : WallClock) : bool :=
  let symbol := match stockSymbolInput with
                | Some value => Js.toUpperCase value
                | None => "^IXIC"%string
                end in
  if Js.endsWith "-USD" symbol then true
  else inSession etNow.
End Finance.

End Market.

(** ** The summary store

    [daily-summaries.json] holds one JSON object: a key per date, and under
    it either one summary object or an array of them. *)

Module Store.

Import Calendar.

(** What a caller hands to [saveDailySummary]. *)
Record SummaryData := {
  d_news : option string;
  d_trends : option string;
  d_finance : option string;
  d_overall : option string;
  d_generatedAt : option string;
  d_automated : option bool
}.

(** A summary object as it lies in the file.  Legacy objects have no
    [language], [country] or [timestamp]. *)
Record Summary := {
  news : option string;
  trends : option string;
  finance : option string;
  overall : option string;
  generatedAt : option string;
  language : option string;
  country : option string;
  timestamp : option string;
  marketOpen : option bool;
  automated : option bool
}.

Inductive Bucket :=
| Single (summary : Summary)
| Many (summaries : list Summary).

(** The parsed file: properties in insertion order, each key once. *)
Definition Archive := list (string * Bucket).

(** [summaries[date]], for a [date] that names no member of
    [Object.prototype] ([Js.inherited date = false]): the property the
    file stores under it, if any.  Under an inherited name the code
    finds the prototype's member where the file stores nothing; the
    dates the generator uses come from the clock and are never such
    names. *)
Fixpoint get (summaries : Archive) (date : string) : option Bucket :=
  match summaries with
  | [] => None
  | (k, v) :: rest => if (k =? date)%string then Some v else get rest date
  end.

(** [summaries[date] = v]: an existing property keeps its place, a new
    one goes to the end. *)
Fixpoint set (summaries : Archive) (date : string) (v : Bucket) : Archive :=
  match summaries with
  | [] => [(date, v)]
  | (k, old) :: rest =>
      if (k =? date)%string then (k, v) :: rest
      else (k, old) :: set rest date v
  end.

(** [summary.language === language && summary.country === country] *)
Definition sameRegion (language country : string) (summary : Summary) : bool :=
  Js.strictEq (Store.language summary) (Some language)
  && Js.strictEq (Store.country summary) (Some country).

(** What [saveDailySummary] reads from its surroundings: the clock (as
    ISO text and as New York wall clock) and whether the directory and
    the file can be written. *)
Record SaveEnv := {
  nowIso : string;
  etNow : WallClock;
  writeOk : bool
}.

Definition withMetadata (env : SaveEnv) (summaryData : SummaryData)
           (language country : string) : Summary :=
  {| news := d_news summaryData;
     trends := d_trends summaryData;
     finance := d_finance summaryData;
     overall := d_overall summaryData;
     generatedAt := d_generatedAt summaryData;
     language := Some language;
     country := Some country;
     timestamp := Some (nowIso env);
     marketOpen := Some (Market.Server.isMarketOpen (etNow env));
     automated := Some (match d_automated summaryData with
                        | Some true => true
                        | _ => false
                        end) |}.

(** [saveDailySummary(summaryData, date, language, country)].  The file
    is [None] when it is missing or does not parse; the function then
    starts from [{}].  Any exception (directory, write) is caught and
    gives [false], with the file as it was. *)
Definition saveDailySummary (env : SaveEnv) (file : option Archive)
           (summaryData : SummaryData) (date language country : string)
  : bool * option Archive :=
  let summaries := match file with Some a => a | None => [] end in
  let summaryWithMetadata := withMetadata env summaryData language country in
  let summaries' :=
    match get summaries date with
    | Some (Many existing) =>
        set summaries date
            (Many (filter (fun summary => negb (sameRegion language country summary))
                          existing
                   ++ [summaryWithMetadata]))
    | Some (Single existingSummary) =>
        set summaries date (Many [existingSummary; summaryWithMetadata])
    | None =>
        set summaries date (Single summaryWithMetadata)
    end in
  if writeOk env then (true, Some summaries') else (false, file).

(** [date || new Date().toISOString().split('T')[0]], the first line of
    [loadDailySummary]; [today] is that UTC date. *)
Definition targetDate (today : string) (date : option string) : string :=
  if Js.truthy date
  then match date with Some d => d | None => today end
  else today.

(** [loadDailySummary(date, language, country)] from its second line
    on: [targetDate] is the constant of that name, the value of
    [Store.targetDate].  Every failure to read gives [null]. *)
Definition loadDailySummary (file : option Archive)
           (targetDate language country : string) : option Summary :=
  match file with
  | None => None
  | Some summaries =>
      match get summaries targetDate with
      | None => None
      | Some (Many dateSummary) => find (sameRegion language country) dateSummary
      | Some (Single dateSummary) =>
          if Js.truthy (Store.language dateSummary)
             && Js.truthy (Store.country dateSummary)
          then
            if sameRegion language country dateSummary
            then Some dateSummary else None
          else
            if ((language =? "en") && (country =? "US"))%string
            then Some dateSummary else None
      end
  end.

(** *** The history endpoint, [GET /api/summary/history] *)

Record HistoryEntry := {
  h_date : string;
  h_timestamp : option string;
  h_marketOpen : option bool;
  h_language : string;
  h_country : string;
  h_automated : bool;
  h_hasData : bool
}.

Definition isDigit (c : ascii) : bool :=
  let n := nat_of_ascii c in ((48 <=? n) && (n <=? 57))%nat.

Definition isDash (c : ascii) : bool := (nat_of_ascii c =? 45)%nat.

(** [/^\d{4}-\d{2}-\d{2}$/.test(date)] *)
Definition isDateFormat (date : string) : bool :=
  match list_ascii_of_string date with
  | [y1; y2; y3; y4; s1; m1; m2; s2; d1; d2] =>
      isDigit y1 && isDigit y2 && isDigit y3 && isDigit y4 && isDash s1
      && isDigit m1 && isDigit m2 && isDash s2 && isDigit d1 && isDigit d2
  | _ => false
  end.

(** [date.split('-').length] *)
Definition splitDashLength (date : string) : nat :=
  S (List.length (filter isDash (list_ascii_of_string date))).

(** [date.includes('-') && date.split('-').length > 3] *)
Definition isMalformedKey (date : string) : bool :=
  Js.includes "-" date && (3 <? splitDashLength date)%nat.

Definition orElse (v : option string) (dflt : string) : string :=
  if Js.truthy v then match v with Some s => s | None => dflt end else dflt.

Definition entryOf (date : string) (summary : Summary) : HistoryEntry :=
  {| h_date := date;
     h_timestamp := timestamp summary;
     h_marketOpen := marketOpen summary;
     h_language := orElse (language summary) "en";
     h_country := orElse (country summary) "US";
     h_automated := match automated summary with Some true => true | _ => false end;
     h_hasData := Js.truthy (news summary) || Js.truthy (trends summary)
                  || Js.truthy (finance summary) || Js.truthy (overall summary) |}.

(** The body of [Object.entries(summaries).forEach(...)]. *)
Definition entriesOf (kv : string * Bucket) : list HistoryEntry :=
  let '(date, summary) := kv in
  if isMalformedKey date then []
  else if negb (isDateFormat date) then []
  else match summary with
       | Many l => map (entryOf date) l
       | Single one => [entryOf date one]
       end.

Definition digit (c : ascii) : Z := Z.of_nat (nat_of_ascii c) - 48.

(** [new Date(date).getTime()] for a key of the date format, in
    milliseconds; [None] is the invalid date (NaN).  Node's parser takes
    a month from 01 to 12 and a day from 01 to 31. *)
Definition dateValue (date : string) : option Z :=
  if isDateFormat date then
    match list_ascii_of_string date with
    | [y1; y2; y3; y4; _; m1; m2; _; d1; d2] =>
        let y := (digit y1 * 1000 + digit y2 * 100 + digit y3 * 10 + digit y4)%Z in
        let m := (digit m1 * 10 + digit m2)%Z in
        let d := (digit d1 * 10 + digit d2)%Z in
        if ((1 <=? m) && (m <=? 12) && (1 <=? d) && (d <=? 31))%Z
        then Some (daysFromCivil y m d * 86400000)%Z
        else None
    | _ => None
    end
  else None.

(** The comparator [(a, b) => new Date(b.date) - new Date(a.date)]; a
    NaN result counts as 0 in [Array.prototype.sort]. *)
Definition compareEntries (a b : HistoryEntry) : Z :=
  match dateValue (h_date b), dateValue (h_date a) with
  | Some tb, Some ta => (tb - ta)%Z
  | _, _ => 0%Z
  end.

(** [Array.prototype.sort(cmp)] is stable; with a consistent comparator
    its result is the stable sorted arrangement, which insertion
    computes.  [compareEntries] is consistent when every listed date is
    one that [Date] accepts.  With an invalid date it is not, and the
    result is then the engine's own: Node leaves an array alone that it
    finds in order when it compares each element with the one before
    it, and so does the insertion below. *)
Fixpoint insertSorted {A} (cmp : A -> A -> Z) (x : A) (l : list A) : list A :=
  match l with
  | [] => [x]
  | y :: l' => if (cmp x y <=? 0)%Z then x :: l else y :: insertSorted cmp x l'
  end.

Fixpoint sort {A} (cmp : A -> A -> Z) (l : list A) : list A :=
  match l with
  | [] => []
  | x :: l' => insertSorted cmp x (sort cmp l')
  end.

(** The [summaries] array of the response; a file that cannot be read
    gives the empty array. *)
Definition history (file : option Archive) : list HistoryEntry :=
  match file with
  | None => []
  | Some summaries => sort compareEntries (flat_map entriesOf summaries)
  end.

End Store.

(** ** The completion clients of server.js *)

Module Llm.

(** [openai.chat.completions.create]: what the [call]-th request (from
    0) does when sent with [model].  A resolved request carries
    [response?.choices?.[0]?.message?.content], [None] when some link
    of that chain is missing. *)
Definition Api := string -> nat -> Outcome (option string).

(** What a client did: the model of each request, in order, and the
    pauses in milliseconds. *)
Record Trace := {
  requested : list string;
  pauses : list nat
}.

Definition selectedModel : string := "z-ai/glm-4.5-air:free".
Definition maxRetries : nat := 3.

(** The loop of [generateAutomatedSummary], entered at [attempt] with
    [left] turns to go ([attempt + left = maxRetries + 1]). *)
Fixpoint attempts (create : Api) (attempt left : nat) (log : Trace)
  : option string * Trace :=
  match left with
  | O => (None, log)                       (* all attempts failed *)
  | S left' =>
      let log1 := {| requested := requested log ++ [selectedModel];
                     pauses := pauses log |} in
      match create selectedModel (attempt - 1) with
      | Returns content =>
          if Js.truthy content then (content, log1)
          else attempts create (S attempt) left' log1      (* continue *)
      | Throws _ =>
          let log2 := if (attempt <? maxRetries)%nat
                      then {| requested := requested log1;
                              pauses := pauses log1 ++ [1000 * attempt] |}
                      else log1 in
          attempts create (S attempt) left' log2
      end
  end.

(** [generateAutomatedSummary(sectionData)], after the prompt is built:
    the text of the reply, or [null]. *)
Definition generateAutomatedSummary (create : Api) : option string * Trace :=
  attempts create 1 maxRetries {| requested := []; pauses := [] |}.

(** [[...new Set(models)]]: first occurrences, in order. *)
Fixpoint unique (seen models : list string) : list string :=
  match models with
  | [] => []
  | m :: rest =>
      if existsb (String.eqb m) seen then unique seen rest
      else m :: unique (m :: seen) rest
  end.

Definition fallbackModels (model : string) : list string :=
  [ model;
    "openai/gpt-oss-20b:free";
    "meta-llama/llama-3.3-70b-instruct:free";
    "qwen/qwen3-235b-a22b:free" ].

Definition uniqueModels (model : string) : list string :=
  unique [] (fallbackModels model).

(** The loop of [callOpenRouterWithRetry], entered at [attempt] (from 0)
    with [left] turns to go. *)
Fixpoint calls (create : Api) (model : string) (retries attempt left : nat)
         (log : Trace) : Outcome (option string) * Trace :=
  match left with
  | O => (Returns None, log)      (* the loop ended: returns undefined *)
  | S left' =>
      let models := uniqueModels model in
      let currentModel :=
        nth (Nat.min attempt (List.length models - 1)) models model in
      let log1 := {| requested := requested log ++ [currentModel];
                     pauses := pauses log |} in
      match create currentModel attempt with
      | Returns content => (Returns content, log1)
      | Throws message =>
          if (attempt =? retries)%nat then (Throws message, log1)
          else calls create model retries (S attempt) left'
                     {| requested := requested log1;
                        pauses := pauses log1 ++ [1000 * (attempt + 1)] |}
      end
  end.

(** [callOpenRouterWithRetry(options, retries = 2)], used by
    [POST /api/chat]. *)
Definition callOpenRouterWithRetry (create : Api) (model : string)
  : Outcome (option string) * Trace :=
  calls create model 2 0 3 {| requested := []; pauses := [] |}.

End Llm.

(** ** The automated generator, [class AutomatedSummaryGenerator] *)

Module Generator.

Record Region := {
  language : string;
  country : string;
  timezone : string
}.

Record Headline := {
  title : string;
  description : string;
  source : string
}.

Record Topic := {
  topicTitle : string;
  traffic : string
}.

Record Quote := {
  price : string;
  change : string;
  changePercent : string;
  timeframe : string
}.

(** The finance object is kept as an object, property by property, since
    the generator counts its keys. *)
Inductive FinanceValue :=
| Index (quote : option Quote)
| Quotes (bySymbol : list (string * Quote)).

Definition Finance := list (string * FinanceValue).

(** The object [collectAutomatedFinanceData] builds and fills. *)
Definition financeData (nasdaq : option Quote)
           (techStocks crypto : list (string * Quote)) : Finance :=
  [ ("nasdaq", Index nasdaq);
    ("techStocks", Quotes techStocks);
    ("crypto", Quotes crypto) ].

(** [sectionData] *)
Record Bundle := {
  news : option (list Headline);
  trends : option (list Topic);
  finance : option Finance
}.

(** [!sectionData.news || sectionData.news.length === 0] *)
Definition newsMissing (sectionData : Bundle) : bool :=
  match news sectionData with
  | None => true
  | Some l => (List.length l =? 0)%nat
  end.

(** [!sectionData.finance || Object.keys(sectionData.finance).length === 0] *)
Definition financeMissing (sectionData : Bundle) : bool :=
  match finance sectionData with
  | None => true
  | Some o => (List.length (map fst o) =? 0)%nat
  end.

(** [summaryText && !summaryText.includes('Error:') &&
     !summaryText.includes('Unable to generate')] *)
Definition usable (summaryText : option string) : bool :=
  match summaryText with
  | None => false
  | Some text =>
      negb (text =? "")%string
      && negb (Js.includes "Error:" text)
      && negb (Js.includes "Unable to generate" text)
  end.

(** What one pass over a region meets: the result of
    [collectAutomatedSectionData] ([None] is its [null]), the completion
    service, the clock text for [generatedAt] and what
    [saveDailySummary] reads. *)
Record PassEnv := {
  collected : option Bundle;
  create : Llm.Api;
  generatedAtEDT : string;
  saveEnv : Store.SaveEnv
}.

(** The line a pass logs before it returns. *)
Inductive PassResult :=
| AlreadyExists
| NoSectionData
| InsufficientData
| NoValidSummary
| SaveFailed
| Saved.

Definition orEmpty (v : option string) : string :=
  if Js.truthy v then match v with Some s => s | None => "" end else "".

(** [generateSummaryForRegion(region, date)]: the log line and the file
    afterwards.  Its body is one [try]; the calls it makes catch their
    own errors. *)
Definition generateSummaryForRegion (env : PassEnv) (region : Region)
           (date : string) (file : option Store.Archive)
  : PassResult * option Store.Archive :=
  match Store.loadDailySummary file date (language region) (country region) with
  | Some _ => (AlreadyExists, file)
  | None =>
      match collected env with
      | None => (NoSectionData, file)
      | Some sectionData =>
          if newsMissing sectionData && financeMissing sectionData
          then (InsufficientData, file)
          else
            let summaryText := fst (Llm.generateAutomatedSummary (create env)) in
            if usable summaryText then
              let sections :=
                Parser.parseAutomatedSummarySections
                  (match summaryText with Some t => t | None => "" end) in
              let summaryData :=
                {| Store.d_news := Some (orEmpty (Parser.news sections));
                   Store.d_trends := Some (orEmpty (Parser.trends sections));
                   Store.d_finance := Some (orEmpty (Parser.finance sections));
                   Store.d_overall := Some (orEmpty (Parser.insights sections));
                   Store.d_generatedAt := Some (generatedAtEDT env);
                   Store.d_automated := Some true |} in
              let '(saved, file') :=
                Store.saveDailySummary (saveEnv env) file summaryData date
                                       (language region) (country region) in
              if saved then (Saved, file') else (SaveFailed, file')
            else (NoValidSummary, file)
      end
  end.

(** The generator object: [isGenerating] and [lastGenerationDate]. *)
Record State := {
  isGenerating : bool;
  lastGenerationDate : option string
}.

(** [constructor()] *)
Definition constructor : State :=
  {| isGenerating := false; lastGenerationDate := None |}.

Definition region : Region :=
  {| language := "en"; country := "US"; timezone := "America/New_York" |}.

(** [getStatus()] without the constant [configuredRegions]. *)
Definition getStatus (this : State) : bool * option string :=
  (isGenerating this, lastGenerationDate this).

(** What [await this.generateSummaryForRegion(region, date)] may do, as
    [generateDailySummary] sees it. *)
Definition RegionPass :=
  Region -> string -> option Store.Archive
  -> Outcome PassResult * option Store.Archive.

Definition passOf (env : PassEnv) : RegionPass :=
  fun region date file =>
    let '(r, file') := generateSummaryForRegion env region date file in
    (Returns r, file').

(** How a call of [generateDailySummary] ended. *)
Inductive CallResult :=
| InProgress                       (* "already in progress, skipping" *)
| AlreadyToday                     (* "already generated today, skipping" *)
| Completed (pass : PassResult)
| Caught (message : string).

(** [generateDailySummary()]; [todayEDT] is the New York date the call
    computes from the clock. *)
Definition generateDailySummary (pass : RegionPass) (todayEDT : string)
           (this : State) (file : option Store.Archive)
  : CallResult * State * option Store.Archive :=
  if isGenerating this then (InProgress, this, file)
  else if Js.strictEq (lastGenerationDate this) (Some todayEDT)
  then (AlreadyToday, this, file)
  else
    (* try *)
    let this1 := {| isGenerating := true;
                    lastGenerationDate := lastGenerationDate this |} in
    let '(outcome, file') := pass region todayEDT file in
    match outcome with
    | Returns r =>
        let this2 := {| isGenerating := isGenerating this1;
                        lastGenerationDate := Some todayEDT |} in
        (* finally *)
        (Completed r,
         {| isGenerating := false;
            lastGenerationDate := lastGenerationDate this2 |},
         file')
    | Throws message =>
        (* catch, finally *)
        (Caught message,
         {| isGenerating := false;
            lastGenerationDate := lastGenerationDate this1 |},
         file')
    end.

(** The same function cut at its [await]: [enter] runs when the call is
    made, [leave] when the pass has settled.  In between, the event loop
    may run other calls. *)
Definition enter (todayEDT : string) (this : State) : CallResult + State :=
  if isGenerating this then inl InProgress
  else if Js.strictEq (lastGenerationDate this) (Some todayEDT)
  then inl AlreadyToday
  else inr {| isGenerating := true;
              lastGenerationDate := lastGenerationDate this |}.

Definition leave (todayEDT : string) (outcome : Outcome PassResult)
           (this : State) : CallResult * State :=
  match outcome with
  | Returns r =>
      (Completed r,
       {| isGenerating := false; lastGenerationDate := Some todayEDT |})
  | Throws message =>
      (Caught message,
       {| isGenerating := false;
          lastGenerationDate := lastGenerationDate this |})
  end.

(** The generator on the event loop: a call is made, or the pass of an
    earlier call settles.  [inFlight] counts the passes awaited. *)
Inductive Event :=
| Called (todayEDT : string)
| Settled (todayEDT : string) (outcome : Outcome PassResult).

Record Process := {
  generator : State;
  inFlight : nat
}.

Definition step (p : Process) (e : Event) : Process :=
  match e with
  | Called todayEDT =>
      match enter todayEDT (generator p) with
      | inl _ => p
      | inr this1 => {| generator := this1; inFlight := S (inFlight p) |}
      end
  | Settled todayEDT outcome =>
      match inFlight p with
      | O => p
      | S n => {| generator := snd (leave todayEDT outcome (generator p));
                  inFlight := n |}
      end
  end.

Definition start : Process := {| generator := constructor; inFlight := 0 |}.

(** The job [init] registers for 23:00 New York time calls
    [this.generateDailySummary()] and nothing else. *)
Definition elevenPmJob (pass : RegionPass) (todayEDT : string)
           (this : State) (file : option Store.Archive)
  : CallResult * State * option Store.Archive :=
  generateDailySummary pass todayEDT this file.

(** A run of the process: calls of [generateDailySummary], each with the
    day it falls on and what its pass does, one after the other. *)
Fixpoint runCalls (calls : list (RegionPass * string))
         (this : State) (file : option Store.Archive)
  : State * option Store.Archive :=
  match calls with
  | [] => (this, file)
  | (pass, todayEDT) :: rest =>
      let '(_, this', file') := generateDailySummary pass todayEDT this file in
      runCalls rest this' file'
  end.

End Generator.

(** ** The manual refresh of summary.js *)

Module Manual.

(** [localStorage] *)
Definition LocalStorage := string -> option string.

Definition getItem (storage : LocalStorage) (key : string) : option string :=
  storage key.

Definition setItem (storage : LocalStorage) (key value : string) : LocalStorage :=
  fun k => if (k =? key)%string then Some value else storage k.

(** [hasRefreshedToday()]; [today] is [getLocalDateString()]. *)
Definition hasRefreshedToday (hostname today : string)
           (storage : LocalStorage) : bool :=
  if ((hostname =? "localhost") || (hostname =? "127.0.0.1"))%string then false
  else Js.strictEq (getItem storage "lastSummaryRefreshDate") (Some today).

(** [markRefreshedToday()] *)
Definition markRefreshedToday (today : string) (storage : LocalStorage)
  : LocalStorage :=
  setItem storage "lastSummaryRefreshDate" today.

(** One [fetch('/api/chat', ...)] as [generateSummary] sees it. *)
Inductive FetchOutcome :=
| NetworkError (message : string)   (* fetch or response.json() rejects *)
| HttpError (status : nat) (body : option string)   (* !response.ok *)
| Reply (reply : option string).    (* response.ok, data.reply *)

Definition decimal (n : nat) : string :=
  DecimalString.NilZero.string_of_uint (Nat.to_uint n).

(** [`HTTP error! status: ${response.status}${errorDetails ? ` - ${errorDetails}` : ''}`] *)
Definition httpErrorMessage (status : nat) (body : option string) : string :=
  ("HTTP error! status: " ++ decimal status
     ++ (if Js.truthy body
         then " - " ++ match body with Some b => b | None => "" end
         else ""))%string.

Definition maxRetries : nat := 3.

(** How the [while] loop of [generateSummary] ends. *)
Inductive LoopEnd :=
| Answered (result : string)            (* a [return result] inside the loop *)
| GaveUp (lastError : option string).   (* the loop condition failed *)

(** The loop [while (retryCount < maxRetries && !summaryGenerated)];
    [call] counts the requests sent.  [retryCount] grows at every turn,
    so [maxRetries] turns are enough. *)
Fixpoint retryLoop (turns : nat) (fetch : nat -> FetchOutcome)
         (call retryCount : nat) (lastError : option string) : LoopEnd :=
  match turns with
  | O => GaveUp lastError
  | S turns' =>
      if (retryCount <? maxRetries)%nat then
        match fetch call with
        | Reply reply =>
            Answered (if Js.truthy reply
                      then match reply with Some r => r | None => "" end
                      else "Unable to generate summary at this time.")
        | HttpError status body =>
            if ((status =? 404) || (status =? 503))%nat then
              if (S retryCount <? maxRetries)%nat
              then retryLoop turns' fetch (S call) (S retryCount) lastError
              else (* throw, caught below: retryCount++ once more *)
                retryLoop turns' fetch (S call) (S (S retryCount))
                          (Some (httpErrorMessage status body))
            else
              retryLoop turns' fetch (S call) (S retryCount)
                        (Some (httpErrorMessage status body))
        | NetworkError message =>
            retryLoop turns' fetch (S call) (S retryCount) (Some message)
        end
      else GaveUp lastError
  end.

(** [generateSummary(sectionData)] in a call that finds the page's
    [summaryGenerated] false at each of its tests, as [refreshSummary]
    has made it and as it stays while no other generation succeeds
    meanwhile: the returned text.  [Overlap.generateSummary] is the
    function with the variable in view. *)
Definition generateSummary (fetch : nat -> FetchOutcome) : option string :=
  match retryLoop maxRetries fetch 0 0 None with
  | Answered result => Some result
  | GaveUp lastError =>
      Some (if Js.truthy lastError
            then match lastError with Some m => m | None => "" end
            else "Error: Unable to generate summary after multiple attempts.")
  end.

(** The test [refreshSummary] applies to the returned text; it is the
    one the server applies. *)
Definition usable (summaryText : option string) : bool :=
  Generator.usable summaryText.

(** What the user is told. *)
Inductive Report :=
| DailyLimit         (* "You have already refreshed the summary today." *)
| RefreshedAndSaved  (* "Summary refreshed and saved successfully!" *)
| GenerationErrors   (* "... could not be saved due to generation errors." *)
| TimedOut           (* "Error: Summary generation timed out ..." *)
| UnableToRefresh.   (* "Error: Unable to refresh summary. ..." *)

(** What a call of [refreshSummary] meets: the page's host name, the
    local date, what [collectSectionData] does, the answers of
    [/api/chat], and whether the 60 s timer rejects before the inner
    [async] function has finished. *)
Record RefreshEnv := {
  hostname : string;
  today : string;
  collect : Outcome unit;
  fetch : nat -> FetchOutcome;
  timerFirst : bool
}.

(** [refreshSummary()].  [Promise.race] cancels nothing: when the timer
    wins, the inner function still runs to its end, so the storage
    below is the one found once it has. *)
Definition refreshSummary (env : RefreshEnv) (storage : LocalStorage)
  : Report * LocalStorage :=
  if hasRefreshedToday (hostname env) (today env) storage
  then (DailyLimit, storage)
  else
    let '(told, storage') :=
      match collect env with
      | Throws _ => (UnableToRefresh, storage)
      | Returns _ =>
          let summaryText := generateSummary (fetch env) in
          if usable summaryText
          then (RefreshedAndSaved, markRefreshedToday (today env) storage)
          else (GenerationErrors, storage)
      end in
    (if timerFirst env then TimedOut else told, storage').

End Manual.

(** ** Sample inputs *)

Module Sample.

Import Calendar.

(** Wednesday, 25 December 2024, 10:00 in New York. *)
Definition christmas2024 : WallClock :=
  {| getFullYear := 2024; getMonth := 11; getDate := 25;
     getHours := 10; getMinutes := 0 |}.

(** Saturday, 2 November 2024, 10:00. *)
Definition saturday2024 : WallClock :=
  {| getFullYear := 2024; getMonth := 10; getDate := 2;
     getHours := 10; getMinutes := 0 |}.

(** Monday, 4 November 2024, 23:00. *)
Definition mondayNight : WallClock :=
  {| getFullYear := 2024; getMonth := 10; getDate := 4;
     getHours := 23; getMinutes := 0 |}.

Definition today : string := "2024-11-04".

Definition saveEnv : Store.SaveEnv :=
  {| Store.nowIso := "2024-11-05T04:00:00.000Z";
     Store.etNow := mondayNight;
     Store.writeOk := true |}.

Definition summaryData (text : string) : Store.SummaryData :=
  {| Store.d_news := Some text;
     Store.d_trends := Some "";
     Store.d_finance := Some "";
     Store.d_overall := Some "";
     Store.d_generatedAt := Some "2024-11-04T15:00:00.000Z";
     Store.d_automated := None |}.

Definition legacy (text : string) : Store.Summary :=
  {| Store.news := Some text; Store.trends := None; Store.finance := None;
     Store.overall := None; Store.generatedAt := None;
     Store.language := None; Store.country := None;
     Store.timestamp := None; Store.marketOpen := None;
     Store.automated := None |}.

Definition tagged (text language country : string) : Store.Summary :=
  Store.withMetadata saveEnv (summaryData text) language country.

(** Legacy objects, arrays and a key that is no date, in file order. *)
Definition mixedArchive : Store.Archive :=
  [ ("2024-03-01", Store.Single (legacy "a"));
    ("2024-11-04", Store.Many [tagged "b" "en" "US"; tagged "c" "fr" "FR"]);
    ("2024-11-04-en-US", Store.Single (legacy "d"));
    ("2023-12-31", Store.Single (tagged "e" "en" "US"));
    ("2024-11-05", Store.Many [tagged "f" "en" "US"]) ].

Definition reply : string :=
  "**NEWS HIGHLIGHTS** Calm day. **TRENDING TOPICS** None. **MARKET OVERVIEW** Flat. **INFO GENIE** Rain.".

Definition headline : Generator.Headline :=
  {| Generator.title := "Calm day"; Generator.description := "";
     Generator.source := "Wire" |}.

Definition topic : Generator.Topic :=
  {| Generator.topicTitle := "eclipse"; Generator.traffic := "N/A" |}.

(** News only: trends failed, finance failed. *)
Definition newsOnly : Generator.Bundle :=
  {| Generator.news := Some [headline];
     Generator.trends := None;
     Generator.finance := None |}.

(** Trends only: an empty list of headlines, no finance object. *)
Definition trendsOnly : Generator.Bundle :=
  {| Generator.news := Some [];
     Generator.trends := Some [topic];
     Generator.finance := None |}.

(** A pass in which collection gives [sectionData], the completion
    service answers at once and the file can be written. *)
Definition passEnv (sectionData : Generator.Bundle) : Generator.PassEnv :=
  {| Generator.collected := Some sectionData;
     Generator.create := fun _ _ => Returns (Some reply);
     Generator.generatedAtEDT := "2024-11-04T23:00:05.000Z";
     Generator.saveEnv := saveEnv |}.

(** An archive that already holds a summary for today and en-US, saved
    through the manual path earlier in the day. *)
Definition archiveWithToday : Store.Archive :=
  [ (today, Store.Single (tagged "manual" "en" "US")) ].

(** A visit to the deployed site on [today]. *)
Definition visit (fetch : nat -> Manual.FetchOutcome) (timerFirst : bool)
  : Manual.RefreshEnv :=
  {| Manual.hostname := "infodash.app";
     Manual.today := today;
     Manual.collect := Returns tt;
     Manual.fetch := fetch;
     Manual.timerFirst := timerFirst |}.

(** A browser that has never refreshed. *)
Definition freshStorage : Manual.LocalStorage := fun _ => None.

(** The network is down: every [fetch] rejects. *)
Definition offline : nat -> Manual.FetchOutcome :=
  fun _ => Manual.NetworkError "Failed to fetch".

(** The completion service is down: [/api/chat] answers 500; the body
    is cut down to the message its [catch] sends. *)
Definition chatDown : nat -> Manual.FetchOutcome :=
  fun _ => Manual.HttpError 500 (Some "Error communicating with OpenRouter").

End Sample.

(** ** Vocabulary of the statements *)

Module Spec.

(** The summaries stored under a date, whatever the shape of the bucket. *)
Definition recordsOn (file : option Store.Archive) (date : string)
  : list Store.Summary :=
  match file with
  | None => []
  | Some summaries =>
      match Store.get summaries date with
      | None => []
      | Some (Store.Single one) => [one]
      | Some (Store.Many l) => l
      end
  end.

(** The text has the market-overview header and no other section header. *)
Definition onlyMarketHeader (text : string) : Prop :=
  Js.includes "MARKET OVERVIEW" text = true
  /\ Js.includes "NEWS HIGHLIGHTS" text = false
  /\ Js.includes "TRENDING TOPICS" text = false
  /\ Js.includes "INFO GENIE" text = false.

(** A completion request that gives no text: it throws, or its reply has
    no content. *)
Definition failed (o : Outcome (option string)) : bool :=
  match o with
  | Returns content => negb (Js.truthy content)
  | Throws _ => true
  end.

(** [a] is listed before [b] only if its date is not older. *)
Definition notOlder (a b : Store.HistoryEntry) : Prop :=
  exists ta tb,
    Store.dateValue (Store.h_date a) = Some ta
    /\ Store.dateValue (Store.h_date b) = Some tb
    /\ (tb <= ta)%Z.

(** The entry's date is one that [Date] accepts. *)
Definition dated (e : Store.HistoryEntry) : Prop :=
  Store.dateValue (Store.h_date e) <> None.

(** Every key of the date format is a date that [Date] accepts. *)
Definition keysAreDates (file : option Store.Archive) : bool :=
  match file with
  | None => true
  | Some summaries =>
      forallb (fun kv : string * Store.Bucket =>
                 implb (Store.isDateFormat (fst kv))
                       (match Store.dateValue (fst kv) with
                        | Some _ => true
                        | None => false
                        end))
              summaries
  end.

(** [s] without the prefix [p], when it begins with [p]. *)
Fixpoint stripPrefix (p s : string) : option string :=
  match p, s with
  | EmptyString, _ => Some s
  | String _ _, EmptyString => None
  | String a p', String b s' =>
      if Ascii.eqb a b then stripPrefix p' s' else None
  end.

(** The text before the first horizontal rule [---]; [None] without a
    rule. *)
Fixpoint beforeRule (s : string) : option string :=
  match stripPrefix "---" s with
  | Some _ => Some EmptyString
  | None =>
      match s with
      | EmptyString => None
      | String c s' => option_map (String c) (beforeRule s')
      end
  end.

(** The market overview of a text with no other header, said directly:
    at the first place where the header stands (in bold with its
    asterisks, else plain, with its colon when one follows), the text
    from there to the first rule. *)
Fixpoint marketSection (text : string) : option string :=
  match stripPrefix "**MARKET OVERVIEW**" text with
  | Some rest => beforeRule rest
  | None =>
      match stripPrefix "MARKET OVERVIEW:" text with
      | Some rest => beforeRule rest
      | None =>
          match stripPrefix "MARKET OVERVIEW" text with
          | Some rest => beforeRule rest
          | None =>
              match text with
              | EmptyString => None
              | String _ text' => marketSection text'
              end
          end
      end
  end.

(** The pause that follows the [attempt]-th request (from 1) of the
    automated client: 1000 ms times the attempt number after a request
    that threw, unless it was the third; none after a reply. *)
Definition pauseAfter (o : Outcome (option string)) (attempt : nat) : list nat :=
  match o with
  | Throws _ => if (attempt <? 3)%nat then [1000 * attempt] else []
  | Returns _ => []
  end.

End Spec.

(** ** The summary endpoints of server.js *)

Module Endpoints.

(** The body of [POST /api/summary/save]. *)
Record SaveBody := {
  b_news : option string;
  b_trends : option string;
  b_finance : option string;
  b_overall : option string;
  b_date : option string;
  b_language : option string;
  b_country : option string
}.

(** The answers of [POST /api/summary/save]: the status and the fields
    of the JSON body. *)
Inductive SaveResponse :=
| SaveRejected (status : nat) (message : string)
| SaveDone (message : string) (summary : Store.SummaryData)
| SaveFailed (status : nat) (message : string).

(** [v || dflt] on a string-valued field. *)
Definition orDefault (v : option string) (dflt : string) : string :=
  if Js.truthy v then match v with Some s => s | None => dflt end else dflt.

(** [app.post('/api/summary/save', ...)]; [env] is what
    [saveDailySummary] reads, and its clock text also serves for
    [generatedAt]. *)
Definition postSummarySave (env : Store.SaveEnv) (body : SaveBody)
           (file : option Store.Archive)
  : SaveResponse * option Store.Archive :=
  if negb (Js.truthy (b_date body))
  then (SaveRejected 400 "Date is required", file)
  else
    let date := match b_date body with Some d => d | None => "" end in
    let targetLanguage := orDefault (b_language body) "en" in
    let targetCountry := orDefault (b_country body) "US" in
    if negb (Js.truthy (b_news body)) && negb (Js.truthy (b_trends body))
       && negb (Js.truthy (b_finance body)) && negb (Js.truthy (b_overall body))
    then (SaveRejected 400 "No summary data provided", file)
    else
      let summaryData :=
        {| Store.d_news := b_news body;
           Store.d_trends := b_trends body;
           Store.d_finance := b_finance body;
           Store.d_overall := b_overall body;
           Store.d_generatedAt := Some (Store.nowIso env);
           Store.d_automated := Some false |} in
      let '(saved, file') :=
        Store.saveDailySummary env file summaryData date
                               targetLanguage targetCountry in
      if saved
      then (SaveDone ("Daily summary saved successfully for " ++ targetCountry
                        ++ " (" ++ targetLanguage ++ ")")%string
                     summaryData,
            file')
      else (SaveFailed 500 "Failed to save daily summary", file').

(** The query of [GET /api/summary/daily]. *)
Record DailyQuery := {
  q_date : option string;
  q_language : option string;
  q_country : option string
}.

(** Its answer, always with status 200: [success], the summary when
    there is one, and the date, language and country looked up. *)
Record DailyResponse := {
  r_success : bool;
  r_summary : option Store.Summary;
  r_date : string;
  r_language : string;
  r_country : string
}.

(** [app.get('/api/summary/daily', ...)]; [todayUtc] is
    [new Date().toISOString().split('T')[0]]. *)
Definition getSummaryDaily (todayUtc : string) (query : DailyQuery)
           (file : option Store.Archive) : DailyResponse :=
  let targetDate := orDefault (q_date query) todayUtc in
  let targetLanguage := orDefault (q_language query) "en" in
  let targetCountry := orDefault (q_country query) "US" in
  let summary :=
    Store.loadDailySummary file targetDate targetLanguage targetCountry in
  {| r_success := match summary with Some _ => true | None => false end;
     r_summary := summary;
     r_date := targetDate;
     r_language := targetLanguage;
     r_country := targetCountry |}.

End Endpoints.

(** ** More vocabulary *)

Module Vocab.

(** The archive in a file, [{}] when the file is missing or unreadable. *)
Definition archiveOf (file : option Store.Archive) : Store.Archive :=
  match file with Some a => a | None => [] end.

End Vocab.

Module Sample2.

(** A save request with all its fields. *)
Definition saveBody (date : option string) (news : option string)
  : Endpoints.SaveBody :=
  {| Endpoints.b_news := news;
     Endpoints.b_trends := None;
     Endpoints.b_finance := None;
     Endpoints.b_overall := None;
     Endpoints.b_date := date;
     Endpoints.b_language := None;
     Endpoints.b_country := None |}.

End Sample2.

(** ** The collectors of the automated generator *)

Module Collectors.

(** [obj[key] = v] on an object kept as its properties in order. *)
Fixpoint objSet {A} (obj : list (string * A)) (key : string) (v : A)
  : list (string * A) :=
  match obj with
  | [] => [(key, v)]
  | (k, old) :: rest =>
      if (k =? key)%string then (k, v) :: rest
      else (k, old) :: objSet rest key v
  end.

(** An article of the news answer, with the fields the collector reads:
    [title], [description], [source?.name] and [author]. *)
Record Article := {
  a_title : option string;
  a_description : option string;
  a_sourceName : option string;
  a_author : option string
}.

(** What [fetch(.../api/news...)] and [response.json()] give. *)
Inductive NewsFetch :=
| NewsThrows
| NewsNotOk
| NewsJson (articles : option (list Article)).   (* [data.articles] *)

(** [a || b] and [a || b || c] on string-valued fields. *)
Definition orText (v : option string) (dflt : string) : string :=
  if Js.truthy v then match v with Some s => s | None => dflt end else dflt.

Definition headlineOf (article : Article) : Generator.Headline :=
  {| Generator.title := orText (a_title article) "Unknown";
     Generator.description := orText (a_description article) "";
     Generator.source :=
       if Js.truthy (a_sourceName article)
       then orText (a_sourceName article) ""
       else orText (a_author article) "" |}.

(** [collectAutomatedNewsData(region)] *)
Definition collectAutomatedNewsData (response : NewsFetch)
  : option (list Generator.Headline) :=
  match response with
  | NewsThrows => None
  | NewsNotOk => None
  | NewsJson None => None
  | NewsJson (Some articles) =>
      if (List.length articles =? 0)%nat then None
      else Some (map headlineOf (firstn 5 articles))
  end.

(** [topic.title] in the trends answer: missing, an object with a
    [query], or a plain text. *)
Inductive TopicTitle :=
| NoTitle
| TitleObject (query : option string)
| TitleText (text : string).

Record RawTopic := {
  rt_title : TopicTitle;
  rt_formattedTraffic : option string
}.

(** What [fetch(.../api/trends2...)] and [response.json()] give;
    [days] is [data.default.trendingSearchesDays], each day with its
    [trendingSearches] when it has them. *)
Inductive TrendsFetch :=
| TrendsThrows
| TrendsNotOk
| TrendsJson (days : option (list (option (list RawTopic)))).

(** [topic.title?.query || topic.title || 'Unknown']; a title object
    without a usable query is kept as it is and prints as
    [[object Object]]. *)
Definition topicTitleOf (t : TopicTitle) : string :=
  match t with
  | NoTitle => "Unknown"
  | TitleObject query =>
      if Js.truthy query then orText query "" else "[object Object]"
  | TitleText text => if Js.truthy (Some text) then text else "Unknown"
  end.

Definition topicOf (topic : RawTopic) : Generator.Topic :=
  {| Generator.topicTitle := topicTitleOf (rt_title topic);
     Generator.traffic := orText (rt_formattedTraffic topic) "N/A" |}.

(** The topics of one answer, [None] when the answer makes the collector
    try again. *)
Definition topicsOf (response : TrendsFetch) : option (list Generator.Topic) :=
  match response with
  | TrendsThrows => None
  | TrendsNotOk => None
  | TrendsJson None => None
  | TrendsJson (Some days) =>
      let allTopics :=
        flat_map (fun day => match day with Some l => l | None => [] end) days in
      Some (map topicOf (firstn 25 allTopics))
  end.

Definition maxRetries : nat := 2.

(** [collectAutomatedTrendsData(region, retryCount)], which calls itself
    with [retryCount + 1]; [left] bounds the calls, and the result goes
    with the pauses taken, in milliseconds. *)
Fixpoint trendsFrom (fetch : nat -> TrendsFetch) (retryCount left : nat)
  : option (list Generator.Topic) * list nat :=
  match left with
  | O => (None, [])
  | S left' =>
      match topicsOf (fetch retryCount) with
      | Some topics => (Some topics, [])
      | None =>
          if (retryCount <? maxRetries)%nat
          then let '(r, pauses) := trendsFrom fetch (S retryCount) left' in
               (r, 3000 :: pauses)
          else (None, [])
      end
  end.

Definition collectAutomatedTrendsData (fetch : nat -> TrendsFetch)
  : option (list Generator.Topic) * list nat :=
  trendsFrom fetch 0 (S maxRetries).

(** An entry of the bulk finance answer: its [error] when it has one,
    and [price?.toFixed(2)], [change?.toFixed(2)] and
    [changePercent?.toFixed(2)] as the texts they give. *)
Record BulkQuote := {
  bq_error : option string;
  bq_price : option string;
  bq_change : option string;
  bq_changePercent : option string
}.

Inductive FinanceFetch :=
| FinanceThrows
| FinanceNotOk
| FinanceJson (data : list (string * BulkQuote)).   (* [Object.entries(data)] *)

Definition processedData (stockData : BulkQuote) : Generator.Quote :=
  {| Generator.price := orText (bq_price stockData) "N/A";
     Generator.change := orText (bq_change stockData) "N/A";
     Generator.changePercent := orText (bq_changePercent stockData) "N/A";
     Generator.timeframe := "Current" |}.

(** [financeData] while the loop runs. *)
Record FinanceData := {
  nasdaq : option Generator.Quote;
  techStocks : list (string * Generator.Quote);
  crypto : list (string * Generator.Quote)
}.

(** One turn of [for (const [symbol, stockData] of Object.entries(data))]. *)
Definition classify (financeData : FinanceData) (entry : string * BulkQuote)
  : FinanceData :=
  let '(symbol, stockData) := entry in
  if Js.truthy (bq_error stockData) then financeData
  else
    let processed := processedData stockData in
    if (symbol =? "^IXIC")%string then
      {| nasdaq := Some processed;
         techStocks := techStocks financeData;
         crypto := crypto financeData |}
    else if Js.endsWith "-USD" symbol then
      {| nasdaq := nasdaq financeData;
         techStocks := techStocks financeData;
         crypto := objSet (crypto financeData) symbol processed |}
    else
      {| nasdaq := nasdaq financeData;
         techStocks := objSet (techStocks financeData) symbol processed;
         crypto := crypto financeData |}.

Definition emptyFinance : FinanceData :=
  {| nasdaq := None; techStocks := []; crypto := [] |}.

(** [collectAutomatedFinanceData()], as the data and as the object the
    generator receives. *)
Definition sortQuotes (response : FinanceFetch) : option FinanceData :=
  match response with
  | FinanceThrows => None
  | FinanceNotOk => None
  | FinanceJson data => Some (fold_left classify data emptyFinance)
  end.

Definition collectAutomatedFinanceData (response : FinanceFetch)
  : option Generator.Finance :=
  option_map (fun f => Generator.financeData (nasdaq f) (techStocks f) (crypto f))
             (sortQuotes response).

(** [collectAutomatedSectionData(region)]: the three collectors in turn;
    each catches its own errors, so the outer [catch] stays idle. *)
Definition collectAutomatedSectionData (newsResponse : NewsFetch)
           (trendsFetch : nat -> TrendsFetch) (financeResponse : FinanceFetch)
  : option Generator.Bundle :=
  Some {| Generator.news := collectAutomatedNewsData newsResponse;
          Generator.trends := fst (collectAutomatedTrendsData trendsFetch);
          Generator.finance := collectAutomatedFinanceData financeResponse |}.

End Collectors.

Module FinanceVocab.

Import Collectors.

(** The entry has no [error]. *)
Definition quoted (entry : string * BulkQuote) : bool :=
  negb (Js.truthy (bq_error (snd entry))).

Definition isIndex (entry : string * BulkQuote) : bool :=
  (fst entry =? "^IXIC")%string.

Definition isCrypto (entry : string * BulkQuote) : bool :=
  negb (isIndex entry) && Js.endsWith "-USD" (fst entry).

Definition isStock (entry : string * BulkQuote) : bool :=
  negb (isIndex entry) && negb (Js.endsWith "-USD" (fst entry)).

Definition processedEntry (entry : string * BulkQuote)
  : string * Generator.Quote :=
  (fst entry, processedData (snd entry)).

End FinanceVocab.

(** ** The prompt of the automated generator *)

Module Prompt.

Import Calendar.

(** [sectionData.finance] as the prompt reads it: each of its three
    properties may be missing. *)
Record FinanceView := {
  nasdaq : option Generator.Quote;
  techStocks : option (list (string * Generator.Quote));
  crypto : option (list (string * Generator.Quote))
}.

Record SectionData := {
  news : option (list Generator.Headline);
  trends : option (list Generator.Topic);
  finance : option FinanceView
}.

(** The object of [collectAutomatedFinanceData], seen this way. *)
Definition viewOf (f : Collectors.FinanceData) : FinanceView :=
  {| nasdaq := Collectors.nasdaq f;
     techStocks := Some (Collectors.techStocks f);
     crypto := Some (Collectors.crypto f) |}.

Definition decimal (n : nat) : string :=
  DecimalString.NilZero.string_of_uint (Nat.to_uint n).

(** [s.substring(0, n)] *)
Fixpoint substring0 (n : nat) (s : string) : string :=
  match n, s with
  | O, _ => EmptyString
  | S _, EmptyString => EmptyString
  | S n', String c s' => String c (substring0 n' s')
  end.

(** [l.forEach((item, index) => prompt += f(index, item))] *)
Fixpoint forEach {A} (f : nat -> A -> string) (index : nat) (l : list A)
  : string :=
  match l with
  | [] => EmptyString
  | item :: rest => (f index item ++ forEach f (S index) rest)%string
  end.

Definition headlineLine (index : nat) (item : Generator.Headline) : string :=
  (" " ++ decimal (index + 1) ++ ". " ++ Generator.title item
     ++ (if Js.truthy (Some (Generator.description item))
         then " " ++ substring0 100 (Generator.description item) ++ "..."
         else ""))%string.

Definition topicLine (index : nat) (item : Generator.Topic) : string :=
  (" " ++ decimal (index + 1) ++ ". " ++ Generator.topicTitle item ++ " "
     ++ (if Js.truthy (Some (Generator.traffic item))
         then "(" ++ Generator.traffic item ++ ")"
         else ""))%string.

(** [` ${symbol}: $${data.price} (${data.changePercent}%)`] *)
Definition quoteLine (entry : string * Generator.Quote) : string :=
  (" " ++ fst entry ++ ": $" ++ Generator.price (snd entry)
     ++ " (" ++ Generator.changePercent (snd entry) ++ "%)")%string.

Definition quoteLines (quotes : option (list (string * Generator.Quote)))
  : string :=
  match quotes with
  | Some entries => forEach (fun _ entry => quoteLine entry) 0 entries
  | None => EmptyString
  end.

Definition nasdaqLine (f : FinanceView) : string :=
  match nasdaq f with
  | Some q =>
      (" NASDAQ (^IXIC): $" ++ Generator.price q
         ++ " (" ++ Generator.changePercent q ++ "%)")%string
  | None => EmptyString
  end.

Definition stockLines (f : FinanceView) (stockCount : nat) : string :=
  match techStocks f with
  | Some entries =>
      (" INDIVIDUAL STOCKS (must analyze ALL " ++ decimal stockCount
         ++ " stocks):" ++ quoteLines (Some entries))%string
  | None => EmptyString
  end.

Definition cryptoLines (f : FinanceView) : string :=
  match crypto f with
  | Some entries => (" CRYPTO:" ++ quoteLines (Some entries))%string
  | None => EmptyString
  end.

Definition hasItems {A} (l : option (list A)) : bool :=
  match l with
  | Some items => (0 <? List.length items)%nat
  | None => false
  end.

(** [Object.keys(techStocks).length], 0 without [techStocks]. *)
Definition stockCountOf (f : FinanceView) : nat :=
  match techStocks f with
  | Some entries => List.length entries
  | None => 0
  end.

(** [sectionData.finance.nasdaq || sectionData.finance.techStocks] *)
Definition hasStockData (f : FinanceView) : bool :=
  match nasdaq f, techStocks f with
  | None, None => false
  | _, _ => true
  end.

(** [dayOfWeek === 0 || dayOfWeek === 6] on the New York clock. *)
Definition isActualWeekend (etNow : WallClock) : bool :=
  ((getDay etNow =? 0) || (getDay etNow =? 6))%Z.

Definition newsPart (sectionData : SectionData) : string :=
  if hasItems (news sectionData)
  then (" TOP HEADLINES:"
          ++ forEach headlineLine 0
               (match news sectionData with Some l => l | None => [] end))%string
  else " TOP HEADLINES: No current headlines available.".

Definition trendsPart (sectionData : SectionData) : string :=
  if hasItems (trends sectionData)
  then (" TRENDING TOPICS:"
          ++ " Group the top trending topics by category (Sports, Technology, Entertainment, Other). Under each category, list relevant topics."
          ++ forEach topicLine 0
               (match trends sectionData with Some l => l | None => [] end))%string
  else " TRENDING TOPICS: Trending topics data is currently unavailable. Please focus on news and market analysis.".

Definition marketPart (etNow : WallClock) (sectionData : SectionData)
           (isMarketClosed : bool) : string :=
  match finance sectionData with
  | Some f =>
      let stockCount := stockCountOf f in
      (" MARKET DATA:"
         ++ (if isMarketClosed && isActualWeekend etNow then
               " Stock markets are closed for the weekend. Here is the latest crypto data:"
                 ++ quoteLines (crypto f)
             else if isMarketClosed && negb (isActualWeekend etNow) then
               if hasStockData f then
                 " Stock markets are closed for the day (after-hours). Here is today's closing market data - IMPORTANT: Include ALL "
                   ++ decimal stockCount
                   ++ " individual stocks in your Market Overview section, not just indices:"
                   ++ nasdaqLine f ++ stockLines f stockCount ++ cryptoLines f
               else
                 " Stock markets are closed for a holiday. Here is the latest crypto data:"
                   ++ quoteLines (crypto f)
             else
               " Markets are currently open. Here is the live market data - IMPORTANT: Include ALL "
                 ++ decimal stockCount
                 ++ " individual stocks in your Market Overview section:"
                 ++ nasdaqLine f ++ stockLines f stockCount ++ cryptoLines f))%string
  | None => " MARKET DATA: Financial data is currently unavailable."
  end.

Definition requestPart (etNow : WallClock) (sectionData : SectionData)
           (isMarketClosed : bool) : string :=
  (" Please provide a structured summary with the following sections: "
     ++ (if hasItems (news sectionData)
         then "NEWS HIGHLIGHTS (max 500 words), " else "")
     ++ (if hasItems (trends sectionData)
         then "TRENDING TOPICS (max 500 words), "
         else "TRENDING TOPICS (indicate data unavailable, max 100 words), ")
     ++ (match finance sectionData with
         | Some f =>
             if isMarketClosed && negb (isActualWeekend etNow) && hasStockData f
             then "MARKET OVERVIEW (max 500 words) - CRITICAL: You MUST include analysis of ALL "
                    ++ decimal (stockCountOf f)
                    ++ " individual stocks provided above (AAPL, MSFT, GOOGL, AMZN, NVDA, META, TSLA, etc.), not just the indices. Group stocks by performance (gainers/losers) and mention notable movers. Then cover crypto markets., "
             else if isMarketClosed || isActualWeekend etNow
             then "MARKET OVERVIEW focusing on crypto (max 500 words), "
             else "MARKET OVERVIEW (max 500 words) - CRITICAL: You MUST include analysis of ALL "
                    ++ decimal (stockCountOf f)
                    ++ " individual stocks provided above, not just the indices. Group stocks by performance and mention notable movers. Then cover crypto markets., "
         | None => "MARKET OVERVIEW (indicate data unavailable, max 100 words), "
         end)
     ++ "INFO GENIE fortune teller predictions (max 300 words).")%string.

(** [createAutomatedAnalysisPrompt(sectionData, isWeekend,
    isMarketClosed)], called with both flags given; [isWeekend] is not
    read again once given, the weekend is taken from the New York clock
    [etNow]. *)
Definition createAutomatedAnalysisPrompt (etNow : WallClock)
           (sectionData : SectionData) (isMarketClosed : bool) : string :=
  ("Please analyze the following current data and provide a comprehensive summary:"
     ++ newsPart sectionData
     ++ trendsPart sectionData
     ++ marketPart etNow sectionData isMarketClosed
     ++ requestPart etNow sectionData isMarketClosed)%string.

(** The prompt [generateAutomatedSummary] sends:
    [isMarketClosed = !isMarketOpen()]. *)
Definition analysisPrompt (etNow : WallClock) (sectionData : SectionData)
  : string :=
  createAutomatedAnalysisPrompt etNow sectionData
                                (negb (Market.Server.isMarketOpen etNow)).

End Prompt.

(** ** From the collected bundle to the prompt *)

Module PromptInput.

(** [finance.key] on the finance object. *)
Definition property (o : Generator.Finance) (key : string)
  : option Generator.FinanceValue :=
  option_map snd (find (fun kv => (fst kv =? key)%string) o).

Definition viewOfObject (o : Generator.Finance) : Prompt.FinanceView :=
  {| Prompt.nasdaq :=
       match property o "nasdaq" with
       | Some (Generator.Index quote) => quote
       | _ => None
       end;
     Prompt.techStocks :=
       match property o "techStocks" with
       | Some (Generator.Quotes bySymbol) => Some bySymbol
       | _ => None
       end;
     Prompt.crypto :=
       match property o "crypto" with
       | Some (Generator.Quotes bySymbol) => Some bySymbol
       | _ => None
       end |}.

(** [sectionData], as [createAutomatedAnalysisPrompt] reads it. *)
Definition ofBundle (sectionData : Generator.Bundle) : Prompt.SectionData :=
  {| Prompt.news := Generator.news sectionData;
     Prompt.trends := Generator.trends sectionData;
     Prompt.finance := option_map viewOfObject (Generator.finance sectionData) |}.

End PromptInput.

(** ** The browser's daily limits and its date key *)

Module Gate.

Import Calendar.

(** [localStorage.removeItem(key)] *)
Definition removeItem (storage : Manual.LocalStorage) (key : string)
  : Manual.LocalStorage :=
  fun k => if (k =? key)%string then None else storage k.

(** [hasGeneratedToday()] *)
Definition hasGeneratedToday (today : string) (storage : Manual.LocalStorage)
  : bool :=
  Js.strictEq (Manual.getItem storage "lastSummaryGeneratedDate") (Some today).

(** [markGeneratedToday()] *)
Definition markGeneratedToday (today : string) (storage : Manual.LocalStorage)
  : Manual.LocalStorage :=
  Manual.setItem storage "lastSummaryGeneratedDate" today.

(** [resetDailySummaryLimit()]: what it does to the storage. *)
Definition resetDailySummaryLimit (storage : Manual.LocalStorage)
  : Manual.LocalStorage :=
  removeItem storage "lastSummaryGeneratedDate".

(** [updateRefreshButtonStatus()]: [refreshBtn.disabled]. *)
Definition refreshButtonDisabled (hostname today : string)
           (storage : Manual.LocalStorage) : bool :=
  if Manual.hasRefreshedToday hostname today storage then true else false.

(** [String(n)] on an integer. *)
Definition numberText (n : Z) : string :=
  DecimalString.NilZero.string_of_int (Z.to_int n).

(** [s.padStart(2, '0')] *)
Definition padStart2 (s : string) : string :=
  (string_of_list_ascii (repeat "0"%char (2 - String.length s)) ++ s)%string.

(** [getLocalDateString(date)] *)
Definition getLocalDateString (date : WallClock) : string :=
  let year := getFullYear date in
  let month := padStart2 (numberText (getMonth date + 1)) in
  let day := padStart2 (numberText (getDate date)) in
  (numberText year ++ "-" ++ month ++ "-" ++ day)%string.

End Gate.

(** ** Vocabulary for the browser's requests *)

Module ManualVocab.

Definition isReply (o : Manual.FetchOutcome) : bool :=
  match o with
  | Manual.Reply _ => true
  | _ => false
  end.

(** [error.message] of what a failed request throws. *)
Definition messageOf (o : Manual.FetchOutcome) : string :=
  match o with
  | Manual.NetworkError message => message
  | Manual.HttpError status body => Manual.httpErrorMessage status body
  | Manual.Reply _ => EmptyString
  end.

(** [data.reply || 'Unable to generate summary at this time.'] *)
Definition replyText (reply : option string) : string :=
  if Js.truthy reply
  then match reply with Some r => r | None => EmptyString end
  else "Unable to generate summary at this time.".

(** [lastError?.message || 'Error: Unable to generate summary after
    multiple attempts.'] *)
Definition failureText (o : Manual.FetchOutcome) : string :=
  if (messageOf o =? "")%string
  then "Error: Unable to generate summary after multiple attempts."
  else messageOf o.

End ManualVocab.

(** ** The checkpoints after 23:00 and the manual trigger *)

Module Schedule.

Import Calendar Generator.

(** [summaryTime] falls on the New York day of [nyDate], at 23:00 or
    later. *)
Definition after11pm (summaryTime nyDate : WallClock) : bool :=
  ((getFullYear summaryTime =? getFullYear nyDate)
   && (getMonth summaryTime =? getMonth nyDate)
   && (getDate summaryTime =? getDate nyDate)
   && (23 <=? getHours summaryTime))%Z.

(** [tryGenerateIfNoPost11pmSummary(label)], the body of the jobs of
    23:05, 23:30 and 23:50.  [nyClock] turns a stored timestamp into the
    New York wall clock ([None] for a text that is no date); the result
    is [None] when the checkpoint returns without calling
    [generateDailySummary].  The call computes its own [todayEDT] the
    same way, an instant later: the same date here. *)
Definition tryGenerateIfNoPost11pmSummary
           (pass : RegionPass) (todayEDT : string) (nyDate : WallClock)
           (nyClock : string -> option WallClock)
           (this : State) (file : option Store.Archive)
  : option CallResult * State * option Store.Archive :=
  let summary :=
    Store.loadDailySummary file todayEDT (language region) (country region) in
  let skip :=
    match summary with
    | Some found =>
        if Js.truthy (Store.timestamp found) then
          match nyClock (match Store.timestamp found with
                         | Some t => t | None => EmptyString end) with
          | Some summaryTime => after11pm summaryTime nyDate
          | None => false
          end
        else false
    | None => false
    end in
  if skip then (None, this, file)
  else
    let '(result, this', file') := generateDailySummary pass todayEDT this file in
    (Some result, this', file').

(** [normalizeIP(ip)]: [ip.replace(/^::ffff:/, '')] *)
Definition normalizeIP (ip : string) : string :=
  if Js.startsWith "::ffff:" ip then Parser.drop 7 ip else ip.

(** [adminOnly]: whether [next()] is called; otherwise the answer is
    403. *)
Definition adminOnly (ADMIN_IPS : list string) (ip : string) : bool :=
  existsb (String.eqb (normalizeIP ip)) ADMIN_IPS.

(** The answers of [POST /api/summary/trigger-automated]. *)
Inductive TriggerResponse :=
| AccessDenied          (* 403 *)
| AlreadyInProgress     (* success: false *)
| Triggered.            (* success: true *)

(** [app.post('/api/summary/trigger-automated', adminOnly, ...)]: the
    answer, and the generator and the file once the call it starts
    without awaiting, [triggerManualGeneration()], has finished. *)
Definition postTriggerAutomated (ADMIN_IPS : list string) (ip : string)
           (pass : RegionPass) (todayEDT : string)
           (this : State) (file : option Store.Archive)
  : TriggerResponse * State * option Store.Archive :=
  if negb (adminOnly ADMIN_IPS ip) then (AccessDenied, this, file)
  else if isGenerating this then (AlreadyInProgress, this, file)
  else
    let '(_, this', file') := generateDailySummary pass todayEDT this file in
    (Triggered, this', file').

End Schedule.

(** ** Checks on the digits of a date key *)

Module DateKey.

(** The text is four digits that spell [n]. *)
Definition spellsYear (n : Z) (s : string) : bool :=
  match list_ascii_of_string s with
  | [a; b; c; d] =>
      Store.isDigit a && Store.isDigit b && Store.isDigit c && Store.isDigit d
      && (Store.digit a * 1000 + Store.digit b * 100 + Store.digit c * 10
          + Store.digit d =? n)%Z
  | _ => false
  end.

(** The text is two digits that spell [n]. *)
Definition spellsTwo (n : Z) (s : string) : bool :=
  match list_ascii_of_string s with
  | [a; b] =>
      Store.isDigit a && Store.isDigit b
      && (Store.digit a * 10 + Store.digit b =? n)%Z
  | _ => false
  end.

(** The integers from [lo] to [hi]. *)
Definition range (lo hi : Z) : list Z :=
  map (fun k => (lo + Z.of_nat k)%Z) (seq 0 (Z.to_nat (hi - lo + 1))).

End DateKey.

(** ** The finance widget: watchlist and dashboard order *)

Module Widget.

(** [addToWatchlist(symbol)]: the watchlist afterwards. *)
Definition addToWatchlist (symbol : string) (watchlist : list string)
  : list string :=
  if existsb (String.eqb symbol) watchlist then watchlist
  else watchlist ++ [symbol].

(** [removeFromWatchlist(symbol)]: the watchlist afterwards. *)
Definition removeFromWatchlist (symbol : string) (watchlist : list string)
  : list string :=
  filter (fun s => negb (s =? symbol)%string) watchlist.

(** What the user does to the watchlist. *)
Inductive Action :=
| Add (symbol : string)
| Remove (symbol : string).

Definition act (watchlist : list string) (a : Action) : list string :=
  match a with
  | Add symbol => addToWatchlist symbol watchlist
  | Remove symbol => removeFromWatchlist symbol watchlist
  end.

(** An entry of the answer of [/api/finance/bulk-real-time]: a quote
    with its symbol and price, or an error. *)
Record Stock := {
  symbol : string;
  price : option string;
  error : option string
}.

Inductive BulkFetch :=
| BulkThrows
| BulkNotOk
| BulkJson (values : list Stock).     (* [Object.values(data)] *)

Definition isCrypto (stock : Stock) : bool := Js.endsWith "-USD" (symbol stock).

(** The comparator of [fetchedStocks.sort]. *)
Definition cryptoFirst (a b : Stock) : Z :=
  let aIsCrypto := isCrypto a in
  let bIsCrypto := isCrypto b in
  if aIsCrypto && negb bIsCrypto then (-1)%Z
  else if negb aIsCrypto && bIsCrypto then 1%Z
  else 0%Z.

(** [fetchTopStocks(symbolsOverride)]: [topStocks] afterwards.
    [symbolsToFetch] is the list the function settles on,
    [stockSymbolInput] and [etNow] are what its call of [isMarketOpen()]
    reads. *)
Definition fetchTopStocks (symbolsToFetch : list string) (response : BulkFetch)
           (stockSymbolInput : option string) (etNow : Calendar.WallClock)
           (topStocks : list Stock) : list Stock :=
  match symbolsToFetch with
  | [] => []
  | _ :: _ =>
      match response with
      | BulkThrows => topStocks
      | BulkNotOk => topStocks
      | BulkJson values =>
          let fetchedStocks :=
            filter (fun stock => negb (Js.truthy (error stock))) values in
          let isMarketOpenFlag :=
            Market.Finance.isMarketOpen stockSymbolInput etNow in
          if negb isMarketOpenFlag
          then Store.sort cryptoFirst fetchedStocks
          else fetchedStocks
      end
  end.

End Widget.

(** ** The day [isGoodFriday] compares with *)

Module Computus.

Import Calendar.
Local Open Scope Z_scope.

(** [goodFriday] inside [isGoodFriday(d)], as year, month (from 1) and
    day: it depends on the year of [d] only. *)
Definition goodFriday (year : Z) : Z * Z * Z :=
  let a := Z.rem year 19 in
  let b := year / 100 in
  let c := Z.rem year 100 in
  let d1 := b / 4 in
  let e := Z.rem b 4 in
  let f1 := (b + 8) / 25 in
  let g := (b - f1 + 1) / 3 in
  let h := Z.rem (19 * a + b - d1 - g + 15) 30 in
  let i := c / 4 in
  let k := Z.rem c 4 in
  let l := Z.rem (32 + 2 * e + 2 * i - h - k) 7 in
  let m := (a + 11 * h + 22 * l) / 451 in
  let month := (h + l - 7 * m + 114) / 31 - 1 in
  let day := Z.rem (h + l - 7 * m + 114) 31 + 1 in
  let year' := if (0 <=? year) && (year <=? 99) then 1900 + year else year in
  let easter := daysFromCivil year' (month + 1) day in
  civilFromDays (easter - 2).

(** The day is a Friday of March or April. *)
Definition fridayInSpring (day : Z * Z * Z) : bool :=
  let '(gy, gm, gd) := day in
  (weekday (daysFromCivil gy gm gd) =? 5) && ((gm =? 3) || (gm =? 4)).

End Computus.

(** ** Vocabulary for the section parser *)

Module ParserVocab.



Definition newline : string := String (ascii_of_nat 10) EmptyString.

(** A reply laid out as the prompt asks: the four headers in bold, each
    on a line of its own, in order. *)
Definition reply (a b c d : string) : string :=
  ("**NEWS HIGHLIGHTS**" ++ newline ++ a ++ newline
     ++ "**TRENDING TOPICS**" ++ newline ++ b ++ newline
     ++ "**MARKET OVERVIEW**" ++ newline ++ c ++ newline
     ++ "**INFO GENIE**" ++ newline ++ d)%string.

(** A character with which no header, bold or bare, and no horizontal
    rule can begin after the first section: not one of * - T M I. *)
Definition plainChar (c : ascii) : bool :=
  negb (existsb (Ascii.eqb c) [ "*"; "-"; "T"; "M"; "I" ]%char).

Fixpoint plain (s : string) : bool :=
  match s with
  | EmptyString => true
  | String c s' => plainChar c && plain s'
  end.

(** A header spelling or a terminator that begins with a character
    that is not plain. *)
Definition beginsMarked (p : string) : Prop :=
  exists c p', p = String c p' /\ plainChar c = false.

End ParserVocab.

(** ** The browser's save request *)

Module Browser.




End Browser.

(** ** A pass without a single quote *)

Module Outage.

(** An evening on which the news service is down and the quote service
    answers, with an error for every symbol; the trends are there. *)
Definition newsResponse : Collectors.NewsFetch := Collectors.NewsThrows.

Definition trendsFetch : nat -> Collectors.TrendsFetch :=
  fun _ =>
    Collectors.TrendsJson
      (Some [ Some [ {| Collectors.rt_title := Collectors.TitleText "eclipse";
                        Collectors.rt_formattedTraffic := None |} ] ]).

Definition failedQuote : Collectors.BulkQuote :=
  {| Collectors.bq_error := Some "Failed to fetch";
     Collectors.bq_price := None;
     Collectors.bq_change := None;
     Collectors.bq_changePercent := None |}.

Definition financeResponse : Collectors.FinanceFetch :=
  Collectors.FinanceJson
    [ ("^IXIC", failedQuote); ("AAPL", failedQuote); ("BTC-USD", failedQuote) ].

(** The pass of that evening: the completion service answers and the
    file can be written.  [financeResponse] is what the quote service
    sends. *)
Definition passEnv (financeResponse : Collectors.FinanceFetch)
  : Generator.PassEnv :=
  {| Generator.collected :=
       Collectors.collectAutomatedSectionData newsResponse trendsFetch
                                              financeResponse;
     Generator.create := fun _ _ => Returns (Some Sample.reply);
     Generator.generatedAtEDT := "2024-11-04T23:00:05.000Z";
     Generator.saveEnv := Sample.saveEnv |}.

End Outage.

(** ** The browser's generation while another one runs *)

Module Overlap.

Import Manual.

(** [lastError?.message || 'Error: Unable to generate summary after
    multiple attempts.'] *)
Definition errorMessage (lastError : option string) : string :=
  if Js.truthy lastError
  then match lastError with Some m => m | None => EmptyString end
  else "Error: Unable to generate summary after multiple attempts.".

(** The loop of [generateSummary] with the page's variable
    [summaryGenerated] in view.  The variable is shared: a generation
    that succeeds sets it, and [refreshSummary] clears it, also while
    this call awaits a request.  [summaryGenerated call] is what this
    call reads when it tests the variable with [call] requests sent: on
    entry and at the first loop test (no [await] lies between them), and
    at each later loop test together with the test that follows the
    loop.  The calls that show and save a reply ([updateSummaryDisplay],
    [saveCurrentSummary], [updateSavedSummariesList]) are taken to
    return. *)
Fixpoint retryLoop (turns : nat) (summaryGenerated : nat -> bool)
         (fetch : nat -> FetchOutcome) (call retryCount : nat)
         (lastError : option string) : option string :=
  if summaryGenerated call then None          (* falls through to [return null] *)
  else if (retryCount <? maxRetries)%nat then
    match turns with
    | O => Some (errorMessage lastError)
    | S turns' =>
        match fetch call with
        | Reply reply =>
            Some (if Js.truthy reply
                  then match reply with Some r => r | None => EmptyString end
                  else "Unable to generate summary at this time.")
        | HttpError status body =>
            if ((status =? 404) || (status =? 503))%nat then
              if (S retryCount <? maxRetries)%nat
              then retryLoop turns' summaryGenerated fetch (S call)
                             (S retryCount) lastError
              else retryLoop turns' summaryGenerated fetch (S call)
                             (S (S retryCount))
                             (Some (httpErrorMessage status body))
            else
              retryLoop turns' summaryGenerated fetch (S call) (S retryCount)
                        (Some (httpErrorMessage status body))
        | NetworkError message =>
            retryLoop turns' summaryGenerated fetch (S call) (S retryCount)
                      (Some message)
        end
    end
  else Some (errorMessage lastError).

(** [generateSummary(sectionData)]: the text it returns, [None] for
    [null].  Every failed request raises [retryCount], so [maxRetries]
    turns are enough. *)
Definition generateSummary (summaryGenerated : nat -> bool)
           (fetch : nat -> FetchOutcome) : option string :=
  retryLoop maxRetries summaryGenerated fetch 0 0 None.

End Overlap.

(* ===================================================================== *)
(** * Part II. Properties *)
(* ===================================================================== *)

(** ** The model at work on small inputs *)

Example parse_all_four :
  Parser.parseAutomatedSummarySections
    "**NEWS HIGHLIGHTS** a **TRENDING TOPICS** b **MARKET OVERVIEW** c **INFO GENIE** d "
  = {| Parser.news := Some "a"; Parser.trends := Some "b";
       Parser.finance := Some "c"; Parser.insights := Some "d" |}.
Proof. vm_compute. reflexivity. Qed.

Example parse_market_only :
  Parser.parseAutomatedSummarySections "MARKET OVERVIEW: Stocks rose."
  = {| Parser.news := None; Parser.trends := None;
       Parser.finance := None; Parser.insights := None |}.
Proof. vm_compute. reflexivity. Qed.

Example parse_market_rule :
  Parser.parseAutomatedSummarySections "MARKET OVERVIEW: Stocks rose. --- bye"
  = {| Parser.news := None; Parser.trends := None;
       Parser.finance := Some "Stocks rose."; Parser.insights := None |}.
Proof. vm_compute. reflexivity. Qed.

Example easter_2024 :
  Market.isGoodFriday
    {| Calendar.getFullYear := 2024; Calendar.getMonth := 2; Calendar.getDate := 29;
       Calendar.getHours := 10; Calendar.getMinutes := 0 |} = true.
Proof. vm_compute. reflexivity. Qed.

Example weekday_2024_12_25 :
  Calendar.getDay
    {| Calendar.getFullYear := 2024; Calendar.getMonth := 11; Calendar.getDate := 25;
       Calendar.getHours := 10; Calendar.getMinutes := 0 |} = 3%Z.
Proof. vm_compute. reflexivity. Qed.

Example open_monday :
  Market.Server.isMarketOpen
    {| Calendar.getFullYear := 2024; Calendar.getMonth := 10; Calendar.getDate := 4;
       Calendar.getHours := 9; Calendar.getMinutes := 30 |} = true.
Proof. vm_compute. reflexivity. Qed.

Example crypto_lower :
  Market.Finance.isMarketOpen (Some "btc-usd")
    {| Calendar.getFullYear := 2024; Calendar.getMonth := 11; Calendar.getDate := 25;
       Calendar.getHours := 10; Calendar.getMinutes := 0 |} = true.
Proof. vm_compute. reflexivity. Qed.

Example automated_all_fail :
  Llm.generateAutomatedSummary (fun _ _ => Throws "503")
  = (None, {| Llm.requested := [Llm.selectedModel; Llm.selectedModel; Llm.selectedModel];
              Llm.pauses := [1000; 2000] |}).
Proof. vm_compute. reflexivity. Qed.

Example chat_all_fail :
  Llm.callOpenRouterWithRetry (fun _ _ => Throws "503") "deepseek/deepseek-r1:free"
  = (Throws "503",
     {| Llm.requested := ["deepseek/deepseek-r1:free"; "openai/gpt-oss-20b:free";
                          "meta-llama/llama-3.3-70b-instruct:free"];
        Llm.pauses := [1000; 2000] |}).
Proof. vm_compute. reflexivity. Qed.

(** ** Strings *)

Section StringFacts.

Lemma startsWith_app (p s : string) :
  Js.startsWith p (p ++ s) = true.
Proof.
  induction p as [|c p IH]; simpl.
  - reflexivity.
  - rewrite Ascii.eqb_refl. exact IH.
Qed.

Lemma startsWith_inv (p s : string) :
  Js.startsWith p s = true -> exists post, s = (p ++ post)%string.
Proof.
  revert s. induction p as [|c p IH]; intros s H.
  - exists s. reflexivity.
  - destruct s as [|d s]; simpl in H; [discriminate|].
    apply andb_true_iff in H. destruct H as [E H].
    apply Ascii.eqb_eq in E. subst d.
    destruct (IH _ H) as [post ->]. exists post. reflexivity.
Qed.

Lemma append_assoc (a b c : string) :
  ((a ++ b) ++ c = a ++ (b ++ c))%string.
Proof. induction a as [|x a IH]; simpl; [reflexivity | now rewrite IH]. Qed.

Lemma includes_app (pre p post : string) :
  Js.includes p (pre ++ p ++ post) = true.
Proof.
  induction pre as [|c pre IH]; simpl.
  - destruct (p ++ post)%string eqn:E; simpl;
      rewrite <- E, startsWith_app; reflexivity.
  - rewrite IH. apply orb_true_r.
Qed.

Lemma includes_inv (p s : string) :
  Js.includes p s = true ->
  exists pre post, s = (pre ++ p ++ post)%string.
Proof.
  induction s as [|c s IH]; simpl; intro H.
  - rewrite orb_false_r in H. apply startsWith_inv in H.
    destruct H as [post ->]. exists EmptyString, post. reflexivity.
  - apply orb_true_iff in H. destruct H as [H|H].
    + apply startsWith_inv in H. destruct H as [post ->].
      exists EmptyString, post. reflexivity.
    + destruct (IH H) as (pre & post & ->).
      exists (String c pre), post. reflexivity.
Qed.

(** A text that lacks [p] lacks every string built around [p]. *)
Lemma includes_around (a p b s : string) :
  Js.includes p s = false -> Js.includes (a ++ p ++ b) s = false.
Proof.
  intro H. destruct (Js.includes (a ++ p ++ b) s) eqn:E; [|reflexivity].
  apply includes_inv in E. destruct E as (pre & post & ->).
  rewrite <- H. symmetry.
  replace (pre ++ (a ++ p ++ b) ++ post)%string
    with ((pre ++ a) ++ p ++ (b ++ post))%string.
  - apply includes_app.
  - now rewrite !append_assoc.
Qed.

Lemma drop_app (h r : string) : Parser.drop (String.length h) (h ++ r) = r.
Proof. induction h as [|c h IH]; simpl; [now destruct r | exact IH]. Qed.

End StringFacts.

(** ** The section parser *)

Section ParserFacts.

Lemma matchHere_none heads rest s :
  (forall h, In h heads -> Js.startsWith h s = false) ->
  Parser.matchHere heads rest s = None.
Proof.
  induction heads as [|h heads IH]; simpl; intro H; [reflexivity|].
  rewrite (H h (or_introl eq_refl)). apply IH.
  intros h' Hin. apply H. now right.
Qed.

(** A header that occurs nowhere is found nowhere. *)
Lemma search_none heads rest s :
  (forall h, In h heads -> Js.includes h s = false) ->
  Parser.search heads rest s = None.
Proof.
  induction s as [|c s IH]; intro H; simpl.
  - rewrite matchHere_none; [reflexivity|].
    intros h Hin. specialize (H h Hin). simpl in H.
    now apply orb_false_iff in H.
  - rewrite matchHere_none.
    + apply IH. intros h Hin. specialize (H h Hin). simpl in H.
      now apply orb_false_iff in H.
    + intros h Hin. specialize (H h Hin). simpl in H.
      now apply orb_false_iff in H.
Qed.

Lemma matchHere_sound heads rest s g :
  Parser.matchHere heads rest s = Some g ->
  exists h r, s = (h ++ r)%string /\ In h heads /\ rest r = Some g.
Proof.
  induction heads as [|h heads IH]; simpl; [discriminate|].
  destruct (Js.startsWith h s) eqn:E.
  - apply startsWith_inv in E. destruct E as [r ->].
    rewrite drop_app. destruct (rest r) eqn:R.
    + intros [= ->]. exists h, r. auto.
    + intro H. destruct (IH H) as (h' & r' & ? & ? & ?).
      exists h', r'. auto.
  - intro H. destruct (IH H) as (h' & r' & ? & ? & ?).
    exists h', r'. auto.
Qed.

(** What [match] finds lies in the text: a header spelling, then a
    remainder that the rest of the expression accepts. *)
Lemma search_sound heads rest s g :
  Parser.search heads rest s = Some g ->
  exists before h r,
    s = (before ++ h ++ r)%string /\ In h heads /\ rest r = Some g.
Proof.
  induction s as [|c s IH]; simpl.
  - destruct (Parser.matchHere heads rest "") eqn:M; [|discriminate].
    intros [= ->]. apply matchHere_sound in M.
    destruct M as (h & r & E & ? & ?).
    exists EmptyString, h, r. auto.
  - destruct (Parser.matchHere heads rest (String c s)) eqn:M.
    + intros [= ->]. apply matchHere_sound in M.
      destruct M as (h & r & E & ? & ?).
      exists EmptyString, h, r. auto.
    + intro H. destruct (IH H) as (before & h & r & -> & ? & ?).
      exists (String c before), h, r. auto.
Qed.

Lemma anyPrefix_inv stops s :
  Parser.anyPrefix stops s = true ->
  exists t after, s = (t ++ after)%string /\ In t stops.
Proof.
  unfold Parser.anyPrefix. intro H. apply existsb_exists in H.
  destruct H as (t & Hin & Hp). apply startsWith_inv in Hp.
  destruct Hp as [after ->]. exists t, after. auto.
Qed.

(** The lazy group stops right before one of the terminators. *)
Lemma lazyUntil_sound stops r g :
  Parser.lazyUntil stops r = Some g ->
  exists t after, r = (g ++ t ++ after)%string /\ In t stops.
Proof.
  revert g. induction r as [|c r IH]; intro g; simpl.
  - destruct (Parser.anyPrefix stops "") eqn:E; [|discriminate].
    intros [= <-]. now apply anyPrefix_inv in E.
  - destruct (Parser.anyPrefix stops (String c r)) eqn:E.
    + intros [= <-]. now apply anyPrefix_inv in E.
    + destruct (Parser.lazyUntil stops r) as [g'|]; [|discriminate].
      intros [= <-]. destruct (IH g' eq_refl) as (t & after & -> & Hin).
      exists t, after. auto.
Qed.

Lemma startsWith_longer (t s x : string) :
  Js.startsWith t s = true -> Js.startsWith t (s ++ x) = true.
Proof.
  revert s. induction t as [|a t IH]; intros s H; [reflexivity|].
  destruct s as [|b s]; simpl in *; [discriminate|].
  apply andb_true_iff in H. destruct H as [-> H]. simpl. now apply IH.
Qed.

(** The lazy group is the shortest one: no terminator begins inside it. *)
Lemma lazyUntil_shortest stops r g :
  Parser.lazyUntil stops r = Some g ->
  forall t, In t stops -> t <> EmptyString -> Js.includes t g = false.
Proof.
  revert g. induction r as [|c r IH]; intros g H t Hin Hne; simpl in H.
  - destruct (Parser.anyPrefix stops ""); [|discriminate].
    injection H as <-. destruct t; [contradiction|reflexivity].
  - destruct (Parser.anyPrefix stops (String c r)) eqn:E.
    + injection H as <-. destruct t; [contradiction|reflexivity].
    + destruct (Parser.lazyUntil stops r) as [g'|] eqn:L; [|discriminate].
      injection H as <-. simpl.
      rewrite (IH g' eq_refl t Hin Hne), orb_false_r.
      destruct (Js.startsWith t (String c g')) eqn:P; [|reflexivity].
      apply lazyUntil_sound in L. destruct L as (t' & after & -> & _).
      unfold Parser.anyPrefix in E.
      assert (existsb (fun p => Js.startsWith p (String c (g' ++ t' ++ after))) stops
              = true) as Habs.
      { apply existsb_exists. exists t. split; [exact Hin|].
        apply (startsWith_longer t (String c g') (t' ++ after) P). }
      rewrite Habs in E. discriminate.
Qed.

Lemma headers_absent h s :
  Js.includes h s = false ->
  forall x, In x (Parser.headerSpellings h) -> Js.includes x s = false.
Proof.
  intros H x [<-|[<-|[<-|[]]]].
  - now apply includes_around.
  - apply (includes_around "" h ":" s H).
  - exact H.
Qed.

Lemma sectionBefore_absent h next s :
  Js.includes h s = false -> Parser.sectionBefore h next s = None.
Proof. intro H. apply search_none. now apply headers_absent. Qed.

Lemma sectionToEnd_absent h s :
  Js.includes h s = false -> Parser.sectionToEnd h s = None.
Proof. intro H. apply search_none. now apply headers_absent. Qed.

(** In a text without the next header, a section that is found ends at
    a horizontal rule. *)
Lemma sectionBefore_rule h next s g :
  Js.includes next s = false ->
  Parser.sectionBefore h next s = Some g ->
    exists before spelling after,
      s = (before ++ spelling ++ g ++ "---" ++ after)%string
      /\ In spelling (Parser.headerSpellings h)
      /\ Js.includes "---" g = false.
Proof.
  intros Hnext H. apply search_sound in H.
  destruct H as (before & spelling & r & -> & Hin & Hlazy).
  pose proof (lazyUntil_shortest _ _ _ Hlazy "---") as Hshort.
  apply lazyUntil_sound in Hlazy.
  destruct Hlazy as (t & after & -> & Ht).
  exists before, spelling, after.
  assert (Js.includes "---" g = false) as Hg
    by (apply Hshort; [right; right; right; now left | discriminate]).
  split; [|split; [exact Hin | exact Hg]].
  assert (Js.includes t (before ++ spelling ++ g ++ t ++ after) = true) as Hocc.
  { replace (before ++ spelling ++ g ++ t ++ after)%string
      with ((before ++ spelling ++ g) ++ t ++ after)%string
      by now rewrite !append_assoc.
    apply includes_app. }
  destruct Ht as [<-|[<-|[<-|[<-|[]]]]].
  - rewrite (includes_around "**" next "**" _ Hnext) in Hocc. discriminate.
  - pose proof (includes_around "" next ":" _ Hnext) as X. simpl in X.
    rewrite X in Hocc. discriminate.
  - rewrite Hnext in Hocc. discriminate.
  - reflexivity.
Qed.

End ParserFacts.

(** C5, as stated, fails: with only the market-overview header in the text
    and nothing after its body, the parser does not return the text up to
    the end of the input; it returns no market overview at all. *)
Lemma market_overview_alone_is_dropped :
  Spec.onlyMarketHeader "MARKET OVERVIEW: Stocks rose."
  /\ Parser.finance
       (Parser.parseAutomatedSummarySections "MARKET OVERVIEW: Stocks rose.")
     = None
  /\ Parser.finance (Parser.parseSummarySections "**MARKET OVERVIEW** Stocks rose.")
     = None
  /\ Parser.finance
       (Parser.parseAutomatedSummarySections "MARKET OVERVIEW: Stocks rose.")
     <> Some "Stocks rose.".
Proof.
  repeat split; try (vm_compute; reflexivity). vm_compute. discriminate.
Qed.

Section MarketSectionFacts.

Import Parser Spec.

Lemma stripPrefix_startsWith p s :
  stripPrefix p s = if Js.startsWith p s then Some (drop (String.length p) s)
                    else None.
Proof.
  revert s. induction p as [|a p IH]; intro s; [reflexivity|].
  destruct s as [|b s]; [reflexivity|]. simpl.
  destruct (Ascii.eqb a b); [apply IH|reflexivity].
Qed.

Lemma includes_startsWith t s :
  Js.includes t s = false -> Js.startsWith t s = false.
Proof. destruct s; simpl; intro H; now apply orb_false_iff in H. Qed.

Lemma includes_tail t c s :
  Js.includes t (String c s) = false -> Js.includes t s = false.
Proof. simpl. intro H. now apply orb_false_iff in H. Qed.

Lemma includes_drop t n s :
  Js.includes t s = false -> Js.includes t (drop n s) = false.
Proof.
  revert s. induction n as [|n IH]; intros s H; [exact H|].
  destruct s as [|c s]; [exact H|]. simpl. apply IH.
  now apply includes_tail with c.
Qed.

(** Without any terminator in the text the lazy group finds no end. *)
Lemma lazyUntil_absent stops s :
  (forall t, In t stops -> Js.includes t s = false) ->
  lazyUntil stops s = None.
Proof.
  induction s as [|c s IH]; intro H.
  - simpl. assert (anyPrefix stops "" = false) as ->; [|reflexivity].
    unfold anyPrefix. apply not_true_is_false. intro E.
    apply existsb_exists in E. destruct E as (t & Hin & Ht).
    rewrite (includes_startsWith t "" (H t Hin)) in Ht. discriminate.
  - cbn [lazyUntil].
    assert (anyPrefix stops (String c s) = false) as ->.
    { unfold anyPrefix. apply not_true_is_false. intro E.
      apply existsb_exists in E. destruct E as (t & Hin & Ht).
      rewrite (includes_startsWith t _ (H t Hin)) in Ht. discriminate. }
    rewrite IH; [reflexivity|].
    intros t Hin. apply includes_tail with c. now apply H.
Qed.

Lemma matchHere_lazy_absent heads stops s :
  (forall t, In t stops -> Js.includes t s = false) ->
  matchHere heads (lazyUntil stops) s = None.
Proof.
  intro H. induction heads as [|h heads IH]; [reflexivity|].
  cbn [matchHere]. destruct (Js.startsWith h s); [|exact IH].
  rewrite lazyUntil_absent; [exact IH|].
  intros t Hin. apply includes_drop. now apply H.
Qed.

(** Nor does the search find a section anywhere. *)
Lemma search_lazy_absent heads stops s :
  (forall t, In t stops -> Js.includes t s = false) ->
  search heads (lazyUntil stops) s = None.
Proof.
  induction s as [|c s IH]; intro H.
  - cbn [search]. now rewrite matchHere_lazy_absent.
  - cbn [search]. rewrite matchHere_lazy_absent by exact H.
    apply IH. intros t Hin. apply includes_tail with c. now apply H.
Qed.

Lemma beforeRule_none s : beforeRule s = None -> Js.includes "---" s = false.
Proof.
  induction s as [|c s IH]; [reflexivity|].
  cbn [beforeRule]. rewrite stripPrefix_startsWith.
  destruct (Js.startsWith "---" (String c s)) eqn:E; [discriminate|].
  destruct (beforeRule s); [discriminate|]. intros _.
  cbn [Js.includes]. rewrite E. now apply IH.
Qed.

Lemma infoGenie_absent s t :
  Js.includes "INFO GENIE" s = false ->
  In t (terminators "INFO GENIE") -> t <> "---"%string ->
  Js.includes t s = false.
Proof.
  intros H [<-|[<-|[<-|[<-|[]]]]] Hne.
  - now apply (includes_around "**" "INFO GENIE" "**").
  - now apply (includes_around "" "INFO GENIE" ":").
  - exact H.
  - contradiction.
Qed.

(** In a text without the next header the lazy group ends at the first
    rule. *)
Lemma lazyUntil_beforeRule s :
  Js.includes "INFO GENIE" s = false ->
  lazyUntil (terminators "INFO GENIE") s = beforeRule s.
Proof.
  induction s as [|c s IH]; intro H; [reflexivity|].
  cbn [lazyUntil beforeRule]. rewrite stripPrefix_startsWith.
  assert (anyPrefix (terminators "INFO GENIE") (String c s)
          = Js.startsWith "---" (String c s)) as ->.
  { change (anyPrefix (terminators "INFO GENIE") (String c s))
      with (Js.startsWith "**INFO GENIE**" (String c s)
            || (Js.startsWith "INFO GENIE:" (String c s)
                || (Js.startsWith "INFO GENIE" (String c s)
                    || (Js.startsWith "---" (String c s) || false)))).
    rewrite (includes_startsWith _ _
               (infoGenie_absent _ "**INFO GENIE**" H
                  (or_introl eq_refl) ltac:(discriminate))).
    rewrite (includes_startsWith _ _
               (infoGenie_absent _ "INFO GENIE:" H
                  (or_intror (or_introl eq_refl)) ltac:(discriminate))).
    rewrite (includes_startsWith _ _ H).
    now rewrite orb_false_r. }
  destruct (Js.startsWith "---" (String c s)); [reflexivity|].
  rewrite IH; [reflexivity|]. now apply includes_tail with c.
Qed.

Lemma terminators_absent s :
  Js.includes "INFO GENIE" s = false -> Js.includes "---" s = false ->
  forall t, In t (terminators "INFO GENIE") -> Js.includes t s = false.
Proof.
  intros H Hrule t Hin.
  destruct (string_dec t "---") as [->|Hne]; [exact Hrule|].
  now apply infoGenie_absent.
Qed.

(** A header that stands at the start, with no rule after it: there is
    no rule in the whole text, since the header has no dash. *)
Lemma no_rule_behind_header (spelling s : string) :
  In spelling [ "**MARKET OVERVIEW**"; "MARKET OVERVIEW:"; "MARKET OVERVIEW" ] ->
  Js.startsWith spelling s = true ->
  beforeRule (drop (String.length spelling) s) = None ->
  Js.includes "---" s = false.
Proof.
  intros Hin Hs Hnone. apply startsWith_inv in Hs. destruct Hs as [post ->].
  rewrite drop_app in Hnone. apply beforeRule_none in Hnone.
  destruct Hin as [<-|[<-|[<-|[]]]]; exact Hnone.
Qed.

(** The market-overview expression on a text without the next header. *)
Lemma sectionBefore_marketSection s :
  Js.includes "INFO GENIE" s = false ->
  sectionBefore "MARKET OVERVIEW" "INFO GENIE" s = marketSection s.
Proof.
  unfold sectionBefore.
  change (headerSpellings "MARKET OVERVIEW")
    with [ "**MARKET OVERVIEW**"; "MARKET OVERVIEW:"; "MARKET OVERVIEW" ].
  induction s as [|c s IH]; intro H; [reflexivity|].
  assert (forall spelling,
             In spelling [ "**MARKET OVERVIEW**"; "MARKET OVERVIEW:";
                           "MARKET OVERVIEW" ] ->
             Js.startsWith spelling (String c s) = true ->
             beforeRule (drop (String.length spelling) (String c s)) = None ->
             search [ "**MARKET OVERVIEW**"; "MARKET OVERVIEW:"; "MARKET OVERVIEW" ]
                    (lazyUntil (terminators "INFO GENIE")) (String c s) = None)
    as Hnone.
  { intros spelling Hin Hs Hb. apply search_lazy_absent.
    apply terminators_absent; [exact H|].
    now apply (no_rule_behind_header spelling). }
  assert (forall n, lazyUntil (terminators "INFO GENIE") (drop n (String c s))
                    = beforeRule (drop n (String c s))) as Hrest.
  { intro n. apply lazyUntil_beforeRule. now apply includes_drop. }
  cbn [marketSection]. rewrite !stripPrefix_startsWith.
  destruct (Js.startsWith "**MARKET OVERVIEW**" (String c s)) eqn:EB.
  { destruct (beforeRule (drop (String.length "**MARKET OVERVIEW**") (String c s)))
      as [g|] eqn:ER.
    - cbn [search matchHere]. now rewrite EB, Hrest, ER.
    - apply (Hnone "**MARKET OVERVIEW**"); [now left|exact EB|exact ER]. }
  destruct (Js.startsWith "MARKET OVERVIEW:" (String c s)) eqn:EC.
  { destruct (beforeRule (drop (String.length "MARKET OVERVIEW:") (String c s)))
      as [g|] eqn:ER.
    - cbn [search matchHere]. now rewrite EB, EC, Hrest, ER.
    - apply (Hnone "MARKET OVERVIEW:"); [right; now left|exact EC|exact ER]. }
  destruct (Js.startsWith "MARKET OVERVIEW" (String c s)) eqn:EH.
  { destruct (beforeRule (drop (String.length "MARKET OVERVIEW") (String c s)))
      as [g|] eqn:ER.
    - cbn [search matchHere]. now rewrite EB, EC, EH, Hrest, ER.
    - apply (Hnone "MARKET OVERVIEW"); [right; right; now left|exact EH|exact ER]. }
  cbn [search matchHere]. rewrite EB, EC, EH.
  apply IH. now apply includes_tail with c.
Qed.

End MarketSectionFacts.

(** C5, amended.  For a text that has the market-overview header and no
    other section header, in both parsers: the news, trends and
    forward-looking fields are absent, and the market-overview field is
    the trimmed text between the first place where the header stands
    (in bold with its asterisks, else plain, with its colon when one
    follows) and the first horizontal rule [---] after it; it is absent
    when no rule follows, so never the text up to the end of the input. *)
Theorem market_overview_only (text : string) :
  Spec.onlyMarketHeader text ->
  let sections := Parser.parseAutomatedSummarySections text in
  Parser.parseSummarySections text = sections
  /\ Parser.news sections = None
  /\ Parser.trends sections = None
  /\ Parser.insights sections = None
  /\ Parser.finance sections = option_map Js.trim (Spec.marketSection text)
  /\ (Js.includes "---" text = false -> Parser.finance sections = None)
  /\ (forall v, Parser.finance sections = Some v ->
        exists before spelling body after,
          text = (before ++ spelling ++ body ++ "---" ++ after)%string
          /\ In spelling (Parser.headerSpellings "MARKET OVERVIEW")
          /\ Js.includes "---" body = false
          /\ v = Js.trim body).
Proof.
  intros (Hm & Hn & Ht & Hg). cbn zeta.
  assert (forall v, Parser.finance (Parser.parseAutomatedSummarySections text) = Some v ->
            exists before spelling body after,
              text = (before ++ spelling ++ body ++ "---" ++ after)%string
              /\ In spelling (Parser.headerSpellings "MARKET OVERVIEW")
              /\ Js.includes "---" body = false
              /\ v = Js.trim body) as Hfound.
  { intros v Hv. simpl in Hv.
    destruct (Parser.sectionBefore "MARKET OVERVIEW" "INFO GENIE" text) as [g|] eqn:E;
      [|discriminate].
    simpl in Hv. injection Hv as <-.
    destruct (sectionBefore_rule _ _ _ _ Hg E)
      as (before & spelling & after & -> & Hin & Hshort).
    exists before, spelling, g, after. auto. }
  split; [reflexivity|].
  split; [simpl; now rewrite sectionBefore_absent|].
  split; [simpl; now rewrite sectionBefore_absent|].
  split; [simpl; now rewrite sectionToEnd_absent|].
  split.
  { unfold Parser.parseAutomatedSummarySections. cbn [Parser.finance].
    now rewrite (sectionBefore_marketSection text Hg). }
  split; [|exact Hfound].
  intro Hrule.
  destruct (Parser.finance (Parser.parseAutomatedSummarySections text)) as [v|] eqn:E;
    [|reflexivity].
  destruct (Hfound v eq_refl) as (before & spelling & body & after & -> & _).
  exfalso.
  replace (before ++ spelling ++ body ++ "---" ++ after)%string
    with ((before ++ spelling ++ body) ++ "---" ++ after)%string in Hrule
    by now rewrite !append_assoc.
  rewrite includes_app in Hrule. discriminate.
Qed.

Lemma market_overview_only_witness :
  let text := "Intro. MARKET OVERVIEW: Stocks rose. --- end" in
  Spec.onlyMarketHeader text
  /\ Parser.news (Parser.parseAutomatedSummarySections text) = None
  /\ Parser.finance (Parser.parseAutomatedSummarySections text) = Some "Stocks rose."
  /\ Parser.finance (Parser.parseSummarySections text) = Some "Stocks rose.".
Proof.
  assert (Spec.onlyMarketHeader "Intro. MARKET OVERVIEW: Stocks rose. --- end") as H
    by (repeat split; vm_compute; reflexivity).
  split; [exact H|].
  pose proof (market_overview_only _ H) as (Hsame & Hnews & _ & _ & Hfinance & _).
  split; [exact Hnews|]. split; [exact Hfinance|].
  rewrite Hsame. exact Hfinance.
Defined.

(** ** The market-hours check *)

Section MarketFacts.

Import Calendar.
Local Open Scope Z_scope.

(** On December 25 the holiday test succeeds in its first branch. *)
Lemma christmas_isHoliday (etNow : WallClock) :
  getMonth etNow = 11 -> getDate etNow = 25 -> Market.isHoliday etNow = true.
Proof.
  intros Hm Hd. unfold Market.isHoliday. cbv zeta.
  generalize (Market.isGoodFriday etNow) (getDay etNow).
  intros goodFriday dayOfWeek. rewrite Hm, Hd. reflexivity.
Qed.

Lemma inSession_christmas (etNow : WallClock) :
  getMonth etNow = 11 -> getDate etNow = 25 -> Market.inSession etNow = false.
Proof.
  intros Hm Hd. unfold Market.inSession. cbv zeta.
  rewrite (christmas_isHoliday etNow Hm Hd).
  generalize (getDay etNow). intro day.
  change (negb true) with false. now rewrite andb_false_r.
Qed.

Lemma inSession_weekend (etNow : WallClock) :
  getDay etNow = 0 \/ getDay etNow = 6 -> Market.inSession etNow = false.
Proof.
  intro H. unfold Market.inSession. cbv zeta.
  generalize (Market.isHoliday etNow). intro holiday.
  destruct H as [H|H]; rewrite H; reflexivity.
Qed.

End MarketFacts.

(** C6, as stated, fails for the evaluator of the server, the one that
    [saveDailySummary] and the automated prompt use: it takes no
    instrument, so a query about BTC-USD on December 25 or on a Saturday
    is answered "closed". *)
Lemma server_market_closed_for_crypto :
  Js.endsWith "-USD" "BTC-USD" = true
  /\ Market.Server.isMarketOpen Sample.christmas2024 = false
  /\ Market.Server.isMarketOpen Sample.saturday2024 = false
  /\ ~ (forall (symbol : string) (etNow : Calendar.WallClock),
          Js.endsWith "-USD" symbol = true ->
          Market.Server.isMarketOpen etNow = true).
Proof.
  split; [vm_compute; reflexivity|].
  split; [vm_compute; reflexivity|].
  split; [vm_compute; reflexivity|].
  intro H.
  assert (Market.Server.isMarketOpen Sample.christmas2024 = true) as Hopen
    by (apply (H "BTC-USD"%string); vm_compute; reflexivity).
  vm_compute in Hopen. discriminate.
Qed.

(** C6, amended.  The finance widget's evaluator answers "open" at every
    instant when the symbol in the page's field, put in upper case, ends
    in -USD.  The server's evaluator, used when a summary is saved and
    when the automated prompt is built, has no instrument: on December 25
    and on Saturdays and Sundays it answers "closed" at every hour. *)
Theorem crypto_open_in_widget_only :
  (forall (value : string) (etNow : Calendar.WallClock),
      Js.endsWith "-USD" (Js.toUpperCase value) = true ->
      Market.Finance.isMarketOpen (Some value) etNow = true)
  /\ (forall etNow : Calendar.WallClock,
        (Calendar.getMonth etNow = 11%Z /\ Calendar.getDate etNow = 25%Z)
        \/ Calendar.getDay etNow = 0%Z \/ Calendar.getDay etNow = 6%Z ->
        Market.Server.isMarketOpen etNow = false).
Proof.
  split.
  - intros value etNow H. unfold Market.Finance.isMarketOpen. now rewrite H.
  - intros etNow [[Hm Hd]|Hw]; unfold Market.Server.isMarketOpen.
    + now apply inSession_christmas.
    + now apply inSession_weekend.
Qed.

Lemma crypto_open_in_widget_only_witness :
  Market.Finance.isMarketOpen (Some "eth-usd") Sample.christmas2024 = true
  /\ Market.Server.isMarketOpen Sample.saturday2024 = false.
Proof.
  split.
  - apply (proj1 crypto_open_in_widget_only). vm_compute. reflexivity.
  - apply (proj2 crypto_open_in_widget_only). right. right.
    vm_compute. reflexivity.
Defined.

(** ** The summary store *)

Section StoreFacts.

Import Store.

Lemma get_set_same (summaries : Archive) date v :
  get (set summaries date v) date = Some v.
Proof.
  induction summaries as [|[k old] rest IH]; simpl.
  - now rewrite String.eqb_refl.
  - destruct (k =? date)%string eqn:E; simpl; rewrite E; [reflexivity|exact IH].
Qed.

Lemma get_set_other (summaries : Archive) date date' v :
  date <> date' -> get (set summaries date v) date' = get summaries date'.
Proof.
  intro Hne. induction summaries as [|[k old] rest IH]; simpl.
  - destruct (date =? date')%string eqn:E; [|reflexivity].
    apply String.eqb_eq in E. contradiction.
  - destruct (k =? date)%string eqn:E; simpl.
    + apply String.eqb_eq in E. subst k.
      destruct (date =? date')%string eqn:E'; [|reflexivity].
      apply String.eqb_eq in E'. contradiction.
    + destruct (k =? date')%string; [reflexivity|exact IH].
Qed.

Lemma sameRegion_withMetadata env data language country :
  sameRegion language country (withMetadata env data language country) = true.
Proof.
  unfold sameRegion, withMetadata; simpl. now rewrite !String.eqb_refl.
Qed.

(** A save that succeeds puts its record under the date. *)
Lemma saved_record_listed env file data date language country file' :
  saveDailySummary env file data date language country = (true, file') ->
  In (withMetadata env data language country) (Spec.recordsOn file' date).
Proof.
  unfold saveDailySummary. destruct (writeOk env); [|discriminate].
  intros [= <-]. unfold Spec.recordsOn.
  generalize (match file with Some a => a | None => [] end).
  intro summaries.
  destruct (get summaries date) as [[one|l]|]; rewrite get_set_same.
  - right. now left.
  - apply in_or_app. right. now left.
  - now left.
Qed.

Lemma filter_none {A} (f : A -> bool) (l : list A) :
  (forall x, In x l -> f x = false) -> filter f l = [].
Proof.
  induction l as [|x l IH]; simpl; intro H; [reflexivity|].
  rewrite (H x (or_introl eq_refl)). apply IH. intros y Hy. apply H. now right.
Qed.

(** In the array branch a save leaves one record for its region. *)
Lemma save_into_array_replaces env summaries l data date language country :
  get summaries date = Some (Many l) ->
  writeOk env = true ->
  filter (sameRegion language country)
         (Spec.recordsOn
            (snd (saveDailySummary env (Some summaries) data date language country))
            date)
  = [withMetadata env data language country].
Proof.
  intros Hget Hw. unfold saveDailySummary. rewrite Hget, Hw. simpl snd.
  unfold Spec.recordsOn. rewrite get_set_same.
  rewrite filter_app. simpl. rewrite sameRegion_withMetadata.
  rewrite filter_none; [reflexivity|].
  intros x Hx. apply filter_In in Hx. destruct Hx as [_ Hx].
  now apply negb_true_iff in Hx.
Qed.

(** In the single-object branch nothing is removed: the old object
    stays in front of the new one, whatever its region. *)
Lemma save_onto_single_appends env summaries one data date language country :
  get summaries date = Some (Single one) ->
  writeOk env = true ->
  Spec.recordsOn
    (snd (saveDailySummary env (Some summaries) data date language country)) date
  = [one; withMetadata env data language country].
Proof.
  intros Hget Hw. unfold saveDailySummary. rewrite Hget, Hw. simpl snd.
  unfold Spec.recordsOn. now rewrite get_set_same.
Qed.

(** The bucket a successful save leaves under its date. *)
Lemma saveDailySummary_bucket env file data date language country :
  writeOk env = true ->
  exists summaries',
    saveDailySummary env file data date language country = (true, Some summaries')
    /\ get summaries' date
       = Some (match get (match file with Some a => a | None => [] end) date with
               | Some (Many existing) =>
                   Many (filter (fun summary =>
                                   negb (sameRegion language country summary))
                                existing
                         ++ [withMetadata env data language country])
               | Some (Single one) =>
                   Many [one; withMetadata env data language country]
               | None => Single (withMetadata env data language country)
               end).
Proof.
  intro Hw. unfold saveDailySummary. rewrite Hw.
  eexists. split; [reflexivity|].
  generalize (match file with Some a => a | None => [] end). intro summaries.
  destruct (get summaries date) as [[one|l]|]; apply get_set_same.
Qed.

(** What does hold of the saves of C1: on a date that has no bucket yet,
    a save for one region, a save for another region and a second save
    for the first region leave the newest record of each region
    retrievable. *)
Lemma three_saves_on_a_fresh_date
      env1 env2 env3 file data1 data2 data3 date l1 c1 l2 c2 :
  get (match file with Some a => a | None => [] end) date = None ->
  writeOk env1 = true -> writeOk env2 = true -> writeOk env3 = true ->
  (l1 =? l2)%string && (c1 =? c2)%string = false ->
  let file1 := snd (saveDailySummary env1 file data1 date l1 c1) in
  let file2 := snd (saveDailySummary env2 file1 data2 date l2 c2) in
  let file3 := snd (saveDailySummary env3 file2 data3 date l1 c1) in
  loadDailySummary file2 date l1 c1 = Some (withMetadata env1 data1 l1 c1)
  /\ loadDailySummary file2 date l2 c2 = Some (withMetadata env2 data2 l2 c2)
  /\ loadDailySummary file3 date l1 c1 = Some (withMetadata env3 data3 l1 c1)
  /\ loadDailySummary file3 date l2 c2 = Some (withMetadata env2 data2 l2 c2).
Proof.
  intros Hfresh Hw1 Hw2 Hw3 Hne. cbv zeta.
  assert ((l2 =? l1)%string && (c2 =? c1)%string = false) as Hne'
    by now rewrite (String.eqb_sym l2 l1), (String.eqb_sym c2 c1).
  destruct (saveDailySummary_bucket env1 file data1 date l1 c1 Hw1)
    as (s1 & -> & G1). rewrite Hfresh in G1. simpl snd.
  destruct (saveDailySummary_bucket env2 (Some s1) data2 date l2 c2 Hw2)
    as (s2 & -> & G2). rewrite G1 in G2. simpl snd.
  destruct (saveDailySummary_bucket env3 (Some s2) data3 date l1 c1 Hw3)
    as (s3 & -> & G3). rewrite G2 in G3. simpl snd.
  unfold loadDailySummary. rewrite G2, G3.
  unfold sameRegion, withMetadata. simpl.
  rewrite !String.eqb_refl. simpl. rewrite Hne, Hne'. simpl.
  rewrite !String.eqb_refl. simpl. rewrite ?Hne, ?Hne'. auto.
Qed.

End StoreFacts.

(** C1 at the failing input.  On an empty archive, two saves for the same
    (date, language, country) leave two records for that triple under the
    date, and [loadDailySummary] returns the first, stale one: the second
    save has not replaced it. *)
Theorem second_save_keeps_stale_record :
  let d := Sample.today in
  let file1 :=
    snd (Store.saveDailySummary Sample.saveEnv None (Sample.summaryData "first")
                                d "en" "US") in
  let file2 :=
    snd (Store.saveDailySummary Sample.saveEnv file1 (Sample.summaryData "second")
                                d "en" "US") in
  map Store.news (filter (Store.sameRegion "en" "US") (Spec.recordsOn file2 d))
  = [Some "first"; Some "second"]
  /\ option_map Store.news (Store.loadDailySummary file2 d "en" "US")
     = Some (Some "first").
Proof. split; vm_compute; reflexivity. Qed.

(** ** The history endpoint *)

Section SortFacts.

Import Store.

Variable A : Type.
Variable cmp : A -> A -> Z.
Variable R : A -> A -> Prop.
Variable ok : A -> Prop.

(** On the elements in question the comparator orders as [R] does, and
    [R] is transitive. *)
Hypothesis cmp_le : forall x y, ok x -> ok y -> (cmp x y <= 0)%Z -> R x y.
Hypothesis cmp_gt : forall x y, ok x -> ok y -> (0 < cmp x y)%Z -> R y x.
Hypothesis R_trans : forall x y z, R x y -> R y z -> R x z.

Lemma insertSorted_perm x l : Permutation (x :: l) (insertSorted cmp x l).
Proof.
  induction l as [|y l IH]; simpl; [reflexivity|].
  destruct (cmp x y <=? 0)%Z; [reflexivity|].
  rewrite perm_swap. now apply perm_skip.
Qed.

Lemma sort_perm l : Permutation l (sort cmp l).
Proof.
  induction l as [|x l IH]; simpl; [reflexivity|].
  rewrite <- insertSorted_perm. now apply perm_skip.
Qed.

Lemma insertSorted_sorted x l :
  ok x -> Forall ok l -> StronglySorted R l ->
  StronglySorted R (insertSorted cmp x l).
Proof.
  intros Hx Hl Hs. induction Hs as [|y l Hs IH Hy]; simpl.
  - constructor; constructor.
  - inversion Hl as [|? ? Hoky Hokl]; subst.
    destruct (cmp x y <=? 0)%Z eqn:E.
    + apply Z.leb_le in E. pose proof (cmp_le x y Hx Hoky E) as Hxy.
      constructor; [now constructor|].
      constructor; [exact Hxy|].
      eapply Forall_impl; [|exact Hy]. intros z Hz. now apply (R_trans x y z).
    + apply Z.leb_gt in E. pose proof (cmp_gt x y Hx Hoky E) as Hyx.
      constructor; [now apply IH|].
      eapply Permutation_Forall; [apply insertSorted_perm|].
      now constructor.
Qed.

Lemma sort_sorted l : Forall ok l -> StronglySorted R (sort cmp l).
Proof.
  induction l as [|x l IH]; simpl; intro H; [constructor|].
  inversion H; subst. apply insertSorted_sorted; auto.
  eapply Permutation_Forall; [apply sort_perm|assumption].
Qed.

End SortFacts.

Section HistoryFacts.

Import Store.

Lemma entriesOf_date date bucket e :
  In e (entriesOf (date, bucket)) ->
  h_date e = date /\ isDateFormat date = true.
Proof.
  unfold entriesOf. destruct (isMalformedKey date); [intros []|].
  destruct (isDateFormat date); simpl; [|intros []].
  destruct bucket as [one|l].
  - intros [<-|[]]. auto.
  - intro H. apply in_map_iff in H. destruct H as (x & <- & _). auto.
Qed.

Lemma notOlder_trans x y z :
  Spec.notOlder x y -> Spec.notOlder y z -> Spec.notOlder x z.
Proof.
  intros (tx & ty & Hx & Hy & Hxy) (ty' & tz & Hy' & Hz & Hyz).
  rewrite Hy in Hy'. injection Hy' as <-.
  exists tx, tz. repeat split; auto. lia.
Qed.

Lemma compareEntries_le x y :
  Spec.dated x -> Spec.dated y -> (compareEntries x y <= 0)%Z -> Spec.notOlder x y.
Proof.
  unfold Spec.dated, compareEntries, Spec.notOlder. intros Hx Hy.
  destruct (dateValue (h_date x)) as [tx|]; [|contradiction].
  destruct (dateValue (h_date y)) as [ty|]; [|contradiction].
  intro H. exists tx, ty. repeat split; auto. lia.
Qed.

Lemma compareEntries_gt x y :
  Spec.dated x -> Spec.dated y -> (0 < compareEntries x y)%Z -> Spec.notOlder y x.
Proof.
  unfold Spec.dated, compareEntries, Spec.notOlder. intros Hx Hy.
  destruct (dateValue (h_date x)) as [tx|]; [|contradiction].
  destruct (dateValue (h_date y)) as [ty|]; [|contradiction].
  intro H. exists ty, tx. repeat split; auto. lia.
Qed.

Lemma listed_entries_dated summaries :
  Spec.keysAreDates (Some summaries) = true ->
  Forall Spec.dated (flat_map entriesOf summaries).
Proof.
  simpl. intro H. apply Forall_forall. intros e He.
  apply in_flat_map in He. destruct He as ([date bucket] & Hin & He).
  apply entriesOf_date in He. destruct He as [Hd Hfmt].
  rewrite forallb_forall in H. specialize (H _ Hin). simpl in H.
  rewrite Hfmt in H. simpl in H. unfold Spec.dated. rewrite Hd.
  destruct (dateValue date); discriminate.
Qed.

End HistoryFacts.

(** C10, as stated, fails on an archive with a key that has the form of
    a date and is none.  Three summaries are saved through
    [POST /api/summary/save], under 2024-06-01, 2024-13-45 and
    2024-12-01; the endpoint asks for a date that is not empty and for
    nothing more.  The history lists the three keys, the second passing
    its format test, and against that key the comparator gives NaN: June
    stays in front of December, the older date before the newer one. *)
Lemma invalid_date_key_breaks_history_order :
  let post := fun (file : option Store.Archive) (date : string) =>
                snd (Endpoints.postSummarySave Sample.saveEnv
                       (Sample2.saveBody (Some date) (Some "text")) file) in
  let file := post (post (post None "2024-06-01") "2024-13-45") "2024-12-01" in
  Store.isDateFormat "2024-13-45" = true
  /\ Store.dateValue "2024-13-45" = None
  /\ map Store.h_date (Store.history file)
     = ["2024-06-01"; "2024-13-45"; "2024-12-01"]
  /\ (exists june december,
         Store.dateValue "2024-06-01" = Some june
         /\ Store.dateValue "2024-12-01" = Some december
         /\ (june < december)%Z)
  /\ ~ StronglySorted Spec.notOlder (Store.history file).
Proof.
  cbv zeta.
  split; [vm_compute; reflexivity|]. split; [vm_compute; reflexivity|].
  split; [vm_compute; reflexivity|]. split.
  - eexists. eexists. split; [vm_compute; reflexivity|].
    split; [vm_compute; reflexivity|]. reflexivity.
  - intro H.
    match type of H with
    | StronglySorted _ ?l => remember l as listed eqn:Hl
    end.
    vm_compute in Hl. subst listed.
    inversion H as [|a l _ Hall]; subst.
    inversion Hall as [|b l' _ Hrest]; subst.
    inversion Hrest as [|c l'' Hlast _]; subst.
    destruct Hlast as (june & december & Hj & Hd & Hle).
    vm_compute in Hj, Hd.
    injection Hj as <-. injection Hd as <-. lia.
Qed.

(** C10, amended.  The history endpoint returns the flattened entries of the
    archive with the newest date first, for single-object and array
    buckets alike, on every archive whose keys of the date format are
    dates that [Date] accepts. *)
Theorem history_newest_first (file : option Store.Archive) :
  Spec.keysAreDates file = true ->
  StronglySorted Spec.notOlder (Store.history file)
  /\ (forall summaries, file = Some summaries ->
        Permutation (flat_map Store.entriesOf summaries) (Store.history file)).
Proof.
  intro H. destruct file as [summaries|]; simpl.
  - split.
    + apply (sort_sorted _ _ Spec.notOlder Spec.dated).
      * exact compareEntries_le.
      * exact compareEntries_gt.
      * exact notOlder_trans.
      * now apply listed_entries_dated.
    + intros ? [= <-]. apply sort_perm.
  - split; [constructor | discriminate].
Qed.

Lemma history_newest_first_witness :
  StronglySorted Spec.notOlder (Store.history (Some Sample.mixedArchive))
  /\ map Store.h_date (Store.history (Some Sample.mixedArchive))
     = ["2024-11-05"; "2024-11-04"; "2024-11-04"; "2024-03-01"; "2023-12-31"].
Proof.
  split.
  - apply (history_newest_first (Some Sample.mixedArchive)).
    vm_compute. reflexivity.
  - vm_compute. reflexivity.
Defined.

(** ** The completion clients *)

Section LlmFacts.

Import Llm.

Lemma below_three (P : nat -> Prop) :
  P 0 -> P 1 -> P 2 -> forall k, k < 3 -> P k.
Proof.
  intros H0 H1 H2 k Hk.
  destruct k as [|[|[|k]]]; try assumption. lia.
Qed.

(** The automated client, attempt by attempt. *)
Lemma generateAutomatedSummary_cases (create : Api) :
  let run := generateAutomatedSummary create in
  (exists n, n <= 3 /\ requested (snd run) = repeat selectedModel n)
  /\ (fst run = None ->
      requested (snd run) = repeat selectedModel 3
      /\ Spec.failed (create selectedModel 0) = true
      /\ Spec.failed (create selectedModel 1) = true
      /\ Spec.failed (create selectedModel 2) = true)
  /\ (forall text, fst run = Some text ->
      exists k, k < 3 /\ create selectedModel k = Returns (Some text)
                /\ text <> ""%string).
Proof.
  cbv zeta. unfold generateAutomatedSummary, maxRetries, attempts.
  change (1 - 1) with 0. change (2 - 1) with 1. change (3 - 1) with 2.
  assert (forall c text, Js.truthy c = true -> c = Some text -> text <> ""%string)
    as Hne.
  { intros c text Ht ->. simpl in Ht. intros ->. discriminate. }
  destruct (create selectedModel 0) as [c0|m0] eqn:E0;
    [destruct (Js.truthy c0) eqn:T0|];
    [ | destruct (create selectedModel 1) as [c1|m1] eqn:E1;
        [destruct (Js.truthy c1) eqn:T1|];
        [ | destruct (create selectedModel 2) as [c2|m2] eqn:E2;
            [destruct (Js.truthy c2) eqn:T2|] ..
          | destruct (create selectedModel 2) as [c2|m2] eqn:E2;
            [destruct (Js.truthy c2) eqn:T2|] ]
      | destruct (create selectedModel 1) as [c1|m1] eqn:E1;
        [destruct (Js.truthy c1) eqn:T1|];
        [ | destruct (create selectedModel 2) as [c2|m2] eqn:E2;
            [destruct (Js.truthy c2) eqn:T2|] ..
          | destruct (create selectedModel 2) as [c2|m2] eqn:E2;
            [destruct (Js.truthy c2) eqn:T2|] ] ];
    simpl;
    (split; [ first [ exists 1; split; [lia|reflexivity]
                    | exists 2; split; [lia|reflexivity]
                    | exists 3; split; [lia|reflexivity] ] | ]);
    (split;
     [ intro Hnone; subst; simpl in *;
       try discriminate;
       repeat split; simpl; try reflexivity;
       try (rewrite T0; reflexivity);
       try (rewrite T1; reflexivity);
       try (rewrite T2; reflexivity)
     | intros text Htext; subst; try discriminate;
       first [ exists 0; split; [lia|]; split; [congruence | eapply Hne; eauto ]
             | exists 1; split; [lia|]; split; [congruence | eapply Hne; eauto ]
             | exists 2; split; [lia|]; split; [congruence | eapply Hne; eauto ] ] ]).
Qed.

End LlmFacts.

(** C7, as stated, fails: on the automated path a failed attempt is
    followed by another request with the same model.  With every request
    failing, the three requests all name the one fixed model, where the
    claim has the first three entries of the deduplicated fallback list. *)
Lemma automated_path_has_no_fallback :
  let run := Llm.generateAutomatedSummary (fun _ _ => Throws "rate limited") in
  Llm.requested (snd run)
  = [Llm.selectedModel; Llm.selectedModel; Llm.selectedModel]
  /\ firstn 3 (Llm.uniqueModels Llm.selectedModel)
     = [Llm.selectedModel; "openai/gpt-oss-20b:free";
        "meta-llama/llama-3.3-70b-instruct:free"]
  /\ Llm.requested (snd run) <> firstn 3 (Llm.uniqueModels Llm.selectedModel).
Proof.
  split; [vm_compute; reflexivity|].
  split; [vm_compute; reflexivity|].
  vm_compute. discriminate.
Qed.

Section AutomatedClientFacts.

Import Llm.

(** The automated client, request by request: what it returns, the
    requests it has sent and the pauses it has made. *)
Lemma generateAutomatedSummary_trace (create : Api) :
  let run := generateAutomatedSummary create in
  pauses (snd run)
  = flat_map (fun j => Spec.pauseAfter (create selectedModel j) (S j))
             (seq 0 (List.length (requested (snd run))))
  /\ (forall text, fst run = Some text ->
      exists k, k < 3
                /\ create selectedModel k = Returns (Some text)
                /\ (forall j, j < k -> Spec.failed (create selectedModel j) = true)
                /\ requested (snd run) = repeat selectedModel (S k)).
Proof.
  cbv zeta. unfold generateAutomatedSummary, maxRetries.
  cbv beta iota fix delta [attempts maxRetries].
  change (1 - 1) with 0. change (2 - 1) with 1. change (3 - 1) with 2.
  assert (forall c, Js.truthy c = false -> Spec.failed (Returns c) = true) as Hf
    by (intros c Hc; simpl; now rewrite Hc).
  destruct (create selectedModel 0) as [c0|m0] eqn:E0;
    [destruct (Js.truthy c0) eqn:T0|];
    [ | destruct (create selectedModel 1) as [c1|m1] eqn:E1;
        [destruct (Js.truthy c1) eqn:T1|];
        [ | destruct (create selectedModel 2) as [c2|m2] eqn:E2;
            [destruct (Js.truthy c2) eqn:T2|] ..
          | destruct (create selectedModel 2) as [c2|m2] eqn:E2;
            [destruct (Js.truthy c2) eqn:T2|] ]
      | destruct (create selectedModel 1) as [c1|m1] eqn:E1;
        [destruct (Js.truthy c1) eqn:T1|];
        [ | destruct (create selectedModel 2) as [c2|m2] eqn:E2;
            [destruct (Js.truthy c2) eqn:T2|] ..
          | destruct (create selectedModel 2) as [c2|m2] eqn:E2;
            [destruct (Js.truthy c2) eqn:T2|] ] ];
    cbn [fst snd requested pauses app List.length seq flat_map Nat.ltb Nat.leb];
    rewrite ?E0, ?E1, ?E2;
    (split; [reflexivity|]);
    intros text Htext; try discriminate;
    first [ exists 0; (split; [lia|split; [congruence|split; [|reflexivity]]]);
            intros j Hj; lia
          | exists 1; (split; [lia|split; [congruence|split; [|reflexivity]]]);
            intros j Hj; assert (j = 0) as -> by lia;
            rewrite E0; first [now apply Hf | reflexivity]
          | exists 2; (split; [lia|split; [congruence|split; [|reflexivity]]]);
            intros j Hj; assert (j = 0 \/ j = 1) as [-> | ->] by lia;
            rewrite ?E0, ?E1; first [now apply Hf | reflexivity] ].
Qed.

End AutomatedClientFacts.

(** C7, amended.  On the automated path every request names the same
    fixed model; there are at most three requests and no fallback list is
    consulted.  After a request that threw the client pauses 1000 ms
    times the attempt number, unless it was the third; after a reply, with
    or without content, it does not pause.  The client returns [null]
    exactly when all three requests failed (threw, or came back without
    content), and then it has sent all three; otherwise it returns the
    non-empty text of the first request that succeeded, every request
    before it having failed, and sends no request after it.  It returns
    in every case: a thrown request is caught inside the loop. *)
Theorem automated_path_retries_same_model (create : Llm.Api) :
  let run := Llm.generateAutomatedSummary create in
  (forall model, In model (Llm.requested (snd run)) -> model = Llm.selectedModel)
  /\ List.length (Llm.requested (snd run)) <= 3
  /\ (fst run = None <->
      forall k, k < 3 -> Spec.failed (create Llm.selectedModel k) = true)
  /\ (fst run = None -> List.length (Llm.requested (snd run)) = 3)
  /\ (forall text, fst run = Some text ->
        text <> ""%string
        /\ exists k, k < 3
                     /\ create Llm.selectedModel k = Returns (Some text)
                     /\ (forall j, j < k ->
                                   Spec.failed (create Llm.selectedModel j) = true)
                     /\ Llm.requested (snd run) = repeat Llm.selectedModel (S k))
  /\ Llm.pauses (snd run)
     = flat_map (fun j => Spec.pauseAfter (create Llm.selectedModel j) (S j))
                (seq 0 (List.length (Llm.requested (snd run)))).
Proof.
  cbv zeta.
  destruct (generateAutomatedSummary_cases create) as ((n & Hn & Hreq) & Hnone & Hsome).
  destruct (generateAutomatedSummary_trace create) as (Hpauses & Hfirst).
  split; [|split; [|split; [|split; [|split]]]].
  - intros model Hin. rewrite Hreq in Hin. now apply repeat_spec in Hin.
  - rewrite Hreq, repeat_length. exact Hn.
  - split.
    + intro H. destruct (Hnone H) as (_ & H0 & H1 & H2).
      now apply below_three.
    + intro Hall.
      destruct (fst (Llm.generateAutomatedSummary create)) as [text|] eqn:E;
        [|reflexivity].
      destruct (Hsome text eq_refl) as (k & Hk & Hret & Hne).
      specialize (Hall k Hk). rewrite Hret in Hall. simpl in Hall.
      destruct text; [congruence|discriminate].
  - intro H. destruct (Hnone H) as (-> & _). reflexivity.
  - intros text H. destruct (Hsome text H) as (k & Hk & Hret & Hne).
    split; [exact Hne|]. exact (Hfirst text H).
  - exact Hpauses.
Qed.

(** ** The automated generator *)

Section GeneratorFacts.

Import Generator.

(** A pass that logs "saved" found no summary for the region and wrote
    one. *)
Lemma generateSummaryForRegion_saved env region date file file' :
  generateSummaryForRegion env region date file = (Saved, file') ->
  Store.loadDailySummary file date (language region) (country region) = None
  /\ exists data,
      Store.saveDailySummary (saveEnv env) file data date
                             (language region) (country region)
      = (true, file')
      /\ Store.d_automated data = Some true.
Proof.
  unfold generateSummaryForRegion.
  destruct (Store.loadDailySummary file date (language region) (country region));
    [discriminate|].
  destruct (collected env) as [sectionData|]; [|discriminate].
  destruct (newsMissing sectionData && financeMissing sectionData); [discriminate|].
  destruct (usable _); [|discriminate].
  match goal with
  | |- context [Store.saveDailySummary ?e ?f ?d ?dt ?l ?c] =>
      destruct (Store.saveDailySummary e f d dt l c) as [saved f1] eqn:E;
      intro H; split; [reflexivity|]; exists d
  end.
  destruct saved; [|discriminate]. injection H as <-. auto.
Qed.

(** What is left for the region when nothing was there for it. *)
Lemma save_after_absent env file data date :
  Store.loadDailySummary file date "en" "US" = None ->
  Store.writeOk env = true ->
  filter (Store.sameRegion "en" "US")
         (Spec.recordsOn
            (snd (Store.saveDailySummary env file data date "en" "US")) date)
  = [Store.withMetadata env data "en" "US"].
Proof.
  intros Hload Hw. unfold Store.saveDailySummary. rewrite Hw.
  unfold Store.loadDailySummary in Hload.
  destruct file as [summaries|]; cbv beta iota delta [snd];
    unfold Spec.recordsOn.
  - destruct (Store.get summaries date) as [[one|l]|] eqn:G;
      rewrite get_set_same.
    + assert (Store.sameRegion "en" "US" one = false) as Hone.
      { destruct (Js.truthy (Store.language one) && Js.truthy (Store.country one)).
        - destruct (Store.sameRegion "en" "US" one); [discriminate|reflexivity].
        - simpl in Hload. discriminate. }
      simpl. rewrite Hone. reflexivity.
    + rewrite filter_app. simpl.
      rewrite filter_none; [reflexivity|].
      intros x Hx. apply filter_In in Hx. destruct Hx as [Hx _].
      eapply find_none in Hload; eauto.
    + reflexivity.
  - change (Store.get [] date) with (@None Store.Bucket). cbv iota.
    rewrite get_set_same. reflexivity.
Qed.

Lemma save_on_empty_day env file data date language country :
  Spec.recordsOn file date = [] ->
  Store.writeOk env = true ->
  Spec.recordsOn
    (snd (Store.saveDailySummary env file data date language country)) date
  = [Store.withMetadata env data language country].
Proof.
  intros Hempty Hw. unfold Store.saveDailySummary. rewrite Hw.
  unfold Spec.recordsOn in *.
  destruct file as [summaries|]; cbv beta iota delta [snd].
  - destruct (Store.get summaries date) as [[one|l]|] eqn:G;
      rewrite get_set_same.
    + discriminate.
    + subst l. reflexivity.
    + reflexivity.
  - change (Store.get [] date) with (@None Store.Bucket). cbv iota.
    rewrite get_set_same. reflexivity.
Qed.

(** One call, started with the flag down, ends with the flag down. *)
Lemma generateDailySummary_flag pass todayEDT this file :
  isGenerating this = false ->
  isGenerating (snd (fst (generateDailySummary pass todayEDT this file))) = false.
Proof.
  intro H. unfold generateDailySummary. rewrite H.
  destruct (Js.strictEq (lastGenerationDate this) (Some todayEDT)); [exact H|].
  destruct (pass region todayEDT file) as [[r|message] file']; reflexivity.
Qed.

Lemma runCalls_flag calls this file :
  isGenerating this = false ->
  isGenerating (fst (runCalls calls this file)) = false.
Proof.
  revert this file. induction calls as [|[pass todayEDT] rest IH];
    intros this file H; simpl; [exact H|].
  pose proof (generateDailySummary_flag pass todayEDT this file H) as Hflag.
  destruct (generateDailySummary pass todayEDT this file) as [[result this'] file'].
  apply IH. exact Hflag.
Qed.

(** The guard against overwriting, in general: a summary found for
    today and en-US ends the pass before anything is collected. *)
Lemma existing_summary_is_kept env todayEDT file found :
  Store.loadDailySummary file todayEDT "en" "US" = Some found ->
  elevenPmJob (passOf env) todayEDT constructor file
  = (Completed AlreadyExists,
     {| isGenerating := false; lastGenerationDate := Some todayEDT |},
     file).
Proof.
  intro H. unfold elevenPmJob, generateDailySummary, passOf,
    generateSummaryForRegion. simpl.
  rewrite H. reflexivity.
Qed.

(** The object built by [collectAutomatedFinanceData] keeps its three
    properties when no quote came back, so the guard never counts it as
    empty. *)
Lemma financeData_has_keys news trends nasdaq techStocks crypto :
  financeMissing {| news := news; trends := trends;
                    finance := Some (financeData nasdaq techStocks crypto) |}
  = false.
Proof. reflexivity. Qed.

End GeneratorFacts.

(** C2.  When a call of [generateDailySummary] has saved a summary, a
    second call on the same New York day does nothing, whatever its pass
    would do: it returns at the [lastGenerationDate] test and leaves the
    generator and the file as they are.  The day then holds exactly one
    summary for the generator's region, and exactly one summary in all
    when it held none before. *)
Theorem second_call_same_day_is_noop
        (env : Generator.PassEnv) (pass2 : Generator.RegionPass)
        (todayEDT : string) (this this1 : Generator.State)
        (file file1 : option Store.Archive) :
  Generator.generateDailySummary (Generator.passOf env) todayEDT this file
  = (Generator.Completed Generator.Saved, this1, file1) ->
  Generator.generateDailySummary pass2 todayEDT this1 file1
  = (Generator.AlreadyToday, this1, file1)
  /\ Generator.lastGenerationDate this1 = Some todayEDT
  /\ List.length (filter (Store.sameRegion "en" "US")
                         (Spec.recordsOn file1 todayEDT)) = 1
  /\ (Spec.recordsOn file todayEDT = [] ->
      List.length (Spec.recordsOn file1 todayEDT) = 1).
Proof.
  unfold Generator.generateDailySummary at 1.
  destruct (Generator.isGenerating this); [discriminate|].
  destruct (Js.strictEq (Generator.lastGenerationDate this) (Some todayEDT));
    [discriminate|].
  unfold Generator.passOf.
  destruct (Generator.generateSummaryForRegion env Generator.region todayEDT file)
    as [r f'] eqn:E.
  intros [= -> <- <-].
  apply generateSummaryForRegion_saved in E.
  destruct E as (Hload & data & Hsave & _). simpl in Hload, Hsave.
  assert (Store.writeOk (Generator.saveEnv env) = true) as Hw.
  { unfold Store.saveDailySummary in Hsave.
    destruct (Store.writeOk (Generator.saveEnv env)); [reflexivity|discriminate]. }
  assert (f' = snd (Store.saveDailySummary (Generator.saveEnv env) file data
                                           todayEDT "en" "US")) as ->
    by now rewrite Hsave.
  split; [|split; [reflexivity|split]].
  - unfold Generator.generateDailySummary. simpl.
    now rewrite String.eqb_refl.
  - now rewrite (save_after_absent _ _ _ _ Hload Hw).
  - intro Hempty. now rewrite (save_on_empty_day _ _ _ _ _ _ Hempty Hw).
Qed.

Lemma second_call_same_day_is_noop_witness :
  let first :=
    Generator.generateDailySummary
      (Generator.passOf (Sample.passEnv Sample.newsOnly))
      Sample.today Generator.constructor None in
  fst (fst first) = Generator.Completed Generator.Saved
  /\ Generator.generateDailySummary
       (Generator.passOf (Sample.passEnv Sample.newsOnly))
       Sample.today (snd (fst first)) (snd first)
     = (Generator.AlreadyToday, snd (fst first), snd first)
  /\ List.length (Spec.recordsOn (snd first) Sample.today) = 1.
Proof.
  cbv zeta.
  destruct (Generator.generateDailySummary
              (Generator.passOf (Sample.passEnv Sample.newsOnly))
              Sample.today Generator.constructor None)
    as [[result this1] file1] eqn:E.
  assert (result = Generator.Completed Generator.Saved) as ->
    by (vm_compute in E; congruence).
  split; [reflexivity|].
  destruct (second_call_same_day_is_noop
              _ (Generator.passOf (Sample.passEnv Sample.newsOnly)) _ _ _ _ _ E)
    as (Hnoop & _ & _ & Hone).
  split; [exact Hnoop | apply Hone; reflexivity].
Defined.

(** The guard as it is written.  For the data of one pass: when the news are absent or an empty
    list and the finance object is absent or has no property, whatever
    the trends, the pass returns without throwing and leaves the file as
    it is, logging either that a summary exists or that the data are
    insufficient.  When instead the trends are absent and the news or the
    finance object are there, and no summary exists yet, the pass is not
    stopped: what it logs depends on the completion and on the write
    alone, and with a usable completion and a writable file it saves an
    automated summary for the region. *)
Theorem insufficient_data_guard
        (env : Generator.PassEnv) (region : Generator.Region) (date : string)
        (file : option Store.Archive) (sectionData : Generator.Bundle) :
  Generator.collected env = Some sectionData ->
  ((Generator.news sectionData = None \/ Generator.news sectionData = Some []) ->
   (Generator.finance sectionData = None
    \/ Generator.finance sectionData = Some []) ->
   exists r,
     Generator.passOf env region date file = (Returns r, file)
     /\ (r = Generator.AlreadyExists \/ r = Generator.InsufficientData))
  /\ (Generator.trends sectionData = None ->
      ((exists h t, Generator.news sectionData = Some (h :: t))
       \/ (exists p o, Generator.finance sectionData = Some (p :: o))) ->
      Store.loadDailySummary file date (Generator.language region)
                             (Generator.country region) = None ->
      let run := Generator.generateSummaryForRegion env region date file in
      fst run
      = (if Generator.usable (fst (Llm.generateAutomatedSummary (Generator.create env)))
         then if Store.writeOk (Generator.saveEnv env)
              then Generator.Saved else Generator.SaveFailed
         else Generator.NoValidSummary)
      /\ (fst run = Generator.Saved ->
          exists s, In s (Spec.recordsOn (snd run) date)
                    /\ Store.sameRegion (Generator.language region)
                                        (Generator.country region) s = true
                    /\ Store.automated s = Some true)).
Proof.
  intro Hc. split.
  - intros Hnews Hfin. unfold Generator.passOf, Generator.generateSummaryForRegion.
    destruct (Store.loadDailySummary file date _ _).
    + exists Generator.AlreadyExists. auto.
    + rewrite Hc.
      assert (Generator.newsMissing sectionData = true) as ->
        by (unfold Generator.newsMissing; destruct Hnews as [->| ->]; reflexivity).
      assert (Generator.financeMissing sectionData = true) as ->
        by (unfold Generator.financeMissing; destruct Hfin as [->| ->]; reflexivity).
      exists Generator.InsufficientData. auto.
  - intros _ Hsome Hload. cbv zeta.
    unfold Generator.generateSummaryForRegion. rewrite Hload, Hc.
    assert (Generator.newsMissing sectionData && Generator.financeMissing sectionData
            = false) as ->.
    { unfold Generator.newsMissing, Generator.financeMissing.
      destruct Hsome as [(h & t & ->)|(p & o & ->)]; simpl;
        [reflexivity | apply andb_false_r]. }
    destruct (Generator.usable _) eqn:U; [|split; [reflexivity|discriminate]].
    match goal with
    | |- context [Store.saveDailySummary ?e ?f ?d ?dt ?l ?c] =>
        pose proof (saved_record_listed e f d dt l c) as Hlisted;
        assert (fst (Store.saveDailySummary e f d dt l c) = Store.writeOk e)
          as Hflag
          by (unfold Store.saveDailySummary; destruct (Store.writeOk e);
              reflexivity);
        destruct (Store.saveDailySummary e f d dt l c) as [saved f1]
    end.
    simpl in Hflag. rewrite <- Hflag.
    destruct saved; simpl; (split; [reflexivity|]); [|discriminate].
    intros _. eexists. split; [apply Hlisted; reflexivity|].
    split; [apply sameRegion_withMetadata | reflexivity].
Qed.

Lemma insufficient_data_guard_witness :
  Generator.passOf (Sample.passEnv Sample.trendsOnly) Generator.region
                   Sample.today None
  = (Returns Generator.InsufficientData, None)
  /\ fst (Generator.generateSummaryForRegion
            (Sample.passEnv Sample.newsOnly) Generator.region Sample.today None)
     = Generator.Saved.
Proof.
  split.
  - destruct (proj1 (insufficient_data_guard
                       (Sample.passEnv Sample.trendsOnly) Generator.region
                       Sample.today None Sample.trendsOnly eq_refl))
      as (r & Hr & _).
    + right. reflexivity.
    + left. reflexivity.
    + rewrite Hr. vm_compute in Hr. congruence.
  - destruct (proj2 (insufficient_data_guard
                       (Sample.passEnv Sample.newsOnly) Generator.region
                       Sample.today None Sample.newsOnly eq_refl))
      as (Hrun & _).
    + reflexivity.
    + left. exists Sample.headline, []. reflexivity.
    + reflexivity.
    + rewrite Hrun. vm_compute. reflexivity.
Defined.

(** C3 at the failing input.  The news collector returns [null] and the
    finance collector an object without a single quote: [nasdaq] is
    [null], [techStocks] and [crypto] are empty.  The guard counts the
    properties of that object, finds three, and lets the pass through:
    the completion is asked and its answer is saved as the day's
    automated summary.  Only when the quote request itself fails, so
    that the finance collector returns [null], does the guard stop the
    pass. *)
Theorem quoteless_finance_passes_the_guard :
  let run :=
    Generator.generateSummaryForRegion (Outage.passEnv Outage.financeResponse)
                                       Generator.region Sample.today None in
  Generator.collected (Outage.passEnv Outage.financeResponse)
  = Some {| Generator.news := None;
            Generator.trends := Some [Sample.topic];
            Generator.finance := Some (Generator.financeData None [] []) |}
  /\ fst run = Generator.Saved
  /\ option_map Store.automated
       (Store.loadDailySummary (snd run) Sample.today "en" "US")
     = Some (Some true)
  /\ Generator.generateSummaryForRegion (Outage.passEnv Collectors.FinanceNotOk)
                                        Generator.region Sample.today None
     = (Generator.InsufficientData, None).
Proof. repeat split; vm_compute; reflexivity. Qed.

(** C4 at the failing input.  With a summary for today and en-US already
    in the file, the job of 23:00 generates nothing and overwrites
    nothing, although the data, the completion and the disk are all
    there: the pass stops at its first test, the file is as before, and
    the day is marked as generated. *)
Theorem eleven_pm_job_keeps_existing_summary :
  Generator.elevenPmJob (Generator.passOf (Sample.passEnv Sample.newsOnly))
                        Sample.today Generator.constructor
                        (Some Sample.archiveWithToday)
  = (Generator.Completed Generator.AlreadyExists,
     {| Generator.isGenerating := false;
        Generator.lastGenerationDate := Some Sample.today |},
     Some Sample.archiveWithToday)
  /\ option_map Store.news
       (Store.loadDailySummary (Some Sample.archiveWithToday) Sample.today "en" "US")
     = Some (Some "manual").
Proof.
  split; [|vm_compute; reflexivity].
  eapply existing_summary_is_kept. vm_compute. reflexivity.
Qed.

(** ** The generator on the event loop *)

Section EventLoopFacts.

Import Generator.

(** Run to its end without interruption, a call is [enter], the pass,
    [leave]. *)
Lemma generateDailySummary_cut pass todayEDT this file :
  generateDailySummary pass todayEDT this file
  = match enter todayEDT this with
    | inl r => (r, this, file)
    | inr this1 =>
        let '(outcome, file') := pass region todayEDT file in
        let '(r, this2) := leave todayEDT outcome this1 in
        (r, this2, file')
    end.
Proof.
  unfold generateDailySummary, enter, leave.
  destruct (isGenerating this); [reflexivity|].
  destruct (Js.strictEq (lastGenerationDate this) (Some todayEDT)); [reflexivity|].
  destruct (pass region todayEDT file) as [[r|message] file']; reflexivity.
Qed.

(** The flag is up exactly while a pass is awaited, and at most one pass
    is: a call made meanwhile is dropped, and when the pass settles,
    whether it returned or threw, the flag comes down. *)
Lemma flag_follows_flight (events : list Event) :
  let p := fold_left step events start in
  (inFlight p = 0 /\ isGenerating (generator p) = false)
  \/ (inFlight p = 1 /\ isGenerating (generator p) = true).
Proof.
  cbv zeta.
  assert (forall p,
             (inFlight p = 0 /\ isGenerating (generator p) = false)
             \/ (inFlight p = 1 /\ isGenerating (generator p) = true) ->
             (inFlight (fold_left step events p) = 0
              /\ isGenerating (generator (fold_left step events p)) = false)
             \/ (inFlight (fold_left step events p) = 1
                 /\ isGenerating (generator (fold_left step events p)) = true)) as H.
  { induction events as [|e events IH]; intros p Hp; [exact Hp|].
    simpl. apply IH.
    destruct e as [todayEDT|todayEDT outcome]; simpl.
    - unfold enter. destruct Hp as [[Hn Hf]|[Hn Hf]]; rewrite Hf.
      + destruct (Js.strictEq _ _); [left; auto|].
        right. simpl. rewrite Hn. auto.
      + right. auto.
    - destruct Hp as [[Hn Hf]|[Hn Hf]]; rewrite Hn.
      + left. auto.
      + left. destruct outcome; simpl; auto. }
  apply H. left. auto.
Qed.

End EventLoopFacts.

(** C8, as stated, fails for an invocation that the single-flight test
    drops.  A first call is made and its pass is awaited; a second call
    made meanwhile returns at once, at [if (this.isGenerating)], and when
    it has returned the flag is still up, as [getStatus] reports. *)
Lemma dropped_call_returns_with_flag_up :
  let p1 := Generator.step Generator.start (Generator.Called Sample.today) in
  let p2 := Generator.step p1 (Generator.Called Sample.today) in
  Generator.enter Sample.today (Generator.generator p1)
  = inl Generator.InProgress
  /\ Generator.isGenerating (Generator.generator p2) = true
  /\ fst (Generator.getStatus (Generator.generator p2)) = true
  /\ ~ (forall events : list Generator.Event,
          Generator.isGenerating
            (Generator.generator (fold_left Generator.step events Generator.start))
          = false).
Proof.
  cbv zeta. split; [reflexivity|]. split; [reflexivity|]. split; [reflexivity|].
  intro H.
  specialize (H [Generator.Called Sample.today; Generator.Called Sample.today]).
  vm_compute in H. discriminate.
Qed.

(** C8, amended.  The flag is up exactly while one pass is awaited, and
    never more than one is.  A call made meanwhile is dropped and changes
    nothing: the flag it leaves up belongs to the pass in flight.  A call
    skipped because the day is done returns with the flag down.  When a
    pass settles, whether it returned or threw, the flag is down; so a
    call that got past the single-flight test returns with the flag down
    whatever its pass did, and so does every call in a run where each
    call returns before the next is made. *)
Theorem flag_is_up_only_while_a_pass_is_awaited
        (events : list Generator.Event) :
  let p := fold_left Generator.step events Generator.start in
  (Generator.isGenerating (Generator.generator p) = true
   <-> Generator.inFlight p = 1)
  /\ Generator.inFlight p <= 1
  /\ (forall todayEDT,
         Generator.inFlight p = 1 ->
         Generator.enter todayEDT (Generator.generator p) = inl Generator.InProgress
         /\ Generator.step p (Generator.Called todayEDT) = p)
  /\ (forall todayEDT,
         Generator.enter todayEDT (Generator.generator p)
         = inl Generator.AlreadyToday ->
         Generator.isGenerating
           (Generator.generator (Generator.step p (Generator.Called todayEDT)))
         = false)
  /\ (forall todayEDT outcome,
         Generator.isGenerating
           (Generator.generator
              (Generator.step p (Generator.Settled todayEDT outcome))) = false)
  /\ (forall (calls : list (Generator.RegionPass * string))
             (file : option Store.Archive),
         Generator.isGenerating
           (fst (Generator.runCalls calls Generator.constructor file)) = false
         /\ fst (Generator.getStatus
                   (fst (Generator.runCalls calls Generator.constructor file)))
            = false).
Proof.
  cbv zeta.
  pose proof (flag_follows_flight events) as Hflight. cbv zeta in Hflight.
  set (p := fold_left Generator.step events Generator.start) in *.
  split; [|split; [|split; [|split; [|split]]]].
  - destruct Hflight as [[Hn Hf]|[Hn Hf]]; rewrite Hn, Hf; split;
      [discriminate|discriminate|reflexivity|reflexivity].
  - destruct Hflight as [[Hn _]|[Hn _]]; rewrite Hn; lia.
  - intros todayEDT Hone.
    destruct Hflight as [[Hn _]|[_ Hf]]; [rewrite Hn in Hone; discriminate|].
    assert (Generator.enter todayEDT (Generator.generator p)
            = inl Generator.InProgress) as Henter
      by (unfold Generator.enter; now rewrite Hf).
    split; [exact Henter|].
    cbn [Generator.step]. now rewrite Henter.
  - intros todayEDT Hskip. cbn [Generator.step]. rewrite Hskip.
    unfold Generator.enter in Hskip.
    destruct (Generator.isGenerating (Generator.generator p));
      [discriminate|reflexivity].
  - intros todayEDT outcome. cbn [Generator.step].
    destruct Hflight as [[Hn Hf]|[Hn Hf]]; rewrite Hn; [exact Hf|].
    destruct outcome; reflexivity.
  - intros calls file.
    assert (Generator.isGenerating
              (fst (Generator.runCalls calls Generator.constructor file)) = false)
      as H by (apply runCalls_flag; reflexivity).
    split; exact H.
Qed.

(** ** The manual refresh *)

Section ManualFacts.

Import Manual.

(** More turns than [maxRetries] change nothing: the loop has ended by
    then. *)
Lemma retryLoop_turns fetch extra :
  retryLoop (maxRetries + extra) fetch 0 0 None
  = retryLoop maxRetries fetch 0 0 None.
Proof.
  unfold maxRetries. simpl.
  destruct (fetch 0) as [m0|s0 b0|r0]; try reflexivity;
    [ | destruct ((s0 =? 404) || (s0 =? 503))%nat ];
    simpl;
    (destruct (fetch 1) as [m1|s1 b1|r1]; try reflexivity;
     [ | destruct ((s1 =? 404) || (s1 =? 503))%nat ];
     simpl;
     (destruct (fetch 2) as [m2|s2 b2|r2]; try reflexivity;
      [ | destruct ((s2 =? 404) || (s2 =? 503))%nat ];
      simpl; destruct extra; reflexivity)).
Qed.

(** The marker is written in one place only: when the text that
    [generateSummary] returns does not pass the test, or when collection
    throws, the storage is left as it was. *)
Lemma refreshSummary_untouched env storage :
  usable (generateSummary (fetch env)) = false ->
  snd (refreshSummary env storage) = storage.
Proof.
  intro H. unfold refreshSummary.
  destruct (hasRefreshedToday (hostname env) (today env) storage);
    [reflexivity|].
  destruct (collect env); [rewrite H|]; reflexivity.
Qed.

End ManualFacts.

(** C9 at the failing inputs.  With the network down, and likewise with
    [/api/chat] answering 500, all three attempts of [generateSummary]
    fail and it returns the message of the last error.  That message
    holds neither "Error:" nor "Unable to generate", so [refreshSummary]
    takes it for a summary: it reports success and writes today's date
    under [lastSummaryRefreshDate].  A second call on that day is
    refused. *)
Theorem failed_refresh_consumes_quota :
  let first :=
    Manual.refreshSummary (Sample.visit Sample.offline false) Sample.freshStorage in
  Manual.generateSummary Sample.offline = Some "Failed to fetch"%string
  /\ fst first = Manual.RefreshedAndSaved
  /\ Manual.getItem (snd first) "lastSummaryRefreshDate" = Some Sample.today
  /\ fst (Manual.refreshSummary (Sample.visit Sample.offline false) (snd first))
     = Manual.DailyLimit
  /\ Manual.generateSummary Sample.chatDown
     = Some "HTTP error! status: 500 - Error communicating with OpenRouter"%string
  /\ Manual.getItem
       (snd (Manual.refreshSummary (Sample.visit Sample.chatDown false)
                                   Sample.freshStorage))
       "lastSummaryRefreshDate"
     = Some Sample.today.
Proof. repeat split; vm_compute; reflexivity. Qed.

(** The timer of 60 s stops nothing either: when it fires first and the
    inner function then gets its reply, the user has been told of a
    timeout and the marker is written all the same. *)
Lemma timed_out_refresh_still_marks :
  let late :=
    Manual.refreshSummary
      (Sample.visit (fun _ => Manual.Reply (Some Sample.reply)) true)
      Sample.freshStorage in
  fst late = Manual.TimedOut
  /\ Manual.getItem (snd late) "lastSummaryRefreshDate" = Some Sample.today.
Proof. split; vm_compute; reflexivity. Qed.

(* ===================================================================== *)
(** * Part III. Further properties of the code *)
(* ===================================================================== *)

(** ** The store: round trips and what a save leaves alone *)

Section StoreMoreFacts.

Import Store.

Import Vocab.

Lemma truthy_nonempty (s : string) : s <> ""%string -> Js.truthy (Some s) = true.
Proof. intro H. simpl. destruct s; [contradiction|reflexivity]. Qed.

Lemma save_then_load_gen env file data date language country :
  writeOk env = true ->
  language <> ""%string -> country <> ""%string ->
  (forall one, get (archiveOf file) date = Some (Single one) ->
               sameRegion language country one = false) ->
  loadDailySummary
    (snd (saveDailySummary env file data date language country))
    date language country
  = Some (withMetadata env data language country).
Proof.
  intros Hw Hl Hc Hsingle.
  unfold archiveOf in Hsingle.
  destruct (saveDailySummary_bucket env file data date language country Hw)
    as (s' & -> & G). simpl snd. unfold loadDailySummary. rewrite G.
  destruct (get match file with Some a => a | None => [] end date)
    as [[one|l]|] eqn:E.
  - simpl. rewrite (Hsingle one eq_refl). now rewrite sameRegion_withMetadata.
  - assert (forall l0, (forall x, In x l0 ->
                                  sameRegion language country x = false) ->
                       find (sameRegion language country)
                            (l0 ++ [withMetadata env data language country])
                       = Some (withMetadata env data language country)) as Hfind.
    { induction l0 as [|x l0 IH]; intro H0; simpl.
      - now rewrite sameRegion_withMetadata.
      - rewrite (H0 x (or_introl eq_refl)). apply IH.
        intros y Hy. apply H0. now right. }
    apply Hfind. intros x Hx. apply filter_In in Hx.
    destruct Hx as [_ Hx]. now apply negb_true_iff in Hx.
  - cbv beta iota.
    change (Store.language (withMetadata env data language country))
      with (Some language).
    change (Store.country (withMetadata env data language country))
      with (Some country).
    rewrite (truthy_nonempty _ Hl), (truthy_nonempty _ Hc).
    cbv beta iota delta [andb].
    now rewrite sameRegion_withMetadata.
Qed.

Lemma save_other_date_gen env file data date date' language country :
  date <> date' ->
  get (archiveOf (snd (saveDailySummary env file data date language country)))
      date'
  = get (archiveOf file) date'.
Proof.
  intro Hne. unfold saveDailySummary, archiveOf.
  destruct (writeOk env); [|reflexivity]. simpl snd.
  generalize (match file with Some a => a | None => [] end). intro summaries.
  destruct (get summaries date) as [[one|l]|]; now apply get_set_other.
Qed.

Lemma loadDailySummary_get file file' date language country :
  get (archiveOf file') date = get (archiveOf file) date ->
  loadDailySummary file' date language country
  = loadDailySummary file date language country.
Proof.
  unfold loadDailySummary, archiveOf. intro H.
  destruct file as [a|], file' as [a'|]; simpl in H;
    try rewrite H; try rewrite <- H; reflexivity.
Qed.

End StoreMoreFacts.

Section HistoryMoreFacts.

Import Store.

Lemma digit_is_no_dash c : isDigit c = true -> isDash c = false.
Proof.
  unfold isDigit, isDash. intro H.
  apply andb_true_iff in H. destruct H as [H _].
  apply Nat.leb_le in H. apply Nat.eqb_neq. lia.
Qed.

(** A key of the date format has two dashes, so the first test of the
    history loop lets it through. *)
Lemma dateFormat_not_malformed date :
  isDateFormat date = true -> isMalformedKey date = false.
Proof.
  unfold isDateFormat, isMalformedKey, splitDashLength.
  destruct (list_ascii_of_string date)
    as [|y1 [|y2 [|y3 [|y4 [|s1 [|m1 [|m2 [|s2 [|d1 [|d2 [|x l]]]]]]]]]]];
    try discriminate.
  intro H. do 9 (apply andb_true_iff in H; destruct H as [H ?]).
  simpl filter.
  repeat match goal with
         | Hd : isDigit ?c = true |- _ =>
             rewrite (digit_is_no_dash c Hd); clear Hd
         | Hs : isDash ?c = true |- _ => rewrite Hs; clear Hs
         end.
  simpl. apply andb_false_r.
Qed.

Lemma sort_In {A} (cmp : A -> A -> Z) (l : list A) (x : A) :
  In x (sort cmp l) <-> In x l.
Proof.
  split; intro H.
  - eapply Permutation_in; [apply Permutation_sym, sort_perm|exact H].
  - eapply Permutation_in; [apply sort_perm|exact H].
Qed.

Lemma history_In file e :
  In e (history file) <->
  exists summaries date bucket,
    file = Some summaries /\ In (date, bucket) summaries
    /\ In e (entriesOf (date, bucket)).
Proof.
  unfold history. destruct file as [summaries|].
  - rewrite sort_In, in_flat_map. split.
    + intros ([date bucket] & Hin & He). exists summaries, date, bucket. auto.
    + intros (s' & date & bucket & [= <-] & Hin & He).
      exists (date, bucket). auto.
  - split; [intros []|]. intros (s' & _ & _ & H & _). discriminate.
Qed.

Lemma get_In (summaries : Archive) date bucket :
  get summaries date = Some bucket -> In (date, bucket) summaries.
Proof.
  induction summaries as [|[k v] rest IH]; simpl; [discriminate|].
  destruct (k =? date)%string eqn:E.
  - apply String.eqb_eq in E. subst k. intros [= ->]. now left.
  - intro H. right. now apply IH.
Qed.

Lemma recordsOn_listed file date summary :
  isDateFormat date = true ->
  In summary (Spec.recordsOn file date) ->
  In (entryOf date summary) (history file).
Proof.
  intros Hfmt Hin. apply history_In. unfold Spec.recordsOn in Hin.
  destruct file as [summaries|]; [|contradiction].
  destruct (get summaries date) as [bucket|] eqn:G; [|contradiction].
  exists summaries, date, bucket. split; [reflexivity|].
  split; [now apply get_In|].
  unfold entriesOf. rewrite (dateFormat_not_malformed date Hfmt), Hfmt. simpl.
  destruct bucket as [one|l].
  - destruct Hin as [->|[]]. now left.
  - now apply in_map.
Qed.

End HistoryMoreFacts.

Lemma targetDate_given today date :
  date <> ""%string -> Store.targetDate today (Some date) = date.
Proof. intro H. unfold Store.targetDate. now rewrite (truthy_nonempty _ H). Qed.

(** X1. Save, then load.  For a date that is not empty and names no member
    of [Object.prototype], and a language and a country that are not
    empty: after a save that could write, [loadDailySummary] called with
    the same date, language and country returns the record just written,
    unless the date held one single object of that very region (the case
    of C1). *)
Theorem save_then_load
        (env : Store.SaveEnv) (file : option Store.Archive)
        (data : Store.SummaryData) (today date language country : string) :
  Store.writeOk env = true ->
  Js.inherited date = false ->
  date <> ""%string ->
  language <> ""%string -> country <> ""%string ->
  (forall one,
      Store.get (Vocab.archiveOf file) date = Some (Store.Single one) ->
      Store.sameRegion language country one = false) ->
  Store.loadDailySummary
    (snd (Store.saveDailySummary env file data date language country))
    (Store.targetDate today (Some date)) language country
  = Some (Store.withMetadata env data language country).
Proof.
  intros Hw _ Hd Hl Hc Hsingle. rewrite (targetDate_given today date Hd).
  exact (save_then_load_gen env file data date language country Hw Hl Hc Hsingle).
Qed.

Lemma save_then_load_witness :
  option_map Store.news
    (Store.loadDailySummary
       (snd (Store.saveDailySummary Sample.saveEnv (Some Sample.mixedArchive)
                                    (Sample.summaryData "late") "2024-11-04"
                                    "fr" "FR"))
       (Store.targetDate "2024-11-09" (Some "2024-11-04")) "fr" "FR")
  = Some (Some "late").
Proof.
  rewrite (save_then_load Sample.saveEnv (Some Sample.mixedArchive)
             (Sample.summaryData "late") "2024-11-09" "2024-11-04" "fr" "FR").
  - reflexivity.
  - reflexivity.
  - reflexivity.
  - discriminate.
  - discriminate.
  - discriminate.
  - intros one H. vm_compute in H. discriminate.
Defined.

(** X2. A save touches one date only.  [loadDailySummary] looks under the
    date it is given, or under today's when it is given none or an empty
    one; when that date is another than the one saved under, and neither
    names a member of [Object.prototype], it gives after the save what
    it gave before, for every language and country and whether the write
    succeeded or not. *)
Theorem save_leaves_other_dates
        (env : Store.SaveEnv) (file : option Store.Archive)
        (data : Store.SummaryData) (today date : string)
        (requested : option string)
        (language country language' country' : string) :
  Js.inherited date = false ->
  Js.inherited (Store.targetDate today requested) = false ->
  date <> Store.targetDate today requested ->
  Store.loadDailySummary
    (snd (Store.saveDailySummary env file data date language country))
    (Store.targetDate today requested) language' country'
  = Store.loadDailySummary file (Store.targetDate today requested)
                           language' country'.
Proof.
  intros _ _ Hne. apply loadDailySummary_get. now apply save_other_date_gen.
Qed.

Lemma save_leaves_other_dates_witness :
  option_map Store.news
    (Store.loadDailySummary
       (snd (Store.saveDailySummary Sample.saveEnv (Some Sample.mixedArchive)
                                    (Sample.summaryData "late") "2024-11-04"
                                    "en" "US"))
       (Store.targetDate "2024-03-01" None) "en" "US")
  = Some (Some "a").
Proof.
  rewrite (save_leaves_other_dates Sample.saveEnv (Some Sample.mixedArchive)
             (Sample.summaryData "late") "2024-03-01" "2024-11-04" None
             "en" "US" "en" "US").
  - reflexivity.
  - reflexivity.
  - reflexivity.
  - discriminate.
Defined.

(** X3. A legacy object (no language or no country) is found by
    [loadDailySummary] for en-US as long as it is alone under its date.
    Once a summary for another region is saved on that date, the legacy
    object is still in the file but no request for en-US finds it any
    more. *)
Theorem legacy_summary_eclipsed
        (env : Store.SaveEnv) (summaries : Store.Archive)
        (data : Store.SummaryData) (date language country : string)
        (one : Store.Summary) :
  Store.get summaries date = Some (Store.Single one) ->
  Store.language one = None \/ Store.country one = None ->
  Store.writeOk env = true ->
  ((language =? "en") && (country =? "US"))%string = false ->
  let file' :=
    snd (Store.saveDailySummary env (Some summaries) data date language country) in
  Store.loadDailySummary (Some summaries) date "en" "US" = Some one
  /\ Store.loadDailySummary file' date "en" "US" = None
  /\ In one (Spec.recordsOn file' date).
Proof.
  intros Hget Hlegacy Hw Hother. cbv zeta.
  assert (Js.truthy (Store.language one) && Js.truthy (Store.country one) = false)
    as Hfalsy.
  { destruct Hlegacy as [-> | ->]; simpl; [reflexivity|apply andb_false_r]. }
  assert (Store.sameRegion "en" "US" one = false) as Hsame.
  { unfold Store.sameRegion.
    destruct Hlegacy as [-> | ->]; simpl; [reflexivity|apply andb_false_r]. }
  split; [|split].
  - unfold Store.loadDailySummary. rewrite Hget, Hfalsy. reflexivity.
  - destruct (saveDailySummary_bucket env (Some summaries) data date
                                      language country Hw) as (s' & -> & G).
    rewrite Hget in G. simpl snd. unfold Store.loadDailySummary. rewrite G.
    unfold find. rewrite Hsame.
    change (Store.sameRegion "en" "US"
              (Store.withMetadata env data language country))
      with ((language =? "en") && (country =? "US"))%string.
    now rewrite Hother.
  - rewrite (save_onto_single_appends env summaries one data date
               language country Hget Hw). now left.
Qed.

Lemma legacy_summary_eclipsed_witness :
  Store.loadDailySummary (Some Sample.mixedArchive) "2024-03-01" "en" "US"
  = Some (Sample.legacy "a")
  /\ Store.loadDailySummary
       (snd (Store.saveDailySummary Sample.saveEnv (Some Sample.mixedArchive)
                                    (Sample.summaryData "b") "2024-03-01"
                                    "fr" "FR"))
       "2024-03-01" "en" "US"
     = None.
Proof.
  destruct (legacy_summary_eclipsed Sample.saveEnv Sample.mixedArchive
              (Sample.summaryData "b") "2024-03-01" "fr" "FR" (Sample.legacy "a"))
    as (H1 & H2 & _).
  - reflexivity.
  - left. reflexivity.
  - reflexivity.
  - reflexivity.
  - split; [exact H1 | exact H2].
Defined.

(** X4. Whatever the file holds, an entry of the history comes from a
    bucket of the file whose key has the form dddd-dd-dd: keys of any
    other form are never listed. *)
Theorem history_lists_date_keys_only
        (file : option Store.Archive) (e : Store.HistoryEntry) :
  In e (Store.history file) ->
  Store.isDateFormat (Store.h_date e) = true
  /\ exists summaries bucket,
      file = Some summaries /\ In (Store.h_date e, bucket) summaries.
Proof.
  intro H. apply history_In in H.
  destruct H as (summaries & date & bucket & -> & Hin & He).
  apply entriesOf_date in He. destruct He as [-> Hfmt].
  split; [exact Hfmt|]. exists summaries, bucket. auto.
Qed.

Lemma history_lists_date_keys_only_witness :
  Forall (fun e => Store.isDateFormat (Store.h_date e) = true)
         (Store.history (Some Sample.mixedArchive))
  /\ List.length (Store.history (Some Sample.mixedArchive)) = 5.
Proof.
  split; [|reflexivity].
  apply Forall_forall. intros e He.
  exact (proj1 (history_lists_date_keys_only (Some Sample.mixedArchive) e He)).
Defined.

(** X5. A summary saved under a key of the form dddd-dd-dd is listed by
    the history endpoint: after a save that could write, the history
    holds the entry made of the saved record, with its date, its language
    and its country. *)
Theorem saved_summary_is_listed
        (env : Store.SaveEnv) (file : option Store.Archive)
        (data : Store.SummaryData) (date language country : string) :
  Store.writeOk env = true ->
  Store.isDateFormat date = true ->
  language <> ""%string -> country <> ""%string ->
  exists e,
    In e (Store.history
            (snd (Store.saveDailySummary env file data date language country)))
    /\ e = Store.entryOf date (Store.withMetadata env data language country)
    /\ Store.h_date e = date
    /\ Store.h_language e = language
    /\ Store.h_country e = country.
Proof.
  intros Hw Hfmt Hl Hc. eexists. split; [|split; [reflexivity|]].
  - apply recordsOn_listed; [exact Hfmt|].
    apply (saved_record_listed env file data date language country).
    unfold Store.saveDailySummary. now rewrite Hw.
  - simpl. unfold Store.orElse.
    rewrite (truthy_nonempty _ Hl), (truthy_nonempty _ Hc). auto.
Qed.

Lemma saved_summary_is_listed_witness :
  In (Store.entryOf "2024-11-06" (Sample.tagged "new" "de" "DE"))
     (Store.history
        (snd (Store.saveDailySummary Sample.saveEnv (Some Sample.mixedArchive)
                                     (Sample.summaryData "new") "2024-11-06"
                                     "de" "DE"))).
Proof.
  destruct (saved_summary_is_listed Sample.saveEnv (Some Sample.mixedArchive)
              (Sample.summaryData "new") "2024-11-06" "de" "DE")
    as (e & Hin & -> & _); try reflexivity; try discriminate.
  exact Hin.
Defined.

(** ** The summary endpoints *)

Section EndpointFacts.

Import Endpoints.

Lemma orDefault_nonempty v dflt :
  dflt <> ""%string -> orDefault v dflt <> ""%string.
Proof.
  intro H. unfold orDefault. destruct v as [s|]; simpl; [|exact H].
  destruct s; simpl; [exact H|discriminate].
Qed.

Lemma orDefault_idem v dflt :
  dflt <> ""%string -> orDefault (Some (orDefault v dflt)) dflt = orDefault v dflt.
Proof.
  intro H. unfold orDefault at 1.
  rewrite (truthy_nonempty _ (orDefault_nonempty v dflt H)). reflexivity.
Qed.

End EndpointFacts.

(** X6. [POST /api/summary/save] answers 400 and leaves the file as it is
    when the body has no date (missing or empty), and likewise when none
    of its four sections has any text. *)
Theorem save_endpoint_rejects
        (env : Store.SaveEnv) (body : Endpoints.SaveBody)
        (file : option Store.Archive) :
  Js.truthy (Endpoints.b_date body) = false
  \/ (Js.truthy (Endpoints.b_news body) = false
      /\ Js.truthy (Endpoints.b_trends body) = false
      /\ Js.truthy (Endpoints.b_finance body) = false
      /\ Js.truthy (Endpoints.b_overall body) = false) ->
  exists message,
    Endpoints.postSummarySave env body file
    = (Endpoints.SaveRejected 400 message, file).
Proof.
  intros [Hd|(Hn & Ht & Hf & Ho)]; unfold Endpoints.postSummarySave.
  - rewrite Hd. simpl. eauto.
  - destruct (Js.truthy (Endpoints.b_date body)); simpl; [|eauto].
    rewrite Hn, Ht, Hf, Ho. simpl. eauto.
Qed.

Lemma save_endpoint_rejects_witness :
  Endpoints.postSummarySave Sample.saveEnv
    (Sample2.saveBody (Some "2024-11-04") (Some ""))
    (Some Sample.mixedArchive)
  = (Endpoints.SaveRejected 400 "No summary data provided",
     Some Sample.mixedArchive).
Proof.
  destruct (save_endpoint_rejects Sample.saveEnv
              (Sample2.saveBody (Some "2024-11-04") (Some ""))
              (Some Sample.mixedArchive)) as (message & H).
  - right. repeat split; reflexivity.
  - rewrite H. vm_compute in H. congruence.
Defined.

(** X7. Save through the endpoint, then read through the endpoint.  A
    body with some text and a date that names no member of
    [Object.prototype], sent when the file can be written, is answered
    "saved"; a [GET /api/summary/daily] with the same date,
    language and country (given or left out alike) then answers
    [success] with the record just written, tagged with the language and
    country the defaults en and US complete.  The one exception is a date
    that held a single object of that very region. *)
Theorem save_endpoint_then_daily
        (env : Store.SaveEnv) (body : Endpoints.SaveBody)
        (file : option Store.Archive) (todayUtc date : string) :
  Endpoints.b_date body = Some date -> date <> ""%string ->
  Js.inherited date = false ->
  Js.truthy (Endpoints.b_news body) = true
  \/ Js.truthy (Endpoints.b_trends body) = true
  \/ Js.truthy (Endpoints.b_finance body) = true
  \/ Js.truthy (Endpoints.b_overall body) = true ->
  Store.writeOk env = true ->
  let language := Endpoints.orDefault (Endpoints.b_language body) "en" in
  let country := Endpoints.orDefault (Endpoints.b_country body) "US" in
  (forall one,
      Store.get (Vocab.archiveOf file) date = Some (Store.Single one) ->
      Store.sameRegion language country one = false) ->
  exists message data,
    fst (Endpoints.postSummarySave env body file)
    = Endpoints.SaveDone message data
    /\ Store.d_automated data = Some false
    /\ Endpoints.getSummaryDaily todayUtc
         {| Endpoints.q_date := Endpoints.b_date body;
            Endpoints.q_language := Endpoints.b_language body;
            Endpoints.q_country := Endpoints.b_country body |}
         (snd (Endpoints.postSummarySave env body file))
       = {| Endpoints.r_success := true;
            Endpoints.r_summary :=
              Some (Store.withMetadata env data language country);
            Endpoints.r_date := date;
            Endpoints.r_language := language;
            Endpoints.r_country := country |}.
Proof.
  intros Hdate Hne _ Hcontent Hw language country Hsingle.
  assert (Js.truthy (Endpoints.b_date body) = true) as Htd
    by (rewrite Hdate; now apply truthy_nonempty).
  assert (negb (Js.truthy (Endpoints.b_news body))
          && negb (Js.truthy (Endpoints.b_trends body))
          && negb (Js.truthy (Endpoints.b_finance body))
          && negb (Js.truthy (Endpoints.b_overall body)) = false) as Hsome.
  { destruct Hcontent as [H|[H|[H|H]]]; rewrite H; simpl;
      rewrite ?andb_false_r; reflexivity. }
  assert (language <> ""%string) as Hl
    by (apply orDefault_nonempty; discriminate).
  assert (country <> ""%string) as Hc
    by (apply orDefault_nonempty; discriminate).
  unfold Endpoints.postSummarySave, Endpoints.getSummaryDaily.
  cbn [Endpoints.q_date Endpoints.q_language Endpoints.q_country].
  rewrite Htd, Hdate, Hsome. cbv beta iota delta [negb].
  fold language country.
  match goal with
  | |- context [Store.saveDailySummary env file ?d date language country] =>
      set (data := d);
      pose proof (save_then_load_gen env file data date language country
                    Hw Hl Hc Hsingle) as Hload;
      assert (fst (Store.saveDailySummary env file data date language country)
              = true) as Hsaved
        by (unfold Store.saveDailySummary; now rewrite Hw);
      destruct (Store.saveDailySummary env file data date language country)
        as [saved file']
  end.
  simpl in Hsaved, Hload. subst saved. cbv beta iota.
  eexists. exists data. split; [reflexivity|]. split; [reflexivity|].
  simpl fst. simpl snd.
  assert (Endpoints.orDefault (Some date) todayUtc = date) as ->.
  { unfold Endpoints.orDefault. now rewrite (truthy_nonempty _ Hne). }
  fold language country. rewrite Hload. reflexivity.
Qed.

Lemma save_endpoint_then_daily_witness :
  Endpoints.r_success
    (Endpoints.getSummaryDaily "2024-11-06"
       {| Endpoints.q_date := Some "2024-11-06";
          Endpoints.q_language := None;
          Endpoints.q_country := None |}
       (snd (Endpoints.postSummarySave Sample.saveEnv
               (Sample2.saveBody (Some "2024-11-06") (Some "text"))
               (Some Sample.mixedArchive))))
  = true.
Proof.
  destruct (save_endpoint_then_daily Sample.saveEnv
              (Sample2.saveBody (Some "2024-11-06") (Some "text"))
              (Some Sample.mixedArchive) "2024-11-06" "2024-11-06")
    as (message & data & _ & _ & H).
  - reflexivity.
  - discriminate.
  - reflexivity.
  - left. reflexivity.
  - reflexivity.
  - intros one Hone. vm_compute in Hone. discriminate.
  - change (Endpoints.b_date (Sample2.saveBody (Some "2024-11-06") (Some "text")))
      with (Some "2024-11-06"%string) in H.
    change (Endpoints.b_language (Sample2.saveBody (Some "2024-11-06") (Some "text")))
      with (@None string) in H.
    change (Endpoints.b_country (Sample2.saveBody (Some "2024-11-06") (Some "text")))
      with (@None string) in H.
    rewrite H. reflexivity.
Defined.

(** ** The collectors *)

Section CollectorFacts.

Import Collectors.

Lemma orText_nonempty v dflt : dflt <> ""%string -> orText v dflt <> ""%string.
Proof.
  intro H. unfold orText. destruct v as [s|]; simpl; [|exact H].
  destruct s; simpl; [exact H|discriminate].
Qed.

Lemma trendsFrom_three fetch :
  collectAutomatedTrendsData fetch
  = match topicsOf (fetch 0) with
    | Some t => (Some t, [])
    | None =>
        match topicsOf (fetch 1) with
        | Some t => (Some t, [3000])
        | None =>
            match topicsOf (fetch 2) with
            | Some t => (Some t, [3000; 3000])
            | None => (None, [3000; 3000])
            end
        end
    end.
Proof.
  unfold collectAutomatedTrendsData, maxRetries. simpl.
  destruct (topicsOf (fetch 0)); [reflexivity|].
  destruct (topicsOf (fetch 1)); [reflexivity|].
  destruct (topicsOf (fetch 2)); reflexivity.
Qed.

Lemma topicsOf_bound response topics :
  topicsOf response = Some topics -> List.length topics <= 25.
Proof.
  destruct response as [| |[days|]]; try discriminate.
  unfold topicsOf. intro H.
  assert (topics
          = map topicOf
                (firstn 25 (flat_map (fun day => match day with
                                                 | Some l => l
                                                 | None => []
                                                 end) days))) as ->
    by congruence.
  rewrite length_map, length_firstn. apply Nat.le_min_l.
Qed.

End CollectorFacts.

(** X8. [collectAutomatedNewsData] returns [null] or a list of one to
    five headlines, each with a title that is not empty; it never returns
    an empty list, so for its result the guard's "news missing" means
    [null]. *)
Theorem news_collector_shape (response : Collectors.NewsFetch) :
  match Collectors.collectAutomatedNewsData response with
  | None => True
  | Some headlines =>
      1 <= List.length headlines <= 5
      /\ forall h, In h headlines -> Generator.title h <> ""%string
  end
  /\ forall trends finance,
      Generator.newsMissing
        {| Generator.news := Collectors.collectAutomatedNewsData response;
           Generator.trends := trends;
           Generator.finance := finance |} = true
      <-> Collectors.collectAutomatedNewsData response = None.
Proof.
  assert (forall trends finance,
             Generator.newsMissing
               {| Generator.news := None; Generator.trends := trends;
                  Generator.finance := finance |} = true <-> @None (list Generator.Headline) = None)
    as Hnone by (intros; split; reflexivity).
  destruct response as [| |[articles|]];
    unfold Collectors.collectAutomatedNewsData;
    try (split; [exact I|exact Hnone]).
  destruct (List.length articles =? 0)%nat eqn:E;
    [split; [exact I|exact Hnone]|].
  apply Nat.eqb_neq in E.
  assert (List.length (map Collectors.headlineOf (firstn 5 articles))
          = Nat.min 5 (List.length articles)) as Hlen
    by now rewrite length_map, length_firstn.
  split.
  - split; [lia|].
    intros h Hin. apply in_map_iff in Hin. destruct Hin as (x & <- & _).
    simpl. apply orText_nonempty. discriminate.
  - intros trends finance. unfold Generator.newsMissing.
    cbn [Generator.news]. rewrite Hlen.
    destruct (Nat.min 5 (List.length articles)) eqn:M; [lia|].
    split; discriminate.
Qed.

(** X9. [collectAutomatedTrendsData] asks at most three times, with a
    pause of 3000 ms, the same each time, after an unusable answer that
    was not the third.  It returns [null] exactly when each of the three
    answers is unusable (the request throws, the status is not ok, or
    the body has no [default.trendingSearchesDays]), having paused
    twice; otherwise it returns the topics of the first usable answer,
    at most 25 of them, having paused once for every answer before
    it. *)
Theorem trends_collector_retries (fetch : nat -> Collectors.TrendsFetch) :
  let run := Collectors.collectAutomatedTrendsData fetch in
  (fst run = None <->
   forall k, k < 3 -> Collectors.topicsOf (fetch k) = None)
  /\ (forall topics, fst run = Some topics ->
        List.length topics <= 25
        /\ exists k, k < 3
                     /\ Collectors.topicsOf (fetch k) = Some topics
                     /\ (forall j, j < k -> Collectors.topicsOf (fetch j) = None)
                     /\ snd run = repeat 3000 k)
  /\ List.length (snd run) <= 2
  /\ (fst run = None -> snd run = [3000; 3000]).
Proof.
  cbv zeta. rewrite trendsFrom_three.
  destruct (Collectors.topicsOf (fetch 0)) as [t0|] eqn:E0;
    [|destruct (Collectors.topicsOf (fetch 1)) as [t1|] eqn:E1;
      [|destruct (Collectors.topicsOf (fetch 2)) as [t2|] eqn:E2]];
    simpl;
    (split; [|split; [|split; [lia|first [discriminate | reflexivity]]]]).
  - split; [discriminate|]. intro H.
    assert (Collectors.topicsOf (fetch 0) = None) as Habs by (apply H; lia).
    congruence.
  - intros topics [= <-]. split; [now apply (topicsOf_bound (fetch 0))|].
    exists 0. repeat split; auto; try lia.
  - split; [discriminate|]. intro H.
    assert (Collectors.topicsOf (fetch 1) = None) as Habs by (apply H; lia).
    congruence.
  - intros topics [= <-]. split; [now apply (topicsOf_bound (fetch 1))|].
    exists 1. repeat split; auto; try lia.
    intros j Hj. assert (j = 0) as -> by lia. exact E0.
  - split; [discriminate|]. intro H.
    assert (Collectors.topicsOf (fetch 2) = None) as Habs by (apply H; lia).
    congruence.
  - intros topics [= <-]. split; [now apply (topicsOf_bound (fetch 2))|].
    exists 2. repeat split; auto; try lia.
    intros j Hj. destruct j as [|[|j]]; [exact E0|exact E1|lia].
  - split; [|reflexivity]. intros _. now apply below_three.
  - discriminate.
Qed.

Section FinanceCollectorFacts.

Import Collectors FinanceVocab.

Lemma objSet_fresh {A} (obj : list (string * A)) key v :
  ~ In key (map fst obj) -> objSet obj key v = obj ++ [(key, v)].
Proof.
  induction obj as [|[k old] rest IH]; simpl; intro H; [reflexivity|].
  destruct (k =? key)%string eqn:E.
  - apply String.eqb_eq in E. subst k. exfalso. apply H. now left.
  - f_equal. apply IH. intro Hin. apply H. now right.
Qed.

Lemma find_none_key (P : string * BulkQuote -> bool) data key :
  (forall e, P e = true -> fst e = key) ->
  ~ In key (map fst data) -> find P data = None.
Proof.
  intros HP Hnot. induction data as [|e rest IH]; [reflexivity|]. simpl.
  destruct (P e) eqn:E.
  - exfalso. apply Hnot. left. now apply HP.
  - apply IH. intro Hin. apply Hnot. now right.
Qed.

Lemma classify_all data :
  forall acc,
    NoDup (map fst data) ->
    (forall k, In k (map fst data) ->
               ~ In k (map fst (techStocks acc))
               /\ ~ In k (map fst (crypto acc))) ->
    fold_left classify data acc
    = {| nasdaq := match find (fun e => quoted e && isIndex e) data with
                   | Some e => Some (processedData (snd e))
                   | None => nasdaq acc
                   end;
         techStocks := techStocks acc
                       ++ map processedEntry
                              (filter (fun e => quoted e && isStock e) data);
         crypto := crypto acc
                   ++ map processedEntry
                          (filter (fun e => quoted e && isCrypto e) data) |}.
Proof.
  induction data as [|[symbol q] rest IH]; intros acc Hnd Hfresh.
  - simpl. rewrite !app_nil_r. now destruct acc.
  - simpl map in Hnd. inversion Hnd as [|? ? Hnotin Hnd']; subst.
    simpl fold_left. rewrite IH; [|exact Hnd'|].
    + cbn [filter find map fst snd].
      unfold quoted, isStock, isCrypto, isIndex.
      cbn [fst snd].
      destruct (Js.truthy (bq_error q)); cbn [negb andb]; [reflexivity|].
      destruct (symbol =? "^IXIC")%string eqn:Ei; cbn [negb andb].
      * apply String.eqb_eq in Ei. subst symbol.
        cbn [nasdaq techStocks crypto].
        rewrite (find_none_key _ rest "^IXIC"); [reflexivity| |exact Hnotin].
        intros e He. apply andb_true_iff in He. destruct He as [_ He].
        now apply String.eqb_eq in He.
      * destruct (Js.endsWith "-USD" symbol); cbn [negb andb map];
          cbn [nasdaq techStocks crypto];
          (rewrite objSet_fresh by (apply (Hfresh symbol); now left));
          rewrite <- app_assoc; reflexivity.
    + intros k Hk.
      assert (k <> symbol) as Hne by (intros ->; contradiction).
      destruct (Hfresh k (or_intror Hk)) as [Ht Hc].
      unfold classify.
      destruct (Js.truthy (bq_error q)); [auto|].
      destruct (symbol =? "^IXIC")%string; [auto|].
      destruct (Js.endsWith "-USD" symbol); simpl; split; auto.
      * rewrite objSet_fresh by (apply (Hfresh symbol); now left).
        rewrite map_app. simpl. intro Hin. apply in_app_or in Hin.
        destruct Hin as [Hin|[Hin|[]]]; [contradiction|congruence].
      * rewrite objSet_fresh by (apply (Hfresh symbol); now left).
        rewrite map_app. simpl. intro Hin. apply in_app_or in Hin.
        destruct Hin as [Hin|[Hin|[]]]; [contradiction|congruence].
Qed.

End FinanceCollectorFacts.

(** X10. [collectAutomatedFinanceData] sorts the entries of the bulk
    answer (one per symbol): an entry with an [error] is dropped; of the
    others, ^IXIC becomes the index quote, the symbols ending in -USD go
    under [crypto] and all the rest under [techStocks], each exactly
    once, in the order of the answer and with "N/A" for a missing
    number. *)
Theorem finance_collector_sorts (data : list (string * Collectors.BulkQuote)) :
  NoDup (map fst data) ->
  Collectors.sortQuotes (Collectors.FinanceJson data)
  = Some {| Collectors.nasdaq :=
              option_map (fun e => Collectors.processedData (snd e))
                (find (fun e => FinanceVocab.quoted e && FinanceVocab.isIndex e)
                      data);
            Collectors.techStocks :=
              map FinanceVocab.processedEntry
                (filter (fun e => FinanceVocab.quoted e && FinanceVocab.isStock e)
                        data);
            Collectors.crypto :=
              map FinanceVocab.processedEntry
                (filter (fun e => FinanceVocab.quoted e && FinanceVocab.isCrypto e)
                        data) |}.
Proof.
  intro Hnd. unfold Collectors.sortQuotes. f_equal.
  rewrite classify_all; [|exact Hnd|intros k _; simpl; auto].
  simpl.
  now destruct (find (fun e => FinanceVocab.quoted e && FinanceVocab.isIndex e) data).
Qed.

Lemma finance_collector_sorts_witness :
  let quote := {| Collectors.bq_error := None;
                  Collectors.bq_price := Some "10.00";
                  Collectors.bq_change := None;
                  Collectors.bq_changePercent := Some "1.00" |} in
  let broken := {| Collectors.bq_error := Some "Failed to fetch";
                   Collectors.bq_price := None;
                   Collectors.bq_change := None;
                   Collectors.bq_changePercent := None |} in
  option_map
    (fun f => (map fst (Collectors.techStocks f), map fst (Collectors.crypto f)))
    (Collectors.sortQuotes
       (Collectors.FinanceJson
          [("AAPL", quote); ("BTC-USD", quote); ("MSFT", broken);
           ("^IXIC", quote); ("V", quote)]))
  = Some (["AAPL"; "V"], ["BTC-USD"]).
Proof.
  cbv zeta. rewrite finance_collector_sorts.
  - vm_compute. reflexivity.
  - repeat constructor; simpl; intuition discriminate.
Defined.

(** ** The prompt *)

Section PromptFacts.

Import Prompt.

Lemma includes_left (p a b : string) :
  Js.includes p a = true -> Js.includes p (a ++ b) = true.
Proof.
  intro H. apply includes_inv in H. destruct H as (pre & post & ->).
  replace ((pre ++ p ++ post) ++ b)%string with (pre ++ p ++ (post ++ b))%string
    by now rewrite !append_assoc.
  apply includes_app.
Qed.

Lemma includes_right (p a b : string) :
  Js.includes p b = true -> Js.includes p (a ++ b) = true.
Proof.
  intro H. apply includes_inv in H. destruct H as (pre & post & ->).
  replace (a ++ pre ++ p ++ post)%string with ((a ++ pre) ++ p ++ post)%string
    by now rewrite !append_assoc.
  apply includes_app.
Qed.

Lemma includes_self (p : string) : Js.includes p p = true.
Proof.
  assert (forall s : string, (s ++ "")%string = s) as Hnil.
  { induction s as [|c s IH]; simpl; [reflexivity|now rewrite IH]. }
  pose proof (includes_app "" p "") as H. simpl in H.
  now rewrite Hnil in H.
Qed.

Lemma includes_head (p b : string) : Js.includes p (p ++ b) = true.
Proof. apply includes_left, includes_self. Qed.

Lemma includes_forEach {A} (f : nat -> A -> string) (p : string) (l : list A)
      (x : A) :
  In x l -> (forall i, Js.includes p (f i x) = true) ->
  forall index, Js.includes p (forEach f index l) = true.
Proof.
  intros Hin Hf. induction l as [|y l IH]; [contradiction|].
  intro index. simpl. destruct Hin as [->|Hin].
  - apply includes_left, Hf.
  - apply includes_right, IH, Hin.
Qed.

Lemma hasItems_In {A} (l : list A) (x : A) : In x l -> hasItems (Some l) = true.
Proof. destruct l; [contradiction|reflexivity]. Qed.

Lemma rev_string_app (a b : string) : Js.rev (a ++ b) = (Js.rev b ++ Js.rev a)%string.
Proof.
  unfold Js.rev.
  assert (forall x y, list_ascii_of_string (x ++ y)
                      = (list_ascii_of_string x ++ list_ascii_of_string y)%list) as H1.
  { induction x as [|c x IH]; intro y; simpl; [reflexivity|now rewrite IH]. }
  assert (forall x y, string_of_list_ascii (x ++ y)%list
                      = (string_of_list_ascii x ++ string_of_list_ascii y)%string) as H2.
  { induction x as [|c x IH]; intro y; simpl; [reflexivity|now rewrite IH]. }
  now rewrite H1, rev_app_distr, H2.
Qed.

End PromptFacts.

Section PromptTheorems.

Import Prompt Calendar.

Ltac in_news := apply includes_right, includes_left.
Ltac in_trends := do 2 apply includes_right; apply includes_left.
Ltac in_market := do 3 apply includes_right; apply includes_left.
Ltac in_request := do 4 apply includes_right.

Lemma includes_quoteLines (entries : list (string * Generator.Quote))
      (entry : string * Generator.Quote) :
  In entry entries ->
  Js.includes (quoteLine entry) (quoteLines (Some entries)) = true.
Proof.
  intro Hin. unfold quoteLines.
  apply includes_forEach with (x := entry); [exact Hin|].
  intros _. apply includes_self.
Qed.

(** The market part of an open or after-hours prompt has the three
    groups of quote lines behind its heading. *)
Lemma includes_groups (p head : string) (f : FinanceView) (n : nat) :
  Js.includes p (nasdaqLine f ++ stockLines f n ++ cryptoLines f) = true ->
  Js.includes p (head ++ decimal n ++ " individual stocks in your Market Overview section:"
                   ++ nasdaqLine f ++ stockLines f n ++ cryptoLines f) = true.
Proof. intro H. now do 3 apply includes_right. Qed.

Lemma includes_groups_closed (p head : string) (f : FinanceView) (n : nat) :
  Js.includes p (nasdaqLine f ++ stockLines f n ++ cryptoLines f) = true ->
  Js.includes p (head ++ decimal n
                   ++ " individual stocks in your Market Overview section, not just indices:"
                   ++ nasdaqLine f ++ stockLines f n ++ cryptoLines f) = true.
Proof. intro H. now do 3 apply includes_right. Qed.

Lemma hasStockData_stocks (f : FinanceView) entries :
  techStocks f = Some entries -> hasStockData f = true.
Proof. intro H. unfold hasStockData. rewrite H. now destruct (nasdaq f). Qed.

(** X11. Whatever the market state and whatever else was collected, the
    prompt of the automated generator carries the title of every
    collected headline, when there are headlines, and the title of every
    collected trending topic, when there are topics. *)
Theorem prompt_carries_every_title (etNow : WallClock)
        (sectionData : SectionData) (isMarketClosed : bool) :
  (forall headlines item,
      news sectionData = Some headlines -> In item headlines ->
      Js.includes (Generator.title item)
        (createAutomatedAnalysisPrompt etNow sectionData isMarketClosed)
      = true)
  /\ (forall topics item,
         trends sectionData = Some topics -> In item topics ->
         Js.includes (Generator.topicTitle item)
           (createAutomatedAnalysisPrompt etNow sectionData isMarketClosed)
         = true).
Proof.
  split; intros items item Hsome Hin; unfold createAutomatedAnalysisPrompt.
  - in_news. unfold newsPart. rewrite Hsome, (hasItems_In _ _ Hin).
    apply includes_right.
    apply includes_forEach with (x := item); [exact Hin|].
    intro i. unfold headlineLine. do 3 apply includes_right.
    apply includes_head.
  - in_trends. unfold trendsPart. rewrite Hsome, (hasItems_In _ _ Hin).
    do 2 apply includes_right.
    apply includes_forEach with (x := item); [exact Hin|].
    intro i. unfold topicLine. do 3 apply includes_right.
    apply includes_head.
Qed.

(** X12. With finance data, every crypto quote has its line in the
    prompt; every stock quote has its line too, and the prompt states the
    number of stocks, unless the market is closed on a weekend. *)
Theorem prompt_carries_quotes (etNow : WallClock) (sectionData : SectionData)
        (isMarketClosed : bool) (f : FinanceView)
        (stocks coins : list (string * Generator.Quote)) :
  finance sectionData = Some f ->
  techStocks f = Some stocks ->
  crypto f = Some coins ->
  Forall (fun entry =>
            Js.includes (quoteLine entry)
              (createAutomatedAnalysisPrompt etNow sectionData isMarketClosed)
            = true) coins
  /\ (isMarketClosed && isActualWeekend etNow = false ->
      Forall (fun entry =>
                Js.includes (quoteLine entry)
                  (createAutomatedAnalysisPrompt etNow sectionData isMarketClosed)
                = true) stocks
      /\ Js.includes (" INDIVIDUAL STOCKS (must analyze ALL "
                        ++ decimal (List.length stocks) ++ " stocks):")
           (createAutomatedAnalysisPrompt etNow sectionData isMarketClosed)
         = true).
Proof.
  intros Hf Hstocks Hcoins.
  assert (stockCountOf f = List.length stocks) as Hcount
      by (unfold stockCountOf; now rewrite Hstocks).
  assert (forall entry, In entry coins ->
            Js.includes (quoteLine entry) (cryptoLines f) = true) as Hc.
  { intros entry Hin. unfold cryptoLines. rewrite Hcoins.
    apply includes_right, includes_quoteLines, Hin. }
  assert (forall entry, In entry stocks ->
            Js.includes (quoteLine entry) (stockLines f (List.length stocks)) = true)
    as Hs.
  { intros entry Hin. unfold stockLines. rewrite Hstocks.
    do 3 apply includes_right. apply includes_quoteLines, Hin. }
  assert (Js.includes (" INDIVIDUAL STOCKS (must analyze ALL "
                         ++ decimal (List.length stocks) ++ " stocks):")
            (stockLines f (List.length stocks)) = true) as Hn.
  { unfold stockLines. rewrite Hstocks.
    generalize (quoteLines (Some stocks)) (decimal (List.length stocks)).
    intros lines count.
    replace (" INDIVIDUAL STOCKS (must analyze ALL " ++ count ++ " stocks):"
               ++ lines)%string
      with ((" INDIVIDUAL STOCKS (must analyze ALL " ++ count ++ " stocks):")
              ++ lines)%string
      by now rewrite !append_assoc.
    apply includes_head. }
  split.
  - apply Forall_forall. intros entry Hin.
    unfold createAutomatedAnalysisPrompt. in_market.
    unfold marketPart. rewrite Hf. cbv zeta. apply includes_right.
    destruct (isMarketClosed && isActualWeekend etNow).
    + apply includes_right. rewrite Hcoins. apply includes_quoteLines, Hin.
    + rewrite (hasStockData_stocks f stocks Hstocks), Hcount.
      destruct (isMarketClosed && negb (isActualWeekend etNow)).
      * apply includes_groups_closed. do 2 apply includes_right. apply Hc, Hin.
      * apply includes_groups. do 2 apply includes_right. apply Hc, Hin.
  - intro Hopen.
    assert (forall p, Js.includes p (stockLines f (List.length stocks)) = true ->
              Js.includes p
                (createAutomatedAnalysisPrompt etNow sectionData isMarketClosed)
              = true) as Hlift.
    { intros p Hp. unfold createAutomatedAnalysisPrompt. in_market.
      unfold marketPart. rewrite Hf. cbv zeta. apply includes_right.
      rewrite Hopen, (hasStockData_stocks f stocks Hstocks), Hcount.
      destruct (isMarketClosed && negb (isActualWeekend etNow)).
      - apply includes_groups_closed. apply includes_right, includes_left, Hp.
      - apply includes_groups. apply includes_right, includes_left, Hp. }
    split.
    + apply Forall_forall. intros entry Hin. apply Hlift, Hs, Hin.
    + apply Hlift, Hn.
Qed.

Lemma prompt_carries_quotes_witness :
  let f := {| nasdaq := None;
              techStocks := Some [ ("AAPL"%string,
                                    {| Generator.price := "222.91";
                                       Generator.change := "-1.10";
                                       Generator.changePercent := "-0.49";
                                       Generator.timeframe := "Current" |}) ];
              crypto := Some [ ("BTC-USD"%string,
                                {| Generator.price := "67000.00";
                                   Generator.change := "800.00";
                                   Generator.changePercent := "1.20";
                                   Generator.timeframe := "Current" |}) ] |} in
  let sectionData := {| news := None; trends := None; finance := Some f |} in
  Js.includes " BTC-USD: $67000.00 (1.20%)"
    (createAutomatedAnalysisPrompt Sample.mondayNight sectionData true) = true
  /\ Js.includes " AAPL: $222.91 (-0.49%)"
       (createAutomatedAnalysisPrompt Sample.mondayNight sectionData true) = true
  /\ Js.includes " INDIVIDUAL STOCKS (must analyze ALL 1 stocks):"
       (createAutomatedAnalysisPrompt Sample.mondayNight sectionData true) = true.
Proof.
  intros f sectionData.
  destruct (prompt_carries_quotes Sample.mondayNight sectionData true f
              _ _ eq_refl eq_refl eq_refl) as [Hcoins Hstocks].
  destruct (Hstocks eq_refl) as [Hlines Hcount].
  split; [|split].
  - exact (Forall_inv Hcoins).
  - exact (Forall_inv Hlines).
  - exact Hcount.
Defined.

End PromptTheorems.

Section PromptCompositionFacts.

Import Prompt Calendar.
Local Open Scope Z_scope.

Lemma isActualWeekend_weekend (etNow : WallClock) :
  getDay etNow = 0 \/ getDay etNow = 6 -> isActualWeekend etNow = true.
Proof. intros [H|H]; unfold isActualWeekend; rewrite H; reflexivity. Qed.

Lemma isActualWeekend_weekday (etNow : WallClock) :
  1 <= getDay etNow <= 5 -> isActualWeekend etNow = false.
Proof.
  intro H. unfold isActualWeekend. generalize dependent (getDay etNow).
  intros day H.
  destruct (Z.eqb_spec day 0); [lia|]. destruct (Z.eqb_spec day 6); [lia|].
  reflexivity.
Qed.

Lemma inSession_holiday (etNow : WallClock) :
  Market.isHoliday etNow = true -> Market.inSession etNow = false.
Proof.
  intro H. unfold Market.inSession. cbv zeta. rewrite H.
  generalize (getDay etNow). intro day.
  change (negb true) with false. now rewrite andb_false_r.
Qed.

(** The finance object of the collector always has its three
    properties. *)
Lemma viewOfObject_financeData nasdaq techStocks crypto :
  PromptInput.viewOfObject (Generator.financeData nasdaq techStocks crypto)
  = {| Prompt.nasdaq := nasdaq;
       Prompt.techStocks := Some techStocks;
       Prompt.crypto := Some crypto |}.
Proof. reflexivity. Qed.

Lemma ofBundle_collected newsResponse trendsFetch data sectionData :
  Collectors.collectAutomatedSectionData newsResponse trendsFetch
    (Collectors.FinanceJson data) = Some sectionData ->
  finance (PromptInput.ofBundle sectionData)
  = Some (viewOf (fold_left Collectors.classify data Collectors.emptyFinance)).
Proof.
  unfold Collectors.collectAutomatedSectionData. intro H.
  assert (sectionData
          = {| Generator.news := Collectors.collectAutomatedNewsData newsResponse;
               Generator.trends :=
                 fst (Collectors.collectAutomatedTrendsData trendsFetch);
               Generator.finance :=
                 Collectors.collectAutomatedFinanceData (Collectors.FinanceJson data) |})
    as -> by congruence.
  reflexivity.
Qed.

(** X13. On a Saturday or Sunday the automated prompt, built from what the
    collectors returned, has only the crypto quotes in its market part,
    under the weekend sentence; the collected stocks and index are left
    out, and the request asks for a market overview focusing on crypto. *)
Theorem weekend_prompt_is_crypto_only (etNow : WallClock)
        (newsResponse : Collectors.NewsFetch)
        (trendsFetch : nat -> Collectors.TrendsFetch)
        (data : list (string * Collectors.BulkQuote))
        (sectionData : Generator.Bundle) :
  getDay etNow = 0 \/ getDay etNow = 6 ->
  Collectors.collectAutomatedSectionData newsResponse trendsFetch
    (Collectors.FinanceJson data) = Some sectionData ->
  marketPart etNow (PromptInput.ofBundle sectionData)
             (negb (Market.Server.isMarketOpen etNow))
  = (" MARKET DATA:"
       ++ " Stock markets are closed for the weekend. Here is the latest crypto data:"
       ++ forEach (fun _ entry => quoteLine entry) 0%nat
            (Collectors.crypto
               (fold_left Collectors.classify data Collectors.emptyFinance)))%string
  /\ Js.includes "MARKET OVERVIEW focusing on crypto (max 500 words), "
       (analysisPrompt etNow (PromptInput.ofBundle sectionData)) = true.
Proof.
  intros Hday Hcollected.
  pose proof (ofBundle_collected _ _ _ _ Hcollected) as Hf.
  pose proof (isActualWeekend_weekend etNow Hday) as Hweekend.
  assert (negb (Market.Server.isMarketOpen etNow) = true) as Hclosed.
  { unfold Market.Server.isMarketOpen. now rewrite inSession_weekend. }
  split.
  - unfold marketPart. rewrite Hf, Hclosed, Hweekend. reflexivity.
  - unfold analysisPrompt, createAutomatedAnalysisPrompt. do 4 apply includes_right.
    unfold requestPart. rewrite Hf, Hclosed, Hweekend.
    do 3 apply includes_right. apply includes_left.
    change (true && negb true) with false.
    change (false && hasStockData
              (viewOf (fold_left Collectors.classify data Collectors.emptyFinance)))
      with false.
    apply includes_self.
Qed.

Lemma weekend_prompt_is_crypto_only_witness :
  exists sectionData,
    marketPart Sample.saturday2024 (PromptInput.ofBundle sectionData)
               (negb (Market.Server.isMarketOpen Sample.saturday2024))
    = " MARKET DATA: Stock markets are closed for the weekend. Here is the latest crypto data: BTC-USD: $67000.00 (1.20%)"%string
    /\ Js.includes "MARKET OVERVIEW focusing on crypto (max 500 words), "
         (analysisPrompt Sample.saturday2024 (PromptInput.ofBundle sectionData))
       = true.
Proof.
  eexists.
  apply (weekend_prompt_is_crypto_only Sample.saturday2024
           Collectors.NewsThrows (fun _ => Collectors.TrendsThrows)
           [ ("AAPL"%string,
              {| Collectors.bq_error := None;
                 Collectors.bq_price := Some "222.91"%string;
                 Collectors.bq_change := Some "-1.10"%string;
                 Collectors.bq_changePercent := Some "-0.49"%string |});
             ("BTC-USD"%string,
              {| Collectors.bq_error := None;
                 Collectors.bq_price := Some "67000.00"%string;
                 Collectors.bq_change := Some "800.00"%string;
                 Collectors.bq_changePercent := Some "1.20"%string |}) ]).
  - right. reflexivity.
  - reflexivity.
Defined.

(** X14. On a weekday that is a market holiday the automated prompt, built
    from what the collectors returned, opens its market part with the
    after-hours sentence and asks for all stocks: since the collector's
    finance object always has its stock property, the holiday sentence is
    never chosen. *)
Theorem holiday_prompt_says_after_hours (etNow : WallClock)
        (newsResponse : Collectors.NewsFetch)
        (trendsFetch : nat -> Collectors.TrendsFetch)
        (data : list (string * Collectors.BulkQuote))
        (sectionData : Generator.Bundle) :
  Market.isHoliday etNow = true ->
  1 <= getDay etNow <= 5 ->
  Collectors.collectAutomatedSectionData newsResponse trendsFetch
    (Collectors.FinanceJson data) = Some sectionData ->
  Js.startsWith
    (" MARKET DATA:"
       ++ " Stock markets are closed for the day (after-hours). Here is today's closing market data - IMPORTANT: Include ALL ")
    (marketPart etNow (PromptInput.ofBundle sectionData)
                (negb (Market.Server.isMarketOpen etNow))) = true
  /\ Js.includes "MARKET OVERVIEW (max 500 words) - CRITICAL: You MUST include analysis of ALL "
       (analysisPrompt etNow (PromptInput.ofBundle sectionData)) = true.
Proof.
  intros Hholiday Hday Hcollected.
  pose proof (ofBundle_collected _ _ _ _ Hcollected) as Hf.
  pose proof (isActualWeekend_weekday etNow Hday) as Hweekday.
  assert (negb (Market.Server.isMarketOpen etNow) = true) as Hclosed.
  { unfold Market.Server.isMarketOpen. now rewrite inSession_holiday. }
  assert (hasStockData
            (viewOf (fold_left Collectors.classify data Collectors.emptyFinance))
          = true) as Hstock by (eapply hasStockData_stocks; reflexivity).
  split.
  - unfold marketPart. rewrite Hf, Hclosed, Hweekday. cbv zeta.
    change (true && false) with false. change (true && negb false) with true.
    cbv beta iota. rewrite Hstock.
    rewrite <- append_assoc. apply startsWith_app.
  - unfold analysisPrompt, createAutomatedAnalysisPrompt. do 4 apply includes_right.
    unfold requestPart. rewrite Hf, Hclosed, Hweekday.
    do 3 apply includes_right. apply includes_left.
    change (true && negb false) with true. rewrite Hstock.
    change (true && true) with true. cbv beta iota.
    apply includes_head.
Qed.

Lemma holiday_prompt_says_after_hours_witness :
  exists sectionData,
    Js.startsWith
      (" MARKET DATA:"
         ++ " Stock markets are closed for the day (after-hours). Here is today's closing market data - IMPORTANT: Include ALL ")
      (marketPart Sample.christmas2024 (PromptInput.ofBundle sectionData)
                  (negb (Market.Server.isMarketOpen Sample.christmas2024))) = true
    /\ Js.includes "MARKET OVERVIEW (max 500 words) - CRITICAL: You MUST include analysis of ALL "
         (analysisPrompt Sample.christmas2024 (PromptInput.ofBundle sectionData))
       = true.
Proof.
  eexists.
  apply (holiday_prompt_says_after_hours Sample.christmas2024
           Collectors.NewsThrows (fun _ => Collectors.TrendsThrows) []).
  - reflexivity.
  - vm_compute. split; discriminate.
  - reflexivity.
Defined.

End PromptCompositionFacts.

Section ChatClientFacts.

Import Llm.

(** The models [callOpenRouterWithRetry] goes through: the requested one
    first, then the fallbacks it does not repeat. *)
Lemma uniqueModels_cases (model : string) :
  uniqueModels model
  = model :: filter (fun m => negb (m =? model)%string)
                    [ "openai/gpt-oss-20b:free";
                      "meta-llama/llama-3.3-70b-instruct:free";
                      "qwen/qwen3-235b-a22b:free" ].
Proof.
  cbv beta iota fix delta [uniqueModels fallbackModels unique existsb filter].
  repeat match goal with
         | |- context [String.eqb ?x ?y] =>
             destruct (String.eqb_spec x y); try congruence
         end; reflexivity.
Qed.

Lemma firstn_requests (models : list string) (model : string) :
  3 <= List.length models ->
  forall attempt, attempt < 3 ->
  nth (Nat.min attempt (List.length models - 1)) models model
  = nth attempt models model.
Proof. intros Hlen attempt Hlt. f_equal. lia. Qed.

(** X15. The chat client asks each model of its list at most once, in the
    order of the list and starting with the requested model, pausing 1000
    and 2000 ms between requests; it returns the first answer that does not
    throw and throws only after three requests to three different models
    have thrown. *)
Theorem chat_client_walks_the_models (create : Api) (model : string) :
  let run := callOpenRouterWithRetry create model in
  let models := uniqueModels model in
  NoDup models
  /\ hd_error models = Some model
  /\ (exists n, 1 <= n <= 3
                /\ requested (snd run) = firstn n models
                /\ pauses (snd run) = map (fun k => 1000 * k) (seq 1 (n - 1)))
  /\ (forall message, fst run = Throws message ->
       requested (snd run) = firstn 3 models
       /\ create (nth 2 models model) 2 = Throws message
       /\ forall k, k < 3 -> exists m, create (nth k models model) k = Throws m)
  /\ (forall content, fst run = Returns content ->
       exists k, k < 3
                 /\ create (nth k models model) k = Returns content
                 /\ forall j, j < k ->
                              exists m, create (nth j models model) j = Throws m).
Proof.
  cbv zeta.
  assert (3 <= List.length (uniqueModels model)
          /\ NoDup (uniqueModels model)
          /\ hd_error (uniqueModels model) = Some model) as (Hlen & Hnodup & Hhd).
  { rewrite uniqueModels_cases. cbv beta iota fix delta [filter].
    repeat match goal with
           | |- context [String.eqb ?x ?y] =>
               destruct (String.eqb_spec x y); try congruence
           end;
      cbn [negb List.length hd_error];
      (split; [lia|split; [|reflexivity]]);
      repeat (constructor; [cbn [In]; intuition congruence|]); constructor. }
  split; [exact Hnodup|]. split; [exact Hhd|].
  unfold callOpenRouterWithRetry.
  cbv beta iota zeta fix delta [calls].
  rewrite !(firstn_requests _ model Hlen) by lia.
  remember (uniqueModels model) as models eqn:Hm. clear Hm.
  destruct models as [|m0 [|m1 [|m2 rest]]]; cbn [List.length] in Hlen; try lia.
  cbn [nth firstn requested pauses app Nat.eqb fst snd].
  destruct (create m0 0) as [c0|e0] eqn:E0;
    [|destruct (create m1 1) as [c1|e1] eqn:E1;
      [|destruct (create m2 2) as [c2|e2] eqn:E2]];
    cbn [fst snd requested pauses app];
    (split;
     [ first [ exists 1; split; [lia|split; reflexivity]
             | exists 2; split; [lia|split; reflexivity]
             | exists 3; split; [lia|split; reflexivity] ] | ]);
    (split;
     [ intros message Hrun; try discriminate;
       (split; [reflexivity|split; [congruence|]]);
       intros k Hk; revert k Hk; apply below_three; eauto
     | intros content Hrun; try discriminate;
       first [ exists 0; (split; [lia|split; [cbn [nth]; congruence|]]);
               intros j Hj; lia
             | exists 1; (split; [lia|split; [cbn [nth]; congruence|]]);
               intros j Hj; assert (j = 0) as -> by lia; eauto
             | exists 2; (split; [lia|split; [cbn [nth]; congruence|]]);
               intros j Hj;
               assert (j = 0 \/ j = 1) as [-> | ->] by lia; eauto ] ]).
Qed.

End ChatClientFacts.

Section GateFacts.

Import Manual Gate.

Lemma strictEq_true (a : option string) (b : string) :
  Js.strictEq a (Some b) = true <-> a = Some b.
Proof.
  destruct a as [x|]; simpl; [|split; discriminate].
  rewrite String.eqb_eq. split; congruence.
Qed.

Lemma isLocal_false (hostname : string) :
  hostname <> "localhost" -> hostname <> "127.0.0.1" ->
  ((hostname =? "localhost") || (hostname =? "127.0.0.1"))%string = false.
Proof.
  intros H1 H2. apply orb_false_iff. split; now apply String.eqb_neq.
Qed.

(** What a refresh that got a usable text leaves in the storage. *)
Lemma refreshSummary_marks env storage u :
  collect env = Returns u ->
  usable (generateSummary (fetch env)) = true ->
  getItem (snd (refreshSummary env storage)) "lastSummaryRefreshDate"
  = Some (today env).
Proof.
  intros Hc Hu. unfold refreshSummary.
  destruct (hasRefreshedToday (hostname env) (today env) storage) eqn:Hgate.
  - unfold hasRefreshedToday in Hgate.
    destruct ((hostname env =? "localhost") || (hostname env =? "127.0.0.1"))%string;
      [discriminate|].
    now apply strictEq_true in Hgate.
  - rewrite Hc, Hu. reflexivity.
Qed.

(** X16. resetDailySummaryLimit clears the generation mark only: the gate
    of the manual refresh reads another key, so after the reset a refresh
    that was refused is still refused and the button stays disabled. *)
Theorem reset_leaves_refresh_gate (env : RefreshEnv) (storage : LocalStorage) :
  hasRefreshedToday (hostname env) (today env) storage = true ->
  hasGeneratedToday (today env) (resetDailySummaryLimit storage) = false
  /\ refreshButtonDisabled (hostname env) (today env)
       (resetDailySummaryLimit storage) = true
  /\ refreshSummary env (resetDailySummaryLimit storage)
     = (DailyLimit, resetDailySummaryLimit storage).
Proof.
  intro Hgate.
  assert (hasRefreshedToday (hostname env) (today env)
            (resetDailySummaryLimit storage) = true) as Hstill.
  { exact Hgate. }
  split; [reflexivity|]. split.
  - unfold refreshButtonDisabled. now rewrite Hstill.
  - unfold refreshSummary. now rewrite Hstill.
Qed.

Lemma reset_leaves_refresh_gate_witness :
  let env := Sample.visit Sample.offline false in
  let storage := markGeneratedToday (today env)
                   (markRefreshedToday (today env) Sample.freshStorage) in
  hasGeneratedToday (today env) storage = true
  /\ hasGeneratedToday (today env) (resetDailySummaryLimit storage) = false
  /\ refreshButtonDisabled (hostname env) (today env)
       (resetDailySummaryLimit storage) = true
  /\ fst (refreshSummary env (resetDailySummaryLimit storage)) = DailyLimit.
Proof.
  intros env storage.
  destruct (reset_leaves_refresh_gate env storage eq_refl) as (H1 & H2 & H3).
  split; [reflexivity|]. split; [exact H1|]. split; [exact H2|].
  now rewrite H3.
Defined.

(** X17. Once a manual refresh has obtained a usable text, every further
    refresh on that local date from a host other than localhost and
    127.0.0.1 is refused and changes nothing, also when the first one was
    reported as timed out; on another date, or on localhost, the refresh
    is not refused. *)
Theorem one_refresh_per_day (env : RefreshEnv) (storage : LocalStorage)
        (u : unit) :
  collect env = Returns u ->
  usable (generateSummary (fetch env)) = true ->
  let storage' := snd (refreshSummary env storage) in
  (forall env',
      hostname env' <> "localhost" -> hostname env' <> "127.0.0.1" ->
      today env' = today env ->
      refreshSummary env' storage' = (DailyLimit, storage'))
  /\ (forall env',
         today env' <> today env ->
         fst (refreshSummary env' storage') <> DailyLimit)
  /\ (forall env',
         hostname env' = "localhost" \/ hostname env' = "127.0.0.1" ->
         fst (refreshSummary env' storage') <> DailyLimit).
Proof.
  intros Hc Hu storage'.
  pose proof (refreshSummary_marks env storage u Hc Hu) as Hmark.
  fold storage' in Hmark.
  assert (forall env', hasRefreshedToday (hostname env') (today env') storage' = false ->
            fst (refreshSummary env' storage') <> DailyLimit) as Hopen.
  { intros env' Hgate. unfold refreshSummary. rewrite Hgate.
    destruct (collect env');
      [destruct (usable (generateSummary (fetch env')))|];
      cbn [fst]; destruct (timerFirst env'); discriminate. }
  split; [|split].
  - intros env' H1 H2 Hday. unfold refreshSummary, hasRefreshedToday.
    rewrite (isLocal_false _ H1 H2), Hmark, Hday. cbn [Js.strictEq].
    now rewrite String.eqb_refl.
  - intros env' Hday. apply Hopen. unfold hasRefreshedToday.
    destruct ((hostname env' =? "localhost") || (hostname env' =? "127.0.0.1"))%string;
      [reflexivity|].
    rewrite Hmark. cbn [Js.strictEq]. apply String.eqb_neq. congruence.
  - intros env' Hhost. apply Hopen. unfold hasRefreshedToday.
    destruct Hhost as [-> | ->]; reflexivity.
Qed.

Lemma one_refresh_per_day_witness :
  let env := Sample.visit (fun _ => Reply (Some "Calm markets.")) true in
  let storage' := snd (refreshSummary env Sample.freshStorage) in
  fst (refreshSummary env Sample.freshStorage) = TimedOut
  /\ refreshSummary env storage' = (DailyLimit, storage').
Proof.
  intros env storage'.
  destruct (one_refresh_per_day env Sample.freshStorage tt eq_refl eq_refl)
    as (Hsame & _ & _).
  split; [reflexivity|].
  apply Hsame; [discriminate|discriminate|reflexivity].
Defined.

End GateFacts.

Section ClientRequestFacts.

Import Manual ManualVocab.

(** The loop of [generateSummary] sends at most three requests: the first
    reply decides, and without a reply the third failure does. *)
Lemma generateSummary_unfolded (fetch : nat -> FetchOutcome) :
  generateSummary fetch
  = Some match fetch 0 with
         | Reply r => replyText r
         | _ => match fetch 1 with
                | Reply r => replyText r
                | _ => match fetch 2 with
                       | Reply r => replyText r
                       | o => failureText o
                       end
                end
         end.
Proof.
  assert (forall m : string,
             (if Js.truthy (Some m) then m
              else "Error: Unable to generate summary after multiple attempts.")
             = failureText (NetworkError m)) as Hnet.
  { intro m. unfold failureText. cbn [messageOf Js.truthy].
    now destruct (m =? "")%string. }
  unfold generateSummary, maxRetries.
  cbv beta iota fix delta [retryLoop maxRetries Nat.ltb Nat.leb].
  destruct (fetch 0) as [m0|s0 b0|r0]; [| |reflexivity];
    [|destruct ((s0 =? 404) || (s0 =? 503))%nat];
    (destruct (fetch 1) as [m1|s1 b1|r1]; [| |reflexivity];
     [|destruct ((s1 =? 404) || (s1 =? 503))%nat];
     (destruct (fetch 2) as [m2|s2 b2|r2]; [| |reflexivity];
      [|destruct ((s2 =? 404) || (s2 =? 503))%nat];
      first [ now rewrite <- Hnet | reflexivity ])).
Qed.

Lemma replyText_nonempty reply : replyText reply <> EmptyString.
Proof.
  unfold replyText. destruct reply as [r|]; cbn [Js.truthy]; [|discriminate].
  destruct (r =? "")%string eqn:E; cbn [negb]; [discriminate|].
  now apply String.eqb_neq.
Qed.

Lemma failureText_nonempty o : failureText o <> EmptyString.
Proof.
  unfold failureText. destruct (messageOf o =? "")%string eqn:E; [discriminate|].
  now apply String.eqb_neq.
Qed.

Lemma errorMessage_failureText_network m :
  Overlap.errorMessage (Some m) = failureText (NetworkError m).
Proof.
  unfold Overlap.errorMessage, failureText. cbn [messageOf Js.truthy].
  now destruct (m =? "")%string.
Qed.

Lemma errorMessage_failureText_http status body :
  Overlap.errorMessage (Some (httpErrorMessage status body))
  = failureText (HttpError status body).
Proof. reflexivity. Qed.

(** The call, test by test and request by request. *)
Lemma overlap_generateSummary_unfolded (summaryGenerated : nat -> bool)
      (fetch : nat -> FetchOutcome) :
  Overlap.generateSummary summaryGenerated fetch
  = if summaryGenerated 0 then None else
    match fetch 0 with
    | Reply r => Some (replyText r)
    | _ =>
        if summaryGenerated 1 then None else
        match fetch 1 with
        | Reply r => Some (replyText r)
        | _ =>
            if summaryGenerated 2 then None else
            match fetch 2 with
            | Reply r => Some (replyText r)
            | o => if summaryGenerated 3 then None else Some (failureText o)
            end
        end
    end.
Proof.
  unfold Overlap.generateSummary, maxRetries.
  cbv beta iota fix delta [Overlap.retryLoop maxRetries Nat.ltb Nat.leb].
  destruct (summaryGenerated 0); [reflexivity|].
  destruct (fetch 0) as [m0|s0 b0|r0]; [| |reflexivity];
    [|destruct ((s0 =? 404) || (s0 =? 503))%nat];
    (destruct (summaryGenerated 1); [reflexivity|];
     destruct (fetch 1) as [m1|s1 b1|r1]; [| |reflexivity];
     [|destruct ((s1 =? 404) || (s1 =? 503))%nat];
     (destruct (summaryGenerated 2); [reflexivity|];
      destruct (fetch 2) as [m2|s2 b2|r2]; [| |reflexivity];
      [|destruct ((s2 =? 404) || (s2 =? 503))%nat];
      (destruct (summaryGenerated 3); [reflexivity|];
       first [ now rewrite errorMessage_failureText_network
             | reflexivity ]))).
Qed.


(** X18. The browser's generateSummary, seen together with the page's
    summaryGenerated variable, which another generation may set while
    this one awaits.  It returns null exactly when it finds the variable
    set, on entry or at a later loop test, before any answer was a reply;
    it reads the variable at most four times and at most the first three
    answers of /api/chat.  A text it returns is never empty.  While it
    finds the variable clear, the first answer that is a reply gives the
    text (or the fixed "Unable to generate" line when the reply is
    empty), and when none of the three is a reply the text is the message
    of the third failure. *)
Theorem client_summary_from_three_answers
        (summaryGenerated : nat -> bool) (fetch : nat -> FetchOutcome) :
  let result := Overlap.generateSummary summaryGenerated fetch in
  (result = None
   <-> exists k, k <= 3 /\ summaryGenerated k = true
                 /\ forall j, j < k -> summaryGenerated j = false
                                       /\ isReply (fetch j) = false)
  /\ (forall text, result = Some text -> text <> EmptyString)
  /\ (forall summaryGenerated' fetch',
         (forall k, k <= 3 -> summaryGenerated' k = summaryGenerated k) ->
         (forall k, k < 3 -> fetch' k = fetch k) ->
         Overlap.generateSummary summaryGenerated' fetch' = result)
  /\ (forall k reply,
         k < 3 -> fetch k = Reply reply ->
         (forall j, j <= k -> summaryGenerated j = false) ->
         (forall j, j < k -> isReply (fetch j) = false) ->
         result = Some (replyText reply))
  /\ ((forall k, k <= 3 -> summaryGenerated k = false) ->
      (forall k, k < 3 -> isReply (fetch k) = false) ->
      result = Some (failureText (fetch 2)))
  /\ ((forall k, k <= 3 -> summaryGenerated k = false) ->
      result = Manual.generateSummary fetch).
Proof.
  intro result. subst result. rewrite overlap_generateSummary_unfolded.
  split; [|split; [|split; [|split; [|split]]]].
  - split.
    + destruct (summaryGenerated 0) eqn:F0.
      { intros _. exists 0. split; [lia|]. split; [exact F0|]. intros j Hj. lia. }
      destruct (isReply (fetch 0)) eqn:R0.
      { destruct (fetch 0); discriminate. }
      destruct (summaryGenerated 1) eqn:F1.
      { intros _. exists 1. split; [lia|]. split; [exact F1|].
        intros j Hj. destruct j as [|j]; [now split|lia]. }
      destruct (isReply (fetch 1)) eqn:R1.
      { destruct (fetch 0); [| |discriminate]; destruct (fetch 1); discriminate. }
      destruct (summaryGenerated 2) eqn:F2.
      { intros _. exists 2. split; [lia|]. split; [exact F2|].
        intros j Hj. destruct j as [|[|j]]; [now split|now split|lia]. }
      destruct (isReply (fetch 2)) eqn:R2.
      { destruct (fetch 0); [| |discriminate];
          (destruct (fetch 1); [| |discriminate]; destruct (fetch 2); discriminate). }
      destruct (summaryGenerated 3) eqn:F3.
      { intros _. exists 3. split; [lia|]. split; [exact F3|].
        intros j Hj.
        destruct j as [|[|[|j]]]; [now split|now split|now split|lia]. }
      destruct (fetch 0); [| |discriminate];
        (destruct (fetch 1); [| |discriminate]; destruct (fetch 2); discriminate).
    + intros (k & Hk & Hset & Hbefore).
      destruct k as [|[|[|[|k]]]]; [| | | |lia].
      * now rewrite Hset.
      * destruct (Hbefore 0 ltac:(lia)) as [F0 R0]. rewrite F0, Hset.
        destruct (fetch 0); [reflexivity|reflexivity|discriminate].
      * destruct (Hbefore 0 ltac:(lia)) as [F0 R0].
        destruct (Hbefore 1 ltac:(lia)) as [F1 R1]. rewrite F0, F1, Hset.
        destruct (fetch 0); [| |discriminate];
          (destruct (fetch 1); [reflexivity|reflexivity|discriminate]).
      * destruct (Hbefore 0 ltac:(lia)) as [F0 R0].
        destruct (Hbefore 1 ltac:(lia)) as [F1 R1].
        destruct (Hbefore 2 ltac:(lia)) as [F2 R2]. rewrite F0, F1, F2, Hset.
        destruct (fetch 0); [| |discriminate];
          (destruct (fetch 1); [| |discriminate];
           (destruct (fetch 2); [reflexivity|reflexivity|discriminate])).
  - intros text.
    destruct (summaryGenerated 0); [discriminate|].
    destruct (fetch 0);
      [| |intros [= <-]; apply replyText_nonempty];
      (destruct (summaryGenerated 1); [discriminate|];
       destruct (fetch 1);
       [| |intros [= <-]; apply replyText_nonempty];
       (destruct (summaryGenerated 2); [discriminate|];
        destruct (fetch 2);
        [| |intros [= <-]; apply replyText_nonempty];
        (destruct (summaryGenerated 3); [discriminate|];
         intros [= <-]; apply failureText_nonempty))).
  - intros flag' fetch' Hflag Hfetch.
    rewrite overlap_generateSummary_unfolded.
    now rewrite !Hflag, !Hfetch by lia.
  - intros k reply Hk Hreply Hclear Hbefore.
    destruct k as [|[|[|k]]]; [| | |lia].
    + now rewrite (Hclear 0 ltac:(lia)), Hreply.
    + pose proof (Hbefore 0 ltac:(lia)) as R0.
      rewrite (Hclear 0 ltac:(lia)), (Hclear 1 ltac:(lia)), Hreply.
      destruct (fetch 0); [reflexivity|reflexivity|discriminate].
    + pose proof (Hbefore 0 ltac:(lia)) as R0.
      pose proof (Hbefore 1 ltac:(lia)) as R1.
      rewrite (Hclear 0 ltac:(lia)), (Hclear 1 ltac:(lia)),
        (Hclear 2 ltac:(lia)), Hreply.
      destruct (fetch 0); [| |discriminate];
        (destruct (fetch 1); [reflexivity|reflexivity|discriminate]).
  - intros Hclear Hnone.
    pose proof (Hnone 0 ltac:(lia)) as R0.
    pose proof (Hnone 1 ltac:(lia)) as R1.
    pose proof (Hnone 2 ltac:(lia)) as R2.
    rewrite (Hclear 0 ltac:(lia)), (Hclear 1 ltac:(lia)),
      (Hclear 2 ltac:(lia)), (Hclear 3 ltac:(lia)).
    destruct (fetch 0); [| |discriminate];
      (destruct (fetch 1); [| |discriminate];
       (destruct (fetch 2); [reflexivity|reflexivity|discriminate])).
  - intros Hclear.
    rewrite (Hclear 0 ltac:(lia)), (Hclear 1 ltac:(lia)),
      (Hclear 2 ltac:(lia)), (Hclear 3 ltac:(lia)).
    rewrite generateSummary_unfolded.
    destruct (fetch 0); [| |reflexivity];
      (destruct (fetch 1); [| |reflexivity];
       (destruct (fetch 2); reflexivity)).
Qed.

(** Two refreshes overlap: the first one's generation succeeds and sets
    the variable while the second awaits its first answer, a failure;
    the second returns null. *)
Example overlapped_generation_returns_null :
  Overlap.generateSummary (fun call => (1 <=? call)%nat)
                          (fun _ => NetworkError "Failed to fetch")
  = None.
Proof. reflexivity. Qed.

End ClientRequestFacts.

Section ScheduleFacts.

Import Generator Schedule.

(** A call of [generateDailySummary] for a day whose en-US summary is
    there leaves the file as it is. *)
Lemma generateDailySummary_keeps env todayEDT this file found :
  Store.loadDailySummary file todayEDT "en" "US" = Some found ->
  snd (generateDailySummary (passOf env) todayEDT this file) = file.
Proof.
  intro Hfound. unfold generateDailySummary.
  destruct (isGenerating this); [reflexivity|].
  destruct (Js.strictEq (lastGenerationDate this) (Some todayEDT)); [reflexivity|].
  unfold passOf, generateSummaryForRegion.
  change (language region) with "en". change (country region) with "US".
  rewrite Hfound. reflexivity.
Qed.

(** After a call that ran its pass to the end, a call for the same day
    returns at once. *)
Lemma generateDailySummary_again pass pass' todayEDT this file r this' file' :
  generateDailySummary pass todayEDT this file = (Completed r, this', file') ->
  generateDailySummary pass' todayEDT this' file' = (AlreadyToday, this', file').
Proof.
  unfold generateDailySummary at 1.
  destruct (isGenerating this); [discriminate|].
  destruct (Js.strictEq (lastGenerationDate this) (Some todayEDT)); [discriminate|].
  destruct (pass region todayEDT file) as [[r0|m] file0]; [|discriminate].
  intros [= _ <- _]. unfold generateDailySummary. cbn [isGenerating lastGenerationDate].
  cbn [Js.strictEq]. now rewrite String.eqb_refl.
Qed.

(** X19. A checkpoint of 23:05, 23:30 or 23:50 never changes the file when
    the day's en-US summary is there, whether or not that summary was
    written after 23:00. *)
Theorem checkpoint_keeps_existing_summary
        (env : PassEnv) (todayEDT : string) (nyDate : Calendar.WallClock)
        (nyClock : string -> option Calendar.WallClock)
        (this : State) (file : option Store.Archive) (found : Store.Summary) :
  Store.loadDailySummary file todayEDT "en" "US" = Some found ->
  snd (tryGenerateIfNoPost11pmSummary (passOf env) todayEDT nyDate nyClock
                                      this file) = file.
Proof.
  intro Hfound. unfold tryGenerateIfNoPost11pmSummary. cbv zeta.
  match goal with |- snd (if ?c then _ else _) = _ => destruct c end;
    [reflexivity|].
  pose proof (generateDailySummary_keeps env todayEDT this file found Hfound) as H.
  destruct (generateDailySummary (passOf env) todayEDT this file) as [[r t] f].
  exact H.
Qed.

Lemma checkpoint_keeps_existing_summary_witness :
  snd (tryGenerateIfNoPost11pmSummary
         (passOf (Sample.passEnv Sample.newsOnly)) Sample.today
         Sample.mondayNight (fun _ => None) constructor
         (Some Sample.archiveWithToday))
  = Some Sample.archiveWithToday.
Proof.
  apply (checkpoint_keeps_existing_summary
           (Sample.passEnv Sample.newsOnly) Sample.today Sample.mondayNight
           (fun _ => None) constructor (Some Sample.archiveWithToday)
           (Sample.tagged "manual" "en" "US")).
  reflexivity.
Defined.

(** X20. Once the job of 23:00 has run its pass to the end, whatever the
    pass achieved (also when it saved nothing), the checkpoints of that
    day generate nothing: each one returns with the generator and the
    file unchanged. *)
Theorem checkpoints_idle_after_job
        (pass pass' : RegionPass) (todayEDT : string)
        (nyDate : Calendar.WallClock)
        (nyClock : string -> option Calendar.WallClock)
        (this this' : State) (file file' : option Store.Archive)
        (r : PassResult) :
  elevenPmJob pass todayEDT this file = (Completed r, this', file') ->
  exists result,
    tryGenerateIfNoPost11pmSummary pass' todayEDT nyDate nyClock this' file'
    = (result, this', file')
    /\ (result = None \/ result = Some AlreadyToday).
Proof.
  unfold elevenPmJob. intro Hjob.
  unfold tryGenerateIfNoPost11pmSummary. cbv zeta.
  match goal with |- context [if ?c then _ else _] => destruct c end.
  - exists None. auto.
  - rewrite (generateDailySummary_again pass pass' _ _ _ _ _ _ Hjob).
    exists (Some AlreadyToday). auto.
Qed.

Lemma checkpoints_idle_after_job_witness :
  exists result,
    tryGenerateIfNoPost11pmSummary
      (passOf (Sample.passEnv Sample.newsOnly)) Sample.today
      Sample.mondayNight (fun _ => None)
      {| isGenerating := false; lastGenerationDate := Some Sample.today |} None
    = (result,
       {| isGenerating := false; lastGenerationDate := Some Sample.today |},
       None)
    /\ (result = None \/ result = Some AlreadyToday).
Proof.
  apply (checkpoints_idle_after_job
           (passOf (Sample.passEnv Sample.trendsOnly))
           (passOf (Sample.passEnv Sample.newsOnly))
           Sample.today Sample.mondayNight (fun _ => None)
           constructor _ None None InsufficientData).
  reflexivity.
Defined.

(** X21. When the generator is idle and has already completed a call for
    the day, or the day's en-US summary is there, an admitted request to
    the trigger endpoint is answered with success although nothing is
    generated and the file stays as it is. *)
Theorem trigger_reports_success_without_generating
        (ADMIN_IPS : list string) (ip : string) (env : PassEnv)
        (todayEDT : string) (this : State) (file : option Store.Archive) :
  adminOnly ADMIN_IPS ip = true ->
  isGenerating this = false ->
  lastGenerationDate this = Some todayEDT
  \/ (exists found, Store.loadDailySummary file todayEDT "en" "US" = Some found) ->
  let '(response, _, file') :=
    postTriggerAutomated ADMIN_IPS ip (passOf env) todayEDT this file in
  response = Triggered /\ file' = file.
Proof.
  intros Hadmin Hidle Hdone. unfold postTriggerAutomated.
  rewrite Hadmin, Hidle. cbn [negb].
  destruct Hdone as [Hdate | [found Hfound]].
  - unfold generateDailySummary. rewrite Hidle, Hdate.
    cbn [Js.strictEq]. rewrite String.eqb_refl. auto.
  - pose proof (generateDailySummary_keeps env todayEDT this file found Hfound) as H.
    destruct (generateDailySummary (passOf env) todayEDT this file) as [[r t] f].
    auto.
Qed.

Lemma trigger_reports_success_without_generating_witness :
  let '(response, _, file') :=
    postTriggerAutomated [ "127.0.0.1"; "::1" ] "::ffff:127.0.0.1"
      (passOf (Sample.passEnv Sample.newsOnly)) Sample.today
      {| isGenerating := false; lastGenerationDate := Some Sample.today |}
      None in
  response = Triggered /\ file' = None.
Proof.
  apply (trigger_reports_success_without_generating
           [ "127.0.0.1"; "::1" ] "::ffff:127.0.0.1"
           (Sample.passEnv Sample.newsOnly) Sample.today
           {| isGenerating := false; lastGenerationDate := Some Sample.today |}
           None).
  - reflexivity.
  - reflexivity.
  - left. reflexivity.
Defined.

End ScheduleFacts.

Section DateKeyFacts.

Import Calendar Gate DateKey.
Local Open Scope Z_scope.

Lemma range_In lo hi n :
  lo <= n <= hi -> In n (range lo hi).
Proof.
  intro H. unfold range. apply in_map_iff.
  exists (Z.to_nat (n - lo)). split; [lia|].
  apply in_seq. lia.
Qed.

Lemma years_spelled n :
  1000 <= n <= 9999 -> spellsYear n (numberText n) = true.
Proof.
  intro H.
  assert (forallb (fun y => spellsYear y (numberText y)) (range 1000 9999) = true)
    as Hall by (vm_compute; reflexivity).
  rewrite forallb_forall in Hall. apply Hall, range_In. lia.
Qed.

Lemma days_spelled n :
  1 <= n <= 31 -> spellsTwo n (padStart2 (numberText n)) = true.
Proof.
  intro H.
  assert (forallb (fun d => spellsTwo d (padStart2 (numberText d))) (range 1 31)
          = true) as Hall by (vm_compute; reflexivity).
  rewrite forallb_forall in Hall. apply Hall, range_In. lia.
Qed.

Lemma isDash_dash : Store.isDash "-"%char = true.
Proof. reflexivity. Qed.

(** A key put together from a spelled year, month and day. *)
Lemma spelled_key y m d (ys ms ds : string) :
  spellsYear y ys = true -> spellsTwo m ms = true -> spellsTwo d ds = true ->
  1 <= m <= 12 -> 1 <= d <= 31 ->
  Store.isDateFormat (ys ++ "-" ++ ms ++ "-" ++ ds) = true
  /\ Store.dateValue (ys ++ "-" ++ ms ++ "-" ++ ds)
     = Some (daysFromCivil y m d * 86400000).
Proof.
  unfold spellsYear, spellsTwo. intros Hy Hm Hd Hmr Hdr.
  destruct ys as [|y1 [|y2 [|y3 [|y4 [|y5 ys]]]]]; try discriminate.
  destruct ms as [|m1 [|m2 [|m3 ms]]]; try discriminate.
  destruct ds as [|d1 [|d2 [|d3 ds]]]; try discriminate.
  cbn [list_ascii_of_string] in Hy, Hm, Hd.
  do 4 (apply andb_true_iff in Hy; destruct Hy as [Hy ?]).
  do 2 (apply andb_true_iff in Hm; destruct Hm as [Hm ?]).
  do 2 (apply andb_true_iff in Hd; destruct Hd as [Hd ?]).
  repeat match goal with
         | E : (_ =? _) = true |- _ => apply Z.eqb_eq in E
         end.
  assert (Store.isDateFormat
            (String y1 (String y2 (String y3 (String y4 ""))) ++ "-"
               ++ String m1 (String m2 "") ++ "-" ++ String d1 (String d2 ""))
          = true) as Hfmt.
  { unfold Store.isDateFormat. cbn [append list_ascii_of_string].
    rewrite isDash_dash.
    repeat match goal with
           | E : Store.isDigit ?c = true |- _ => rewrite E; clear E
           end.
    reflexivity. }
  split; [exact Hfmt|].
  unfold Store.dateValue. rewrite Hfmt.
  cbn [append list_ascii_of_string]. cbv zeta.
  repeat match goal with
         | E : _ = y |- _ => rewrite E; clear E
         | E : _ = m |- _ => rewrite E; clear E
         | E : _ = d |- _ => rewrite E; clear E
         end.
  assert ((1 <=? m) && (m <=? 12) && (1 <=? d) && (d <=? 31) = true) as ->.
  { repeat (apply andb_true_iff; split); apply Z.leb_le; lia. }
  reflexivity.
Qed.

(** X22. The key the browser builds for a local date (year 1000 to 9999)
    has the form the history endpoint requires, is not taken for a
    malformed key, and reads back on the server as that same calendar
    day. *)
Theorem local_date_key_reads_back (date : WallClock) :
  1000 <= getFullYear date <= 9999 ->
  0 <= getMonth date <= 11 ->
  1 <= getDate date <= 31 ->
  Store.isDateFormat (getLocalDateString date) = true
  /\ Store.isMalformedKey (getLocalDateString date) = false
  /\ Store.dateValue (getLocalDateString date)
     = Some (daysFromCivil (getFullYear date) (getMonth date + 1) (getDate date)
             * 86400000).
Proof.
  intros Hy Hm Hd. unfold getLocalDateString. cbv zeta.
  destruct (spelled_key (getFullYear date) (getMonth date + 1) (getDate date)
              (numberText (getFullYear date))
              (padStart2 (numberText (getMonth date + 1)))
              (padStart2 (numberText (getDate date))))
    as [Hfmt Hval].
  - now apply years_spelled.
  - apply days_spelled. lia.
  - now apply days_spelled.
  - lia.
  - lia.
  - split; [exact Hfmt|]. split; [|exact Hval].
    now apply dateFormat_not_malformed.
Qed.

Lemma local_date_key_reads_back_witness :
  getLocalDateString Sample.mondayNight = Sample.today
  /\ Store.isDateFormat (getLocalDateString Sample.mondayNight) = true
  /\ Store.isMalformedKey (getLocalDateString Sample.mondayNight) = false
  /\ Store.dateValue (getLocalDateString Sample.mondayNight)
     = Some (daysFromCivil 2024 11 4 * 86400000).
Proof.
  split; [reflexivity|].
  apply (local_date_key_reads_back Sample.mondayNight);
    cbn [getFullYear getMonth getDate Sample.mondayNight]; lia.
Defined.

End DateKeyFacts.

Section WidgetFacts.

Import Widget.

Lemma existsb_eqb_In (symbol : string) (l : list string) :
  existsb (String.eqb symbol) l = true <-> In symbol l.
Proof.
  rewrite existsb_exists. split.
  - intros (x & Hin & E). apply String.eqb_eq in E. now subst.
  - intro H. exists symbol. split; [exact H|apply String.eqb_refl].
Qed.

Lemma addToWatchlist_NoDup symbol watchlist :
  NoDup watchlist -> NoDup (addToWatchlist symbol watchlist).
Proof.
  intro H. unfold addToWatchlist.
  destruct (existsb (String.eqb symbol) watchlist) eqn:E; [exact H|].
  assert (~ In symbol watchlist) as Hnot.
  { intro Hin. apply existsb_eqb_In in Hin. congruence. }
  clear E. induction H as [|x l Hx Hl IH]; simpl.
  - constructor; [intros []|constructor].
  - constructor.
    + rewrite in_app_iff. intros [Hin|[->|[]]]; [contradiction|].
      apply Hnot. now left.
    + apply IH. intro Hin. apply Hnot. now right.
Qed.

Lemma removeFromWatchlist_NoDup symbol watchlist :
  NoDup watchlist -> NoDup (removeFromWatchlist symbol watchlist).
Proof. apply NoDup_filter. Qed.

Lemma removeFromWatchlist_In symbol watchlist s :
  In s (removeFromWatchlist symbol watchlist) <-> In s watchlist /\ s <> symbol.
Proof.
  unfold removeFromWatchlist. rewrite filter_In, negb_true_iff, String.eqb_neq.
  reflexivity.
Qed.

Lemma addToWatchlist_In symbol watchlist s :
  In s (addToWatchlist symbol watchlist) <-> In s watchlist \/ s = symbol.
Proof.
  unfold addToWatchlist.
  destruct (existsb (String.eqb symbol) watchlist) eqn:E.
  - apply existsb_eqb_In in E. split; [auto|]. intros [H| ->]; assumption.
  - rewrite in_app_iff. simpl. intuition congruence.
Qed.

(** X23. Starting from a watchlist without repetition, no sequence of
    additions and removals makes a symbol appear twice; a symbol is on the
    list right after it is added and off it right after it is removed, and
    removing a symbol that was added to a list without it gives that list
    back. *)
Theorem watchlist_without_repetition (watchlist : list string)
        (actions : list Action) :
  NoDup watchlist ->
  let current := fold_left act actions watchlist in
  NoDup current
  /\ (forall symbol,
         In symbol (addToWatchlist symbol current)
         /\ ~ In symbol (removeFromWatchlist symbol current)
         /\ (~ In symbol current ->
             removeFromWatchlist symbol (addToWatchlist symbol current) = current)).
Proof.
  intros Hnodup current.
  assert (NoDup current) as Hcurrent.
  { subst current. revert watchlist Hnodup.
    induction actions as [|a actions IH]; intros watchlist Hnodup; [exact Hnodup|].
    simpl. apply IH. destruct a; simpl.
    - now apply addToWatchlist_NoDup.
    - now apply removeFromWatchlist_NoDup. }
  split; [exact Hcurrent|]. intro symbol. split; [|split].
  - apply addToWatchlist_In. now right.
  - rewrite removeFromWatchlist_In. intros [_ H]. now apply H.
  - intro Hnot. unfold addToWatchlist.
    destruct (existsb (String.eqb symbol) current) eqn:E.
    + apply existsb_eqb_In in E. contradiction.
    + unfold removeFromWatchlist. rewrite filter_app. simpl.
      rewrite String.eqb_refl. simpl. rewrite app_nil_r.
      clear E Hcurrent. generalize dependent current. intro current.
      induction current as [|x l IH]; intro Hnot; [reflexivity|].
      simpl. destruct (x =? symbol)%string eqn:E.
      * apply String.eqb_eq in E. subst x. exfalso. apply Hnot. now left.
      * simpl. f_equal. apply IH. intro H. apply Hnot. now right.
Qed.

Lemma watchlist_without_repetition_witness :
  NoDup (fold_left act [ Add "NVDA"; Add "BTC-USD"; Add "NVDA"; Remove "AAPL" ]
                   [ "AAPL"; "NVDA" ])
  /\ fold_left act [ Add "NVDA"; Add "BTC-USD"; Add "NVDA"; Remove "AAPL" ]
               [ "AAPL"; "NVDA" ]
     = [ "NVDA"; "BTC-USD" ].
Proof.
  split; [|reflexivity].
  apply (watchlist_without_repetition [ "AAPL"; "NVDA" ]
           [ Add "NVDA"; Add "BTC-USD"; Add "NVDA"; Remove "AAPL" ]).
  repeat constructor; simpl; intuition discriminate.
Defined.

(** With the comparator of the dashboard, insertion puts a stock behind
    the crypto entries when it is none, and in front when it is one. *)
Lemma insertSorted_cryptoFirst (x : Stock) (l : list Stock) :
  Store.insertSorted cryptoFirst x
    (filter isCrypto l ++ filter (fun s => negb (isCrypto s)) l)
  = if isCrypto x
    then x :: filter isCrypto l ++ filter (fun s => negb (isCrypto s)) l
    else filter isCrypto l ++ x :: filter (fun s => negb (isCrypto s)) l.
Proof.
  assert (forall front back,
             Forall (fun s => isCrypto s = true) front ->
             Forall (fun s => isCrypto s = false) back ->
             Store.insertSorted cryptoFirst x (front ++ back)
             = if isCrypto x then x :: front ++ back else front ++ x :: back)
    as Hins.
  { intros front back Hfront Hback.
    destruct (isCrypto x) eqn:Ex.
    - destruct (front ++ back) as [|y rest] eqn:E; [reflexivity|].
      simpl. unfold cryptoFirst. cbv zeta. rewrite Ex.
      now destruct (isCrypto y).
    - induction Hfront as [|y front Hy Hfront IH]; simpl.
      + destruct Hback as [|y back Hy Hback]; [reflexivity|].
        simpl. unfold cryptoFirst. cbv zeta. now rewrite Ex, Hy.
      + unfold cryptoFirst at 1. cbv zeta. rewrite Ex, Hy. simpl.
        now rewrite IH. }
  apply Hins; apply Forall_forall; intros s Hs; apply filter_In in Hs;
    destruct Hs as [_ Hs]; [exact Hs|now apply negb_true_iff].
Qed.

Lemma sort_cryptoFirst (l : list Stock) :
  Store.sort cryptoFirst l
  = filter isCrypto l ++ filter (fun s => negb (isCrypto s)) l.
Proof.
  induction l as [|x l IH]; [reflexivity|].
  simpl. rewrite IH, insertSorted_cryptoFirst.
  now destruct (isCrypto x).
Qed.

(** X24. When the bulk answer arrives, the dashboard shows the entries
    without an error in the order of the answer while the widget's
    market check says open, and otherwise the crypto entries first, then
    the others, each group in the order of the answer.  The market check
    is the widget's: a symbol field holding a -USD symbol counts as
    open, so then nothing is reordered even on a weekend. *)
Theorem dashboard_order (symbolsToFetch : list string) (values : list Stock)
        (stockSymbolInput : option string) (etNow : Calendar.WallClock)
        (topStocks : list Stock) :
  symbolsToFetch <> [] ->
  let shown := filter (fun stock => negb (Js.truthy (error stock))) values in
  let result := fetchTopStocks symbolsToFetch (BulkJson values)
                               stockSymbolInput etNow topStocks in
  (Market.Finance.isMarketOpen stockSymbolInput etNow = true -> result = shown)
  /\ (Market.Finance.isMarketOpen stockSymbolInput etNow = false ->
      result = filter isCrypto shown
                 ++ filter (fun s => negb (isCrypto s)) shown)
  /\ (forall input,
         stockSymbolInput = Some input ->
         Js.endsWith "-USD" (Js.toUpperCase input) = true ->
         result = shown).
Proof.
  intros Hne shown result. subst result. unfold fetchTopStocks.
  destruct symbolsToFetch as [|s rest]; [contradiction|]. cbv zeta.
  fold shown.
  assert (forall input, stockSymbolInput = Some input ->
            Js.endsWith "-USD" (Js.toUpperCase input) = true ->
            Market.Finance.isMarketOpen stockSymbolInput etNow = true) as Hcrypto.
  { intros input -> H. unfold Market.Finance.isMarketOpen. cbv zeta.
    now rewrite H. }
  split; [|split].
  - intros ->. reflexivity.
  - intros ->. cbn [negb]. apply sort_cryptoFirst.
  - intros input Hin H. now rewrite (Hcrypto input Hin H).
Qed.

Lemma dashboard_order_witness :
  fetchTopStocks [ "AAPL"; "XX"; "BTC-USD" ]
    (BulkJson [ {| symbol := "AAPL"; price := Some "222.91"; error := None |};
                {| symbol := "XX"; price := None;
                   error := Some "No data available" |};
                {| symbol := "BTC-USD"; price := Some "67000"; error := None |} ])
    None Sample.saturday2024 []
  = [ {| symbol := "BTC-USD"; price := Some "67000"; error := None |};
      {| symbol := "AAPL"; price := Some "222.91"; error := None |} ].
Proof.
  destruct (dashboard_order [ "AAPL"; "XX"; "BTC-USD" ]
              [ {| symbol := "AAPL"; price := Some "222.91"; error := None |};
                {| symbol := "XX"; price := None;
                   error := Some "No data available" |};
                {| symbol := "BTC-USD"; price := Some "67000"; error := None |} ]
              None Sample.saturday2024 [])
    as (_ & Hclosed & _); [discriminate|].
  exact (Hclosed eq_refl).
Defined.

End WidgetFacts.

Section GoodFridayFacts.

Import Calendar Computus.
Local Open Scope Z_scope.

Lemma isGoodFriday_unfolded (d : WallClock) :
  Market.isGoodFriday d
  = let '(gy, gm, gd) := goodFriday (getFullYear d) in
    (getFullYear d =? gy) && (getMonth d + 1 =? gm) && (getDate d =? gd).
Proof. reflexivity. Qed.

Lemma goodFriday_checked (year : Z) :
  1900 <= year <= 2199 -> fridayInSpring (goodFriday year) = true.
Proof.
  intro H.
  assert (forallb (fun y => fridayInSpring (goodFriday y))
                  (DateKey.range 1900 2199) = true)
    as Hall by (vm_compute; reflexivity).
  rewrite forallb_forall in Hall. apply Hall, range_In. exact H.
Qed.

(** X25. For the years 1900 to 2199, a day that isGoodFriday accepts is a
    Friday in March or April, and the server's market check answers
    closed on it at every hour.  The widget's check answers on it what
    its symbol field decides alone: open when the field holds a symbol
    ending in -USD, whatever the case of its letters, and closed with
    any other content or without the field. *)
Theorem good_friday_is_a_closed_friday (d : WallClock) :
  1900 <= getFullYear d <= 2199 ->
  Market.isGoodFriday d = true ->
  getDay d = 5
  /\ (getMonth d = 2 \/ getMonth d = 3)
  /\ Market.Server.isMarketOpen d = false
  /\ forall stockSymbolInput,
      Market.Finance.isMarketOpen stockSymbolInput d
      = match stockSymbolInput with
        | Some value => Js.endsWith "-USD" (Js.toUpperCase value)
        | None => false
        end.
Proof.
  intros Hyear Hgf.
  assert (Market.isHoliday d = true) as Hholiday.
  { unfold Market.isHoliday. cbv zeta. rewrite Hgf.
    repeat match goal with |- (if ?c then _ else _) = _ => destruct c end;
      reflexivity. }
  rewrite isGoodFriday_unfolded in Hgf.
  pose proof (goodFriday_checked _ Hyear) as Hchk.
  destruct (goodFriday (getFullYear d)) as [[gy gm] gd].
  unfold fridayInSpring in Hchk.
  apply andb_true_iff in Hgf. destruct Hgf as [Hgf Hd].
  apply andb_true_iff in Hgf. destruct Hgf as [Hy Hm].
  apply andb_true_iff in Hchk. destruct Hchk as [Hw Hs].
  apply Z.eqb_eq in Hy, Hm, Hd, Hw.
  split; [|split; [|split]].
  - unfold getDay. now rewrite Hy, Hm, Hd.
  - apply orb_true_iff in Hs. destruct Hs as [Hs|Hs]; apply Z.eqb_eq in Hs; lia.
  - unfold Market.Server.isMarketOpen. now apply inSession_holiday.
  - intros [value|]; unfold Market.Finance.isMarketOpen; cbv zeta.
    + destruct (Js.endsWith "-USD" (Js.toUpperCase value)); [reflexivity|].
      now apply inSession_holiday.
    + change (Js.endsWith "-USD" "^IXIC") with false. cbv iota.
      now apply inSession_holiday.
Qed.

Lemma good_friday_is_a_closed_friday_witness :
  let d := {| getFullYear := 2024; getMonth := 2; getDate := 29;
              getHours := 10; getMinutes := 0 |} in
  getDay d = 5
  /\ (getMonth d = 2 \/ getMonth d = 3)
  /\ Market.Server.isMarketOpen d = false
  /\ Market.Finance.isMarketOpen None d = false
  /\ Market.Finance.isMarketOpen (Some "aapl") d = false
  /\ Market.Finance.isMarketOpen (Some "btc-usd") d = true.
Proof.
  intro d.
  destruct (good_friday_is_a_closed_friday d) as (Hday & Hmonth & Hserver & Hwidget).
  - cbn [getFullYear d]. lia.
  - vm_compute. reflexivity.
  - split; [exact Hday|]. split; [exact Hmonth|]. split; [exact Hserver|].
    rewrite !Hwidget. split; [reflexivity|]. split; reflexivity.
Defined.

End GoodFridayFacts.

Section ParserAnatomyFacts.

Import Parser ParserVocab.





End ParserAnatomyFacts.

Section ParserRoundTripFacts.

Import Parser ParserVocab.

Lemma startsWith_plain (p s : string) (c : ascii) :
  beginsMarked p -> plainChar c = true -> Js.startsWith p (String c s) = false.
Proof.
  intros (c0 & p' & -> & Hc0) Hc. simpl.
  destruct (Ascii.eqb c0 c) eqn:E; [|reflexivity].
  apply Ascii.eqb_eq in E. subst c0. congruence.
Qed.

Lemma plain_app a b : plain (a ++ b) = plain a && plain b.
Proof.
  induction a as [|c a IH]; simpl; [reflexivity|].
  now rewrite IH, andb_assoc.
Qed.

(** The search passes over a plain stretch. *)
Lemma search_plain heads rest a s :
  (forall h, In h heads -> beginsMarked h) ->
  plain a = true ->
  search heads rest (a ++ s) = search heads rest s.
Proof.
  intros Hheads. induction a as [|c a IH]; intro Hp; [reflexivity|].
  simpl in Hp. apply andb_true_iff in Hp. destruct Hp as [Hc Hp].
  change (String c a ++ s)%string with (String c (a ++ s)).
  cbn [search]. rewrite matchHere_none; [now apply IH|].
  intros h Hin. apply startsWith_plain; [now apply Hheads|exact Hc].
Qed.

(** The lazy group takes a plain stretch whole when a terminator
    follows it. *)
Lemma lazyUntil_plain stops a s :
  (forall t, In t stops -> beginsMarked t) ->
  plain a = true ->
  anyPrefix stops s = true ->
  lazyUntil stops (a ++ s) = Some a.
Proof.
  intros Hstops. induction a as [|c a IH]; intros Hp Hs.
  - simpl. destruct s; simpl in *; now rewrite Hs.
  - simpl in Hp. apply andb_true_iff in Hp. destruct Hp as [Hc Hp].
    change (String c a ++ s)%string with (String c (a ++ s)).
    cbn [lazyUntil].
    assert (anyPrefix stops (String c (a ++ s)) = false) as ->.
    { unfold anyPrefix. apply not_true_is_false. intro H.
      apply existsb_exists in H. destruct H as (t & Hin & Ht).
      rewrite (startsWith_plain t (a ++ s) c (Hstops t Hin) Hc) in Ht.
      discriminate. }
    now rewrite (IH Hp Hs).
Qed.

Lemma marked_heads h c h' :
  h = String c h' -> plainChar c = false ->
  forall x, In x (headerSpellings h) -> beginsMarked x.
Proof.
  intros -> Hc x [<-|[<-|[<-|[]]]].
  - exists "*"%char. eexists. split; [reflexivity|reflexivity].
  - exists c. eexists. split; [reflexivity|exact Hc].
  - exists c. eexists. split; [reflexivity|exact Hc].
Qed.

Lemma marked_stops n c n' :
  n = String c n' -> plainChar c = false ->
  forall x, In x (terminators n) -> beginsMarked x.
Proof.
  intros -> Hc x [<-|[<-|[<-|[<-|[]]]]].
  - exists "*"%char. eexists. split; [reflexivity|reflexivity].
  - exists c. eexists. split; [reflexivity|exact Hc].
  - exists c. eexists. split; [reflexivity|exact Hc].
  - exists "-"%char. eexists. split; [reflexivity|reflexivity].
Qed.

Lemma plain_lines a : plain a = true -> plain (newline ++ a ++ newline) = true.
Proof. intro H. rewrite !plain_app, H. reflexivity. Qed.

Lemma search_matchHere heads rest s g :
  matchHere heads rest s = Some g -> search heads rest s = Some g.
Proof. intro H. destruct s; simpl; now rewrite H. Qed.

(** At a bold header the first spelling matches. *)
Lemma search_bold h rest X g :
  rest X = Some g ->
  search (headerSpellings h) rest (("**" ++ h ++ "**") ++ X) = Some g.
Proof.
  intro H. apply search_matchHere. unfold headerSpellings.
  cbn [matchHere]. now rewrite startsWith_app, drop_app, H.
Qed.

Lemma trimEnd_line s : Js.trimEnd (s ++ newline) = Js.trimEnd s.
Proof. unfold Js.trimEnd. now rewrite rev_string_app. Qed.

Lemma trim_lines a : Js.trim (newline ++ a ++ newline) = Js.trim a.
Proof.
  unfold Js.trim.
  change (Js.trimStart (newline ++ a ++ newline))
    with (Js.trimStart (a ++ newline)).
  induction a as [|c a IH]; [reflexivity|].
  change (String c a ++ newline)%string with (String c (a ++ newline)).
  cbn [Js.trimStart]. destruct (Js.isWhiteSpace c); [exact IH|].
  apply (trimEnd_line (String c a)).
Qed.

Lemma regroup (a T : string) :
  (newline ++ a ++ newline ++ T)%string = ((newline ++ a ++ newline) ++ T)%string.
Proof. now rewrite !append_assoc. Qed.

(** X27. A reply laid out as the prompt asks, with the four bold headers in
    order, each on its own line, and with bodies in which no character
    could begin a header or a rule, is split back into exactly its four
    bodies, trimmed; the last body may be any text. *)
Theorem well_formed_reply_round_trip (a b c d : string) :
  plain a = true -> plain b = true -> plain c = true ->
  parseAutomatedSummarySections (reply a b c d)
  = {| news := Some (Js.trim a);
       trends := Some (Js.trim b);
       finance := Some (Js.trim c);
       insights := Some (Js.trim d) |}.
Proof.
  intros Ha Hb Hc.
  pose proof (plain_lines a Ha) as HA.
  pose proof (plain_lines b Hb) as HB.
  pose proof (plain_lines c Hc) as HC.
  unfold reply.
  set (T4 := ("**INFO GENIE**" ++ newline ++ d)%string).
  rewrite (regroup c T4).
  set (C := (newline ++ c ++ newline)%string) in *.
  set (T3 := ("**MARKET OVERVIEW**" ++ C ++ T4)%string).
  rewrite (regroup b T3).
  set (B := (newline ++ b ++ newline)%string) in *.
  set (T2 := ("**TRENDING TOPICS**" ++ B ++ T3)%string).
  rewrite (regroup a T2).
  set (A := (newline ++ a ++ newline)%string) in *.
  assert (sectionBefore "NEWS HIGHLIGHTS" "TRENDING TOPICS"
            ("**NEWS HIGHLIGHTS**" ++ A ++ T2) = Some A) as Hnews.
  { unfold sectionBefore.
    apply (search_bold "NEWS HIGHLIGHTS" _ (A ++ T2) A).
    apply lazyUntil_plain; [|exact HA|reflexivity].
    now apply (marked_stops "TRENDING TOPICS" "T" "RENDING TOPICS"). }
  assert (forall rest,
            search (headerSpellings "TRENDING TOPICS") rest
                   ("**NEWS HIGHLIGHTS**" ++ A ++ T2)
            = search (headerSpellings "TRENDING TOPICS") rest T2) as Hskip2.
  { intro rest.
    change (search (headerSpellings "TRENDING TOPICS") rest
                   ("**NEWS HIGHLIGHTS**" ++ A ++ T2))
      with (search (headerSpellings "TRENDING TOPICS") rest (A ++ T2)).
    apply search_plain; [|exact HA].
    now apply (marked_heads "TRENDING TOPICS" "T" "RENDING TOPICS"). }
  assert (sectionBefore "TRENDING TOPICS" "MARKET OVERVIEW"
            ("**NEWS HIGHLIGHTS**" ++ A ++ T2) = Some B) as Htrends.
  { unfold sectionBefore. rewrite Hskip2.
    apply (search_bold "TRENDING TOPICS" _ (B ++ T3) B).
    apply lazyUntil_plain; [|exact HB|reflexivity].
    now apply (marked_stops "MARKET OVERVIEW" "M" "ARKET OVERVIEW"). }
  assert (forall rest,
            search (headerSpellings "MARKET OVERVIEW") rest
                   ("**NEWS HIGHLIGHTS**" ++ A ++ T2)
            = search (headerSpellings "MARKET OVERVIEW") rest T3) as Hskip3.
  { intro rest.
    change (search (headerSpellings "MARKET OVERVIEW") rest
                   ("**NEWS HIGHLIGHTS**" ++ A ++ T2))
      with (search (headerSpellings "MARKET OVERVIEW") rest (A ++ T2)).
    rewrite search_plain;
      [|now apply (marked_heads "MARKET OVERVIEW" "M" "ARKET OVERVIEW")|exact HA].
    change (search (headerSpellings "MARKET OVERVIEW") rest T2)
      with (search (headerSpellings "MARKET OVERVIEW") rest (B ++ T3)).
    apply search_plain; [|exact HB].
    now apply (marked_heads "MARKET OVERVIEW" "M" "ARKET OVERVIEW"). }
  assert (sectionBefore "MARKET OVERVIEW" "INFO GENIE"
            ("**NEWS HIGHLIGHTS**" ++ A ++ T2) = Some C) as Hfinance.
  { unfold sectionBefore. rewrite Hskip3.
    apply (search_bold "MARKET OVERVIEW" _ (C ++ T4) C).
    apply lazyUntil_plain; [|exact HC|reflexivity].
    now apply (marked_stops "INFO GENIE" "I" "NFO GENIE"). }
  assert (sectionToEnd "INFO GENIE" ("**NEWS HIGHLIGHTS**" ++ A ++ T2)
          = Some (newline ++ d)%string) as Hinsights.
  { unfold sectionToEnd.
    pose proof (marked_heads "INFO GENIE" "I" "NFO GENIE" eq_refl eq_refl) as Hm.
    change (search (headerSpellings "INFO GENIE") (fun s => Some s)
                   ("**NEWS HIGHLIGHTS**" ++ A ++ T2))
      with (search (headerSpellings "INFO GENIE") (fun s => Some s) (A ++ T2)).
    rewrite (search_plain _ _ A T2 Hm HA).
    change (search (headerSpellings "INFO GENIE") (fun s => Some s) T2)
      with (search (headerSpellings "INFO GENIE") (fun s => Some s) (B ++ T3)).
    rewrite (search_plain _ _ B T3 Hm HB).
    change (search (headerSpellings "INFO GENIE") (fun s => Some s) T3)
      with (search (headerSpellings "INFO GENIE") (fun s => Some s) (C ++ T4)).
    rewrite (search_plain _ _ C T4 Hm HC).
    apply (search_bold "INFO GENIE" (fun s => Some s) (newline ++ d)).
    reflexivity. }
  unfold parseAutomatedSummarySections.
  rewrite Hnews, Htrends, Hfinance, Hinsights. cbn [option_map].
  subst A B C. now rewrite !trim_lines.
Qed.

Lemma well_formed_reply_round_trip_witness :
  parseAutomatedSummarySections
    (reply "rates were held" " an eclipse " "stocks rose"
           "Tomorrow - **MARKET OVERVIEW** again")
  = {| news := Some "rates were held";
       trends := Some "an eclipse";
       finance := Some "stocks rose";
       insights := Some "Tomorrow - **MARKET OVERVIEW** again" |}.
Proof.
  apply (well_formed_reply_round_trip "rates were held" " an eclipse "
           "stocks rose" "Tomorrow - **MARKET OVERVIEW** again");
    reflexivity.
Defined.

End ParserRoundTripFacts.

Section ArrayBucketFacts.

Import Store.

Lemma sameRegion_other language country language' country' summary :
  language' <> language \/ country' <> country ->
  sameRegion language' country' summary = true ->
  sameRegion language country summary = false.
Proof.
  unfold sameRegion. intros Hne H.
  apply andb_true_iff in H. destruct H as [Hl Hc].
  apply strictEq_true in Hl, Hc. rewrite Hl, Hc. cbn [Js.strictEq].
  apply andb_false_iff.
  destruct Hne as [Hne|Hne]; [left|right]; apply String.eqb_neq; congruence.
Qed.

Lemma filter_other_region language country language' country' l :
  language' <> language \/ country' <> country ->
  filter (sameRegion language' country')
         (filter (fun summary => negb (sameRegion language country summary)) l)
  = filter (sameRegion language' country') l.
Proof.
  intro Hne. induction l as [|x l IH]; [reflexivity|].
  simpl. destruct (sameRegion language country x) eqn:E; simpl.
  - destruct (sameRegion language' country' x) eqn:E'; [|exact IH].
    rewrite (sameRegion_other _ _ _ _ _ Hne E') in E. discriminate.
  - destruct (sameRegion language' country' x); [now rewrite IH|exact IH].
Qed.

(** X28. Once a date holds an array of summaries, a save keeps it an
    array, leaves exactly one record for the saved region, the new one,
    and leaves the records of every other region as they were, in their
    order. *)
Theorem array_save_replaces_its_region
        (env : SaveEnv) (summaries : Archive) (existing : list Summary)
        (data : SummaryData) (date language country : string) :
  get summaries date = Some (Many existing) ->
  writeOk env = true ->
  exists summaries' after,
    saveDailySummary env (Some summaries) data date language country
    = (true, Some summaries')
    /\ get summaries' date = Some (Many after)
    /\ filter (sameRegion language country) after
       = [withMetadata env data language country]
    /\ forall language' country',
        language' <> language \/ country' <> country ->
        filter (sameRegion language' country') after
        = filter (sameRegion language' country') existing.
Proof.
  intros Hget Hw. unfold saveDailySummary. rewrite Hget, Hw.
  eexists. eexists. split; [reflexivity|]. split; [apply get_set_same|]. split.
  - rewrite filter_app. simpl. rewrite sameRegion_withMetadata.
    rewrite filter_none; [reflexivity|].
    intros x Hx. apply filter_In in Hx. destruct Hx as [_ Hx].
    now apply negb_true_iff in Hx.
  - intros language' country' Hne. rewrite filter_app.
    rewrite (filter_other_region _ _ _ _ _ Hne). simpl.
    assert (sameRegion language' country' (withMetadata env data language country)
            = false) as ->.
    { destruct (sameRegion language' country' _) eqn:E; [|reflexivity].
      pose proof (sameRegion_withMetadata env data language country) as H.
      pose proof (sameRegion_other _ _ _ _ _ Hne E) as H'. congruence. }
    apply app_nil_r.
Qed.

Lemma array_save_replaces_its_region_witness :
  exists summaries' after,
    saveDailySummary Sample.saveEnv (Some Sample.mixedArchive)
                     (Sample.summaryData "evening") "2024-11-04" "en" "US"
    = (true, Some summaries')
    /\ get summaries' "2024-11-04" = Some (Many after)
    /\ filter (sameRegion "en" "US") after
       = [withMetadata Sample.saveEnv (Sample.summaryData "evening") "en" "US"].
Proof.
  destruct (array_save_replaces_its_region Sample.saveEnv Sample.mixedArchive
              _ (Sample.summaryData "evening") "2024-11-04" "en" "US"
              eq_refl eq_refl)
    as (summaries' & after & H1 & H2 & H3 & _).
  exists summaries', after. auto.
Defined.

End ArrayBucketFacts.

Section GuardCompositionFacts.

Import Generator.

Lemma collected_news_present response headlines trends finance :
  Collectors.collectAutomatedNewsData response = Some headlines ->
  newsMissing {| news := Some headlines; trends := trends; finance := finance |}
  = false.
Proof.
  destruct response as [| |[articles|]];
    unfold Collectors.collectAutomatedNewsData; try discriminate.
  destruct (List.length articles =? 0)%nat eqn:E; [discriminate|].
  apply Nat.eqb_neq in E. intro H.
  assert (headlines = map Collectors.headlineOf (firstn 5 articles)) as ->
    by congruence.
  clear H.
  assert (List.length (map Collectors.headlineOf (firstn 5 articles))
          = Nat.min 5 (List.length articles)) as Hlen
    by now rewrite length_map, length_firstn.
  unfold newsMissing. cbn [news]. rewrite Hlen.
  destruct (Nat.min 5 (List.length articles)) eqn:M; [lia|reflexivity].
Qed.

(** After the guard a pass ends with one of three other lines. *)
Lemma pass_after_guard env region date file sectionData :
  Store.loadDailySummary file date (language region) (country region) = None ->
  collected env = Some sectionData ->
  newsMissing sectionData && financeMissing sectionData = false ->
  fst (generateSummaryForRegion env region date file) <> InsufficientData.
Proof.
  intros Hload Hcollected Hguard. unfold generateSummaryForRegion.
  rewrite Hload, Hcollected, Hguard.
  destruct (usable (fst (Llm.generateAutomatedSummary (create env))));
    [|discriminate].
  cbv zeta.
  match goal with
  | |- context [Store.saveDailySummary ?e ?f ?d ?dt ?l ?c] =>
      destruct (Store.saveDailySummary e f d dt l c) as [[|] file']
  end; discriminate.
Qed.

(** X29. With the collectors as they are, a pass for a day without a
    summary stops for insufficient data exactly when the news collector
    returned null and the bulk quote request itself failed: an answer of
    the bulk endpoint counts as finance data whatever it holds, also when
    it holds no quote at all. *)
Theorem insufficient_only_when_requests_fail
        (env : PassEnv) (region : Region) (date : string)
        (file : option Store.Archive)
        (newsResponse : Collectors.NewsFetch)
        (trendsFetch : nat -> Collectors.TrendsFetch)
        (financeResponse : Collectors.FinanceFetch) :
  collected env
  = Collectors.collectAutomatedSectionData newsResponse trendsFetch
                                           financeResponse ->
  Store.loadDailySummary file date (language region) (country region) = None ->
  fst (generateSummaryForRegion env region date file) = InsufficientData
  <-> Collectors.collectAutomatedNewsData newsResponse = None
      /\ Collectors.sortQuotes financeResponse = None.
Proof.
  intros Hcollected Hload.
  unfold Collectors.collectAutomatedSectionData in Hcollected.
  destruct (Collectors.collectAutomatedNewsData newsResponse)
    as [headlines|] eqn:Hnews.
  - split; [|intros [H _]; discriminate].
    intro H. exfalso. revert H.
    eapply pass_after_guard; [exact Hload|exact Hcollected|].
    now rewrite (collected_news_present newsResponse headlines _ _ Hnews).
  - unfold Collectors.collectAutomatedFinanceData in Hcollected.
    destruct (Collectors.sortQuotes financeResponse) as [quotes|] eqn:Hquotes.
    + split; [|intros [_ H]; discriminate].
      intro H. exfalso. revert H.
      eapply pass_after_guard; [exact Hload|exact Hcollected|].
      cbn [option_map]. rewrite financeData_has_keys. apply andb_false_r.
    + split; [auto|]. intros _. unfold generateSummaryForRegion.
      rewrite Hload, Hcollected. reflexivity.
Qed.

Lemma insufficient_only_when_requests_fail_witness :
  fst (generateSummaryForRegion
         (Sample.passEnv {| news := None; trends := None;
                            finance := Some (financeData None [] []) |})
         region Sample.today None) = InsufficientData
  <-> Collectors.collectAutomatedNewsData Collectors.NewsThrows = None
      /\ Collectors.sortQuotes (Collectors.FinanceJson []) = None.
Proof.
  apply (insufficient_only_when_requests_fail
           (Sample.passEnv {| news := None; trends := None;
                              finance := Some (financeData None [] []) |})
           region Sample.today None Collectors.NewsThrows
           (fun _ => Collectors.TrendsThrows) (Collectors.FinanceJson []));
    reflexivity.
Defined.

End GuardCompositionFacts.

Section BrowserSaveFacts.

Import Browser.





End BrowserSaveFacts.
